(** * Attendance PWA: local persistence and remote (Gist) synchronisation

    A shallow embedding of the two scripts carried by [src/index.html]:

    - the evidence module ([evidence-module.js], database
      [AsistenciasPRODB]), which stores one composite evidence record per
      worker and day, and
    - the application script ([app.js], database [AsistenciasDB]), which
      stores one evidence record per event, keeps the workers' counters and
      talks to the remote Gist through [fetchWithBackoff].

    Asynchronous functions are embedded in a small state-and-exception monad
    over the state of the page (the "world"): an [await] is a bind, a
    rejected promise or a [throw] is an abrupt completion, [try/catch] is
    [try_catch]; a promise that is never settled leaves the computation
    pending.  Writes to the browser console are not part of the world.

    A [string] holds the UTF-8 encoding of a text of the program, as the
    literals of this file do; where the code counts or compares the UTF-16
    code units of a text, the embedding computes them from the bytes. *)

From Stdlib Require Import ZArith Lia Ascii.
From Stdlib Require Import Floats.PrimFloat.
From stdpp Require Import base option list gmap strings sorting pretty.

Local Open Scope Z_scope.
Local Set Warnings "-register-all".

(** ** The platform: completions, JSON documents, HTTP *)

Module Js.

(** What a JavaScript computation can throw.  The text of a [TypeError]
    or of a [SyntaxError] names the place where the engine raises it; its
    wording is the engine's. *)
Inductive JsError : Type :=
| TypeError (msg : string)
| Error (msg : string)
| SyntaxError (msg : string)
| DOMException (name : string)
| NetworkFailure
| Event (type : string).       (* an event object handed to [reject] *)

(** How an asynchronous computation ends: it returns, it throws, or it
    waits for ever for a promise that nothing settles. *)
Inductive Completion (A : Type) : Type :=
| Normal (a : A)
| Thrown (e : JsError)
| Pending.
Arguments Normal {A} a.
Arguments Thrown {A} e.
Arguments Pending {A}.

(** A computation over a world [W]: effects made before a throw, or before
    the computation is left pending, stay. *)
Definition Eff (W A : Type) : Type := W → Completion A * W.

Definition ret {W A} (a : A) : Eff W A := λ w, (Normal a, w).

Definition bind {W A B} (m : Eff W A) (k : A → Eff W B) : Eff W B :=
  λ w, match m w with
       | (Normal a, w') => k a w'
       | (Thrown e, w') => (Thrown e, w')
       | (Pending, w') => (Pending, w')
       end.

Definition throw {W A} (e : JsError) : Eff W A := λ w, (Thrown e, w).

(** [await] of a promise that is never settled. *)
Definition never {W A} : Eff W A := λ w, (Pending, w).

Definition try_catch {W A} (m : Eff W A) (h : JsError → Eff W A) : Eff W A :=
  λ w, match m w with
       | (Normal a, w') => (Normal a, w')
       | (Thrown e, w') => h e w'
       | (Pending, w') => (Pending, w')
       end.

Definition gets {W A} (f : W → A) : Eff W A := λ w, (Normal (f w), w).
Definition modify {W} (f : W → W) : Eff W unit := λ w, (Normal tt, f w).

(** A JSON document.  [JNum n] is a number that is an integer, [JDouble x]
    a finite number that the code holds as a double; [JIsoTime ms] stands
    for the string [new Date(ms).toISOString()], which is kept symbolic. *)
Inductive Json : Type :=
| JNull
| JBool (b : bool)
| JNum (n : Z)
| JDouble (x : float)
| JStr (s : string)
| JIsoTime (ms : Z)
| JArr (items : list Json)
| JObj (fields : list (string * Json)).

Definition JOpt {A} (f : A → Json) (o : option A) : Json :=
  match o with Some a => f a | None => JNull end.

(** [JSON.stringify] of a double: [NaN] and the infinities are written as
    [null]. *)
Definition JNumber (x : float) : Json :=
  if is_nan x || is_infinity x then JNull else JDouble x.

(** A text shown or sent: a literal; a literal followed by the rendering
    of a time ([toISOString], [toLocaleTimeString]), kept symbolic; or two
    literals around the [message] of an error that the engine raised,
    whose wording is the engine's. *)
Inductive Text : Type :=
| Lit (s : string)
| LitTime (s : string) (ms : Z)
| LitMessage (before : string) (e : JsError) (after : string).
Coercion Lit : string >-> Text.

(** [before + e.message + after].  The message of an [Error] that the
    program made is the text it was made with; the message of any other
    error is worded by the engine. *)
Definition with_message (before : string) (e : JsError) (after : string) : Text :=
  match e with
  | Error m => Lit (before +:+ m +:+ after)
  | _ => LitMessage before e after
  end.

(** *** Texts as the code counts and compares them *)

Definition byte (c : ascii) : Z := Z.of_N (N_of_ascii c).

(** The UTF-16 code units of a text, from its UTF-8 bytes. *)
Fixpoint code_units (s : string) : list Z :=
  match s with
  | EmptyString => []
  | String a rest =>
      if byte a <? 128 then byte a :: code_units rest
      else if byte a <? 224 then
        match rest with
        | String b rest' =>
            ((byte a - 192) * 64 + (byte b - 128)) :: code_units rest'
        | EmptyString => [byte a]
        end
      else if byte a <? 240 then
        match rest with
        | String b (String c rest') =>
            ((byte a - 224) * 4096 + (byte b - 128) * 64 + (byte c - 128))
              :: code_units rest'
        | _ => byte a :: code_units rest
        end
      else
        match rest with
        | String b (String c (String d rest')) =>
            let point := (byte a - 240) * 262144 + (byte b - 128) * 4096
                         + (byte c - 128) * 64 + (byte d - 128) in
            (55296 + (point - 65536) / 1024)
              :: (56320 + (point - 65536) mod 1024) :: code_units rest'
        | _ => byte a :: code_units rest
        end
  end.

(** The order of two sequences of code units, the first difference
    deciding. *)
Fixpoint units_le (a b : list Z) : bool :=
  match a, b with
  | [], _ => true
  | _ :: _, [] => false
  | x :: a', y :: b' => (x <? y) || ((x =? y) && units_le a' b')
  end.

(** The order in which an object store keeps keys that are strings. *)
Definition key_le (a b : string) : bool := units_le (code_units a) (code_units b).

(** The body of a [PATCH]: [{description, files: {name: {content}}}].
    The [content] of a file is [JSON.stringify (doc, null, 2)]; the
    embedding keeps the document [doc] itself. *)
Record Payload : Type := mkPayload {
  description : Text;
  files : list (string * Json)
}.

Record Request : Type := mkRequest {
  method : string;
  url : string;
  headers : list (string * string);
  body : option Payload
}.

(** [!s] for a string: only the empty string is falsy. *)
Definition falsy (s : string) : bool := String.eqb s "".

(** [response.ok]: the status is in the range 200-299. *)
Definition status_ok (status : Z) : bool := (200 <=? status) && (status <=? 299).

End Js.

Export Js.

Declare Scope eff_scope.
Delimit Scope eff_scope with eff.
Notation "x <- m ;; k" := (bind m (λ x, k))
  (at level 100, m at next level, right associativity) : eff_scope.
Notation "m ;;; k" := (bind m (λ _, k))
  (at level 100, right associativity) : eff_scope.
Local Open Scope eff_scope.

(** ** The evidence module (composite records, one per worker and day) *)

Module EvidenceModule.

Definition GIST_FILE_NAME : string := "gestion_asistencias_pro_full.json".

(** [record.validatedEntry = ocrResult || true]: [null] until the slot is
    filled, then [true] or the OCR payload [{raw}]. *)
Inductive Validated : Type :=
| VNull
| VTrue
| VOcr (raw : string).

Record EvidenceRecord : Type := mkEvidence {
  id : string;
  userId : string;
  fecha : string;
  entrada : option string;
  salida : option string;
  validatedEntry : Validated;
  validatedExit : Validated;
  timestamp : Z
}.

(** An entry of the light index kept in [localStorage]. *)
Record IndexEntry : Type := mkIndexEntry {
  ix_id : string;
  ix_userId : string;
  ix_fecha : string;
  ix_tipo : string;
  ix_createdAt : Z
}.

Record GistConfig : Type := mkGistConfig {
  cfg_id : string;
  cfg_token : string
}.

(** A record of the [config] store: [{key, value}], the [value] being
    [None] when it is missing or falsy. *)
Record ConfigRecord : Type := mkConfigRecord {
  key : string;
  value : option GistConfig
}.

(** The object stores of [AsistenciasPRODB], each keyed by its key path. *)
Record Database : Type := mkDatabase {
  users : gmap string Json;
  evidences : gmap string EvidenceRecord;
  config : gmap string ConfigRecord
}.

Inductive UiEvent : Type :=
| Toast (msg : string) (isError : bool)
| Preview (elId : string) (dataUrl : string).

Inductive FetchOutcome : Type :=
| Rejected
| Responded (status : Z).

(** The remote end: what the [n]-th call of [fetch] (counting from 0)
    answers to a request. *)
Definition Server : Type := nat → Request → FetchOutcome.

Record World : Type := mkWorld {
  db : option Database;                     (* [let db = null] until openDB *)
  localIndex : option (list IndexEntry);    (* localStorage['evidencias_index'] *)
  clock : Z;                                (* what Date.now() reads *)
  ui : list UiEvent;
  sent : list Request;                      (* requests handed to fetch *)
  server : Server
}.

Definition set_db (d : Database) (w : World) : World :=
  mkWorld (Some d) (localIndex w) (clock w) (ui w) (sent w) (server w).
Definition set_localIndex (l : list IndexEntry) (w : World) : World :=
  mkWorld (db w) (Some l) (clock w) (ui w) (sent w) (server w).
Definition add_ui (e : UiEvent) (w : World) : World :=
  mkWorld (db w) (localIndex w) (clock w) (ui w ++ [e]) (sent w) (server w).
Definition add_sent (r : Request) (w : World) : World :=
  mkWorld (db w) (localIndex w) (clock w) (ui w) (sent w ++ [r]) (server w).

(** An object store: how to read it, write it, and its key path. *)
Record StoreRef (V : Type) : Type := mkStoreRef {
  contents : Database → gmap string V;
  replace : gmap string V → Database → Database;
  keyPath : V → string
}.
Arguments contents {V} s d.
Arguments replace {V} s m d.
Arguments keyPath {V} s v.

Definition STORES_EVIDENCES : StoreRef EvidenceRecord :=
  mkStoreRef EvidenceRecord evidences
    (λ m d, mkDatabase (users d) m (config d)) id.

Definition json_id (j : Json) : string :=
  match j with
  | JObj fields =>
      match list_find (λ kv, kv.1 = "id") fields with
      | Some (_, (_, JStr s)) => s
      | _ => ""
      end
  | _ => ""
  end.

Definition STORES_USERS : StoreRef Json :=
  mkStoreRef Json users
    (λ m d, mkDatabase m (evidences d) (config d)) json_id.

Definition STORES_CONFIG : StoreRef ConfigRecord :=
  mkStoreRef ConfigRecord config
    (λ m d, mkDatabase (users d) (evidences d) m) key.

(** [idbTransaction] dereferences [db]: with [db = null] it throws, and
    the [try/catch] of the request helpers turns that into a rejection. *)
Definition idbGet {V} (store : StoreRef V) (key : string) : Eff World (option V) :=
  λ w, match db w with
       | None => (Thrown (TypeError "db is null"), w)
       | Some d => (Normal (contents store d !! key), w)
       end.

Definition idbPut {V} (store : StoreRef V) (value : V) : Eff World string :=
  λ w, match db w with
       | None => (Thrown (TypeError "db is null"), w)
       | Some d =>
           let key := keyPath store value in
           (Normal key,
            set_db (replace store (<[key := value]> (contents store d)) d) w)
       end.

(** The records of a store in the order of their keys, as [getAll] lists
    them. *)
Definition in_key_order {V} (m : gmap string V) : list V :=
  (merge_sort (λ x y, key_le x.1 y.1) (map_to_list m)).*2.

Definition idbGetAll {V} (store : StoreRef V) : Eff World (list V) :=
  λ w, match db w with
       | None => (Thrown (TypeError "db is null"), w)
       | Some d => (Normal (in_key_order (contents store d)), w)
       end.

Definition Date_now : Eff World Z := gets clock.

Definition showToast (msg : string) (isError : bool) : Eff World unit :=
  modify (add_ui (Toast msg isError)).

(** The preview element is taken to be on the page. *)
Definition updatePreviewUI (tipo dataUrl : string) : Eff World unit :=
  let elId := if String.eqb tipo "entrada" then "preview-entrada" else "preview-salida" in
  modify (add_ui (Preview elId dataUrl)).

(** [API.getLocalIndex]: [JSON.parse (localStorage.getItem (KEY) || '[]')]. *)
Definition getLocalIndex (w : World) : list IndexEntry :=
  default [] (localIndex w).

Definition evidence_id (userId dateISO : string) : string :=
  userId +:+ "_" +:+ dateISO.

Definition or_true (ocrResult : option string) : Validated :=
  match ocrResult with
  | Some raw => VOcr raw
  | None => VTrue
  end.

Definition set_entrada (dataUrl : string) (v : Validated) (r : EvidenceRecord) : EvidenceRecord :=
  mkEvidence (id r) (userId r) (fecha r) (Some dataUrl) (salida r)
             v (validatedExit r) (timestamp r).

Definition set_salida (dataUrl : string) (v : Validated) (r : EvidenceRecord) : EvidenceRecord :=
  mkEvidence (id r) (userId r) (fecha r) (entrada r) (Some dataUrl)
             (validatedEntry r) v (timestamp r).

(** What the platform does with the two writes of a save, once the
    database is open. *)
Inductive Storage : Type :=
| Serves                     (* both writes are accepted *)
| PutFails (e : JsError)     (* the [put] fails: [e] is the event of the failed
                                request, or what [store.put] throws; nothing is
                                written *)
| IndexFull.                 (* [localStorage.setItem] throws: the quota is exceeded *)

(** [saveEvidenceForUser] on a platform that treats its writes as
    [storage] says.  The item of [localStorage] is the array that this
    function wrote before, or is absent: nothing else in the page writes
    it.  The [get] of an open database is taken to be served. *)
Definition saveEvidenceForUser_on (storage : Storage)
    (userId dateISO tipo dataUrl : string)
    (ocrResult : option string) : Eff World EvidenceRecord :=
  let id := evidence_id userId dateISO in
  try_catch
    (existing <- idbGet STORES_EVIDENCES id ;;
     now <- Date_now ;;
     let record :=
       default (mkEvidence id userId dateISO None None VNull VNull now) existing in
     let record :=
       if String.eqb tipo "entrada"
       then set_entrada dataUrl (or_true ocrResult) record
       else set_salida dataUrl (or_true ocrResult) record in
     match storage with
     | PutFails e => throw e
     | _ => idbPut STORES_EVIDENCES record
     end ;;;
     indexList <- gets getLocalIndex ;;
     createdAt <- Date_now ;;
     match storage with
     | IndexFull => throw (DOMException "QuotaExceededError")
     | _ => modify (set_localIndex
                      (indexList ++ [mkIndexEntry id userId dateISO tipo createdAt]))
     end ;;;
     showToast "Evidencia guardada localmente." false ;;;
     updatePreviewUI tipo dataUrl ;;;
     ret record)
    (λ e, throw e).

(** [saveEvidenceForUser] on a platform that accepts the writes, as its
    callers are followed here. *)
Definition saveEvidenceForUser : string → string → string → string →
    option string → Eff World EvidenceRecord :=
  saveEvidenceForUser_on Serves.

(** The slot of a record that an event kind writes. *)
Definition slot (tipo : string) (r : EvidenceRecord) : option string :=
  if String.eqb tipo "entrada" then entrada r else salida r.

(** *** Gist synchronisation of the evidence module *)

Definition no_config : GistConfig := mkGistConfig "" "".

Definition getGistConfig : Eff World GistConfig :=
  try_catch
    (cfg <- idbGet STORES_CONFIG "gist" ;;
     match cfg with
     | None => ret no_config
     | Some c => ret (default no_config (value c))
     end)
    (λ e, ret no_config).

Definition setGistConfig (gistId token : string) : Eff World unit :=
  idbPut STORES_CONFIG (mkConfigRecord "gist" (Some (mkGistConfig gistId token))) ;;;
  ret tt.

Definition validated_json (v : Validated) : Json :=
  match v with
  | VNull => JNull
  | VTrue => JBool true
  | VOcr raw => JObj [("raw", JStr raw)]
  end.

Definition evidence_json (r : EvidenceRecord) : Json :=
  JObj [("id", JStr (id r)); ("userId", JStr (userId r));
        ("fecha", JStr (fecha r));
        ("entrada", JOpt JStr (entrada r)); ("salida", JOpt JStr (salida r));
        ("validatedEntry", validated_json (validatedEntry r));
        ("validatedExit", validated_json (validatedExit r));
        ("timestamp", JNum (timestamp r))].

Definition fetch (req : Request) : Eff World Z :=
  λ w, let w' := add_sent req w in
       match server w (length (sent w)) req with
       | Rejected => (Thrown NetworkFailure, w')
       | Responded status => (Normal status, w')
       end.

(** The document that [syncToGist] serialises. *)
Definition sync_document (users : list Json) (evidences : list EvidenceRecord) : Json :=
  JObj [("users", JArr users); ("evidences", JArr (evidence_json <$> evidences))].

(** [syncToGist] resolves to [undefined] ([None]) when it is skipped, and
    to [true] or [false] otherwise. *)
Definition syncToGist : Eff World (option bool) :=
  cfg <- getGistConfig ;;
  if falsy (cfg_id cfg) || falsy (cfg_token cfg) then
    showToast "Gist no configurado — omitiendo sincronización." true ;;;
    ret None
  else
    try_catch
      (showToast "Sincronizando datos con Gist..." false ;;;
       users <- idbGetAll STORES_USERS ;;
       evidences <- idbGetAll STORES_EVIDENCES ;;
       now <- Date_now ;;
       let payload :=
         mkPayload (LitTime "Backup Asistencias PRO - " now)
                   [(GIST_FILE_NAME, sync_document users evidences)] in
       status <- fetch (mkRequest "PATCH"
                          ("https://api.github.com/gists/" +:+ cfg_id cfg)
                          [("Authorization", "token " +:+ cfg_token cfg);
                           ("Content-Type", "application/json")]
                          (Some payload)) ;;
       if status_ok status then
         showToast "Sincronización con Gist finalizada." false ;;;
         ret (Some true)
       else throw (Error ("HTTP " +:+ pretty status)))
      (λ e, showToast "Error sincronizando con Gist." true ;;;
            ret (Some false)).

(** *** Vocabulary of the statements *)

(** What the engine maintains of a store with a key path: every record is
    stored under the key that its key path gives. *)
Definition keyed {V} (store : StoreRef V) (d : Database) : Prop :=
  ∀ k v, contents store d !! k = Some v → keyPath store v = k.

(** The records of a store, as [getAll] lists them. *)
Definition all_records {V} (store : StoreRef V) (d : Database) : list V :=
  in_key_order (contents store d).

(** *** Worlds used in the examples *)

Definition offline : Server := λ _ _, Rejected.

Definition W1 : Json :=
  JObj [("id", JStr "W1"); ("name", JStr "Ana López");
        ("totalAssists", JNum 5); ("lastAssistance", JNull)].

(** The database is open, worker [W1] has five attendances, nothing else
    is stored. *)
Definition only_W1 : World :=
  mkWorld (Some (mkDatabase {[ "W1" := W1 ]} ∅ ∅)) None 1704880000000 [] [] offline.

(** [W1] has checked out on 2024-01-10 and not checked in. *)
Definition checked_out : EvidenceRecord :=
  mkEvidence "W1_2024-01-10" "W1" "2024-01-10" None (Some "img-out")
             VNull VTrue 1704870000000.

Definition day_db : Database :=
  mkDatabase {[ "W1" := W1 ]} {[ "W1_2024-01-10" := checked_out ]} ∅.

Definition after_checkout : World :=
  mkWorld (Some day_db) None 1704880000000 [] [] offline.

(** The same day, with a complete sync configuration stored. *)
Definition synced_db : Database :=
  mkDatabase {[ "W1" := W1 ]} {[ "W1_2024-01-10" := checked_out ]}
             {[ "gist" := mkConfigRecord "gist" (Some (mkGistConfig "abc" "tok")) ]}.

Definition with_config : World :=
  mkWorld (Some synced_db) None 1704880000000 [] [] offline.

(** *** The file input of the page *)

(** The module's own variables, around the world of the stores. *)
Record Page : Type := mkPage {
  world : World;
  tipoActual : option string;          (* [let tipoActual = null] *)
  activeUserId : option string;        (* [let activeUserId = window.activeUserId || null] *)
  window_activeUserId : option string  (* [window.activeUserId] *)
}.

Definition set_world (w : World) (p : Page) : Page :=
  mkPage w (tipoActual p) (activeUserId p) (window_activeUserId p).
Definition set_tipoActual (t : string) (p : Page) : Page :=
  mkPage (world p) (Some t) (activeUserId p) (window_activeUserId p).
Definition set_activeUserId (u : option string) (p : Page) : Page :=
  mkPage (world p) (tipoActual p) u (window_activeUserId p).

(** A computation on the stores, run from the page. *)
Definition lift {A} (m : Eff World A) : Eff Page A :=
  λ p, let '(c, w') := m (world p) in (c, set_world w' p).

(** A value that is a string, [null] or [undefined], used as a condition. *)
Definition truthy (o : option string) : bool :=
  match o with
  | Some s => negb (falsy s)
  | None => false
  end.

(** [x || d] for such a value. *)
Definition or_else (o : option string) (d : string) : string :=
  match o with
  | Some s => if falsy s then d else s
  | None => d
  end.

(** The chosen file, as [fileToDataURL (file, 1200, 0.7)] treats it: it
    decodes, and is drawn and re-encoded into a data URL, or it does not. *)
Inductive ImageFile : Type :=
| Decodable (dataUrl : string)
| Undecodable.

Definition fileToDataURL (file : ImageFile) : Eff World string :=
  match file with
  | Decodable dataUrl => ret dataUrl
  | Undecodable => throw (Event "error")
  end.

(** What recognition does with the image: the library is not loaded, it
    recognises a text (given here trimmed), or it fails. *)
Inductive Recognition : Type :=
| NoTesseract
| Recognised (text : string)
| RecognitionFailed.

Definition doOCRFromDataUrl (recognition : Recognition) : Eff World (option string) :=
  match recognition with
  | NoTesseract => ret None
  | Recognised text =>
      showToast "Iniciando OCR de la imagen..." false ;;;
      ret (Some text)
  | RecognitionFailed =>
      showToast "Iniciando OCR de la imagen..." false ;;;
      ret None
  end.

(** A timer: the clock moves on before its callback runs. *)
Definition later (ms : Z) : Eff World unit :=
  modify (λ w, mkWorld (db w) (localIndex w) (clock w + ms) (ui w) (sent w) (server w)).

(** A call whose promise is not awaited by the caller; a rejection goes to
    its own [catch]. *)
Definition detached {A} (m : Eff World A) : Eff World unit :=
  λ w, (Normal tt, snd (m w)).

Definition clickEntrada : Eff Page unit := modify (set_tipoActual "entrada").
Definition clickSalida : Eff Page unit := modify (set_tipoActual "salida").
Definition setActiveUser (userId : option string) : Eff Page unit :=
  modify (set_activeUserId userId).

(** The [change] listener of the file input, followed by the timer that it
    sets.  [file] is [this.files[0]] with what recognition will do with it,
    [dateEl] the value of the date field when the field exists, [today] the
    date of the day. *)
Definition onFileChange (file : option (ImageFile * Recognition))
    (dateEl : option string) (today : string) : Eff Page unit :=
  match file with
  | None => lift (showToast "No se seleccionó imagen." true)
  | Some (image, recognition) =>
      let selectedDate := default today dateEl in
      if falsy selectedDate then
        lift (showToast "Selecciona una fecha antes de subir la evidencia." true)
      else
        modify (λ p, if negb (truthy (activeUserId p)) && truthy (window_activeUserId p)
                     then set_activeUserId (window_activeUserId p) p else p) ;;;
        user <- gets activeUserId ;;
        if negb (truthy user) then
          lift (showToast "Selecciona un promotor antes de subir la evidencia." true)
        else
          try_catch
            (dataUrl <- lift (fileToDataURL image) ;;
             tipo <- gets (λ p, or_else (tipoActual p) "entrada") ;;
             lift (updatePreviewUI tipo dataUrl) ;;;
             ocrText <- lift (doOCRFromDataUrl recognition) ;;
             lift (saveEvidenceForUser (or_else user "") selectedDate tipo dataUrl
                     (if truthy ocrText then ocrText else None)) ;;;
             lift (later 300 ;;; detached syncToGist))
            (λ e, lift (showToast "Error procesando la imagen." true))
  end.

(** The parts of the world that a save or a push can touch. *)
Definition stored (w : World) : option Database * option (list IndexEntry) * list Request :=
  (db w, localIndex w, sent w).

(** An input that the listener turns down before it reads the image. *)
Definition turned_down (file : option (ImageFile * Recognition))
    (dateEl : option string) (today : string) (p : Page) : Prop :=
  file = None ∨
  falsy (default today dateEl) = true ∨
  (truthy (activeUserId p) = false ∧ truthy (window_activeUserId p) = false).

(** The worker for whom the listener saves: the module's, or else the
    window's. *)
Definition effective_user (p : Page) : option string :=
  if negb (truthy (activeUserId p)) && truthy (window_activeUserId p)
  then window_activeUserId p else activeUserId p.

(** The database was not opened. *)
Definition closed : World :=
  mkWorld None None 1704880000000 [] [] offline.

Definition answering (status : Z) : Server := λ _ _, Responded status.

(** Worker [W1] is selected on the page, no button was pressed yet. *)
Definition selected (w : World) : Page := mkPage w None (Some "W1") None.

(** No worker is selected anywhere. *)
Definition unselected (w : World) : Page := mkPage w None None None.

End EvidenceModule.

(** ** The application script (one evidence record per event) *)

Module App.

Definition GIST_API_URL : string := "https://api.github.com/gists/".
Definition CONFIG_KEY : string := "gist_config".
Definition DATA_FILE : string := "asistencias_pro_data.json".

(** A worker.  [id] is [None] while the property is absent (the store
    then assigns it); [totalAssists] is [None] when missing or [null]. *)
Record Worker : Type := mkWorker {
  id : option Z;
  name : string;
  dni : string;
  totalAssists : option Z;
  lastAssistance : option string
}.

(** An evidence record of the per-event shape.  [amount] is a double:
    what [parseFloat] made of the form field, [NaN] included. *)
Record Evidence : Type := mkEvidence {
  ev_id : option Z;
  userId : Z;
  date : string;
  amount : float;
  notes : string;
  image : option string;
  timestamp : Z
}.

Record GistConfig : Type := mkGistConfig {
  gistId : string;
  token : string
}.

Definition INITIAL_USERS : list Worker :=
  [ mkWorker (Some 1) "Ana López" "12345678A" (Some 5) None;
    mkWorker (Some 2) "Roberto Gómez" "87654321B" (Some 3) None;
    mkWorker (Some 3) "Carla Pérez" "11223344C" (Some 8) None ].

(** *** Object stores with key path [id] and [autoIncrement] *)

(** The in-line key of a stored value. *)
Class Keyed (V : Type) : Type := {
  key_of : V → option Z;
  with_key : Z → V → V;
  without_key : V → V
}.

#[export] Instance worker_keyed : Keyed Worker := {
  key_of := id;
  with_key k u := mkWorker (Some k) (name u) (dni u) (totalAssists u) (lastAssistance u);
  without_key u := mkWorker None (name u) (dni u) (totalAssists u) (lastAssistance u)
}.

#[export] Instance evidence_keyed : Keyed Evidence := {
  key_of := ev_id;
  with_key k e :=
    mkEvidence (Some k) (userId e) (date e) (amount e) (notes e) (image e) (timestamp e);
  without_key e :=
    mkEvidence None (userId e) (date e) (amount e) (notes e) (image e) (timestamp e)
}.

(** An object store: its records in ascending key order, and the current
    number of its key generator (which [clear] does not reset). *)
Record ObjectStore (V : Type) : Type := mkObjectStore {
  records : list (Z * V);
  generator : Z
}.
Arguments mkObjectStore {V} records generator.
Arguments records {V} o.
Arguments generator {V} o.

Definition empty_store {V} : ObjectStore V := mkObjectStore [] 1.

Fixpoint store_lookup {V} (k : Z) (l : list (Z * V)) : option V :=
  match l with
  | [] => None
  | (k', v) :: l' => if k =? k' then Some v else store_lookup k l'
  end.

(** Insert-or-replace at the place the key order gives. *)
Fixpoint store_insert {V} (k : Z) (v : V) (l : list (Z * V)) : list (Z * V) :=
  match l with
  | [] => [(k, v)]
  | (k', v') :: l' =>
      if k <? k' then (k, v) :: l
      else if k =? k' then (k, v) :: l'
      else (k', v') :: store_insert k v l'
  end.

(** The key under which a value is stored: its own [id], which pushes the
    generator past it, or else the generator's number, which is then
    written into the stored value. *)
Definition resolve_key `{Keyed V} (v : V) (g : Z) : Z * V * Z :=
  match key_of v with
  | Some k => (k, v, if g <=? k then k + 1 else g)
  | None => (g, with_key g v, g + 1)
  end.

Definition store_put `{Keyed V} (v : V) (s : ObjectStore V) : Z * ObjectStore V :=
  let '(k, v', g') := resolve_key v (generator s) in
  (k, mkObjectStore (store_insert k v' (records s)) g').

(** [add] fails with a [ConstraintError] when the key is taken. *)
Definition store_add `{Keyed V} (v : V) (s : ObjectStore V) : JsError + ObjectStore V :=
  let '(k, v', g') := resolve_key v (generator s) in
  match store_lookup k (records s) with
  | Some _ => inl (DOMException "ConstraintError")
  | None => inr (mkObjectStore (store_insert k v' (records s)) g')
  end.

Definition store_clear {V} (s : ObjectStore V) : ObjectStore V :=
  mkObjectStore [] (generator s).

Definition store_getAll {V} (s : ObjectStore V) : list V := (records s).*2.

Record ConfigRecord : Type := mkConfigRecord {
  key : string;
  value : GistConfig
}.

Record Database : Type := mkDatabase {
  users : ObjectStore Worker;
  evidences : ObjectStore Evidence;
  config : gmap string ConfigRecord
}.

(** *** The page *)

Inductive NotificationType : Type := success | error.
Inductive Colour : Type := green | red.

Inductive UiEvent : Type :=
| Notification (message : Text) (type : NotificationType)
| Render (users : list Worker)
| CloseModal (modalId : string).

(** What [JSON.parse] makes of the content of the data file: [null], or a
    value with its members [users] and [evidences].  A member is [None]
    when it is missing, and also when it is not an array of records (a
    number, an object, an array of numbers, ...): the loop of
    [clearAndBulkAdd] then throws inside a callback of the transaction.
    The array-like values on which the loop would run (the empty string,
    an object with a [length]) are not followed. *)
Inductive RemoteData : Type :=
| NullDocument
| Document (users : option (list Worker)) (evidences : option (list Evidence)).

Record Response : Type := mkResponse {
  status : Z;
  (* [response.json ()]: the files of the Gist, each with its content as
     [JSON.parse] reads it; [None] where parsing fails *)
  gist : option (list (string * option RemoteData))
}.

Inductive FetchOutcome : Type :=
| Rejected
| Responded (response : Response).

(** The remote end: what the [n]-th call of [fetch] (counting from 0)
    answers to a request. *)
Definition Server : Type := nat → Request → FetchOutcome.

Inductive NetEvent : Type :=
| Fetch (req : Request)
| Wait (ms : Z).

Record World : Type := mkWorld {
  db : option Database;              (* [let db;] until openDB *)
  currentUserId : option Z;          (* [let currentUserId = null] *)
  clock : Z;                         (* milliseconds; timers advance it *)
  syncStatus : Text;                 (* text of #sync-status *)
  syncColour : option Colour;        (* its text-green-500 / text-red-500 *)
  ui : list UiEvent;
  trace : list NetEvent;             (* network attempts and timer waits *)
  server : Server
}.

Definition set_db (d : Database) (w : World) : World :=
  mkWorld (Some d) (currentUserId w) (clock w) (syncStatus w) (syncColour w)
          (ui w) (trace w) (server w).
Definition set_syncStatus (t : Text) (w : World) : World :=
  mkWorld (db w) (currentUserId w) (clock w) t (syncColour w)
          (ui w) (trace w) (server w).
Definition set_syncColour (c : Colour) (w : World) : World :=
  mkWorld (db w) (currentUserId w) (clock w) (syncStatus w) (Some c)
          (ui w) (trace w) (server w).
Definition add_ui (e : UiEvent) (w : World) : World :=
  mkWorld (db w) (currentUserId w) (clock w) (syncStatus w) (syncColour w)
          (ui w ++ [e]) (trace w) (server w).
Definition add_trace (e : NetEvent) (w : World) : World :=
  mkWorld (db w) (currentUserId w) (clock w) (syncStatus w) (syncColour w)
          (ui w) (trace w ++ [e]) (server w).
Definition advance (ms : Z) (w : World) : World :=
  mkWorld (db w) (currentUserId w) (clock w + ms) (syncStatus w) (syncColour w)
          (ui w) (trace w) (server w).

Definition is_fetch (e : NetEvent) : bool :=
  match e with Fetch _ => true | Wait _ => false end.

(** The network attempts and the timer waits recorded so far. *)
Definition attempts (w : World) : nat := length (filter is_fetch (trace w)).
Definition delays (w : World) : list Z :=
  omap (λ e, match e with Wait ms => Some ms | Fetch _ => None end) (trace w).

Record StoreRef (V : Type) : Type := mkStoreRef {
  contents : Database → ObjectStore V;
  replace : ObjectStore V → Database → Database;
  isEvidences : bool       (* storeName === STORES.EVIDENCES *)
}.
Arguments contents {V} s d.
Arguments replace {V} s o d.
Arguments isEvidences {V} s.

Definition STORES_USERS : StoreRef Worker :=
  mkStoreRef Worker users (λ o d, mkDatabase o (evidences d) (config d)) false.
Definition STORES_EVIDENCES : StoreRef Evidence :=
  mkStoreRef Evidence evidences (λ o d, mkDatabase (users d) o (config d)) true.

Definition not_open {A} : Eff World A :=
  throw (TypeError "Cannot read properties of undefined (reading 'transaction')").

Definition getAll {V} (store : StoreRef V) : Eff World (list V) :=
  λ w, match db w with
       | None => not_open w
       | Some d => (Normal (store_getAll (contents store d)), w)
       end.

Definition put `{Keyed V} (store : StoreRef V) (data : V) : Eff World Z :=
  λ w, match db w with
       | None => not_open w
       | Some d =>
           let '(k, s') := store_put data (contents store d) in
           (Normal k, set_db (replace store s' d) w)
       end.

Definition Date_now : Eff World Z := gets clock.
Definition showNotification (message : Text) (type : NotificationType) : Eff World unit :=
  modify (add_ui (Notification message type)).
(** The grid shows the workers handed over; the order of the cards is not
    part of the world. *)
Definition renderTeamGrid (users : list Worker) : Eff World unit :=
  modify (add_ui (Render users)).
Definition closeModal (modalId : string) : Eff World unit :=
  modify (add_ui (CloseModal modalId)).

(** *** [clearAndBulkAdd]: one read-write transaction *)

(** How the transaction ends.  When a request fails, and when the engine
    aborts the transaction before it has committed, the store is put back
    as it was when the transaction began. *)
Inductive TxResult (V : Type) : Type :=
| Committed (s : ObjectStore V)   (* every request succeeded, the commit too *)
| RequestFailed (e : JsError)     (* a request failed: its [onerror], then the abort *)
| Interrupted                     (* aborted with a request pending: its [onerror] *)
| Uncommitted.                    (* every request succeeded, the commit did not *)
Arguments Committed {V} s.
Arguments RequestFailed {V} e.
Arguments Interrupted {V}.
Arguments Uncommitted {V}.

Definition after_tx {V} (before : ObjectStore V) (r : TxResult V) : ObjectStore V :=
  match r with
  | Committed s => s
  | RequestFailed _ | Interrupted | Uncommitted => before
  end.

(** [!item.id] *)
Definition falsy_id (o : option Z) : bool :=
  match o with
  | None => true
  | Some k => k =? 0
  end.

(** [if (storeName === STORES.EVIDENCES && !item.id) delete item.id] *)
Definition strip_id `{Keyed V} (isEv : bool) (item : V) : V :=
  if isEv && falsy_id (key_of item) then without_key item else item.

Definition spent (life : option nat) : bool :=
  match life with
  | Some O => true
  | _ => false
  end.

(** The loop [addNext] on the working copy of the store.  [life] is what
    the engine grants the transaction: the number of steps (the requests,
    then the commit) that succeed before the engine aborts it, [None] when
    it does not abort it.  At the end of the array the code calls
    [resolve]; the transaction commits after that, if it still lives. *)
Fixpoint addNext `{Keyed V} (isEv : bool) (dataArray : list V)
    (life : option nat) (working : ObjectStore V) : TxResult V :=
  match dataArray with
  | [] => if spent life then Uncommitted else Committed working
  | item :: rest =>
      if spent life then Interrupted
      else
        match store_add (strip_id isEv item) working with
        | inl e => RequestFailed e
        | inr working' => addNext isEv rest (Nat.pred <$> life) working'
        end
  end.

Definition bulk_transaction `{Keyed V} (isEv : bool) (dataArray : list V)
    (life : option nat) (s : ObjectStore V) : TxResult V :=
  if spent life then Interrupted
  else addNext isEv dataArray (Nat.pred <$> life) (store_clear s).

(** [clearAndBulkAdd] in an engine that grants the transaction [life].
    The promise is resolved by the callback of the last request, before
    the commit, and the code listens to no event of the transaction
    itself: when only the commit fails, the caller has been told of a
    success and the store is as it was. *)
Definition clearAndBulkAdd_within `{Keyed V} (life : option nat)
    (store : StoreRef V) (dataArray : list V) : Eff World unit :=
  λ w, match db w with
       | None => not_open w
       | Some d =>
           match bulk_transaction (isEvidences store) dataArray life
                                  (contents store d) with
           | Committed s' => (Normal tt, set_db (replace store s' d) w)
           | Uncommitted => (Normal tt, w)
           | RequestFailed e => (Thrown e, w)
           | Interrupted => (Thrown (DOMException "AbortError"), w)
           end
       end.

(** [clearAndBulkAdd] when the engine lets the transaction complete, as
    its callers are followed here. *)
Definition clearAndBulkAdd `{Keyed V} (store : StoreRef V) (dataArray : list V)
    : Eff World unit :=
  clearAndBulkAdd_within None store dataArray.

(** [clearAndBulkAdd (storeName, member)] for a member of the remote
    document.  When the member is not an array of records, the callback
    of the clearing throws; the engine aborts the transaction for it, and
    nothing settles the promise. *)
Definition clearAndBulkAdd_member `{Keyed V} (store : StoreRef V)
    (member : option (list V)) : Eff World unit :=
  match member with
  | Some dataArray => clearAndBulkAdd store dataArray
  | None => λ w, match db w with
                 | None => not_open w
                 | Some _ => (Pending, w)
                 end
  end.

(** *** Gist synchronisation *)

Definition fetch (req : Request) : Eff World Response :=
  λ w, let w' := add_trace (Fetch req) w in
       match server w (attempts w) req with
       | Rejected => (Thrown NetworkFailure, w')
       | Responded response => (Normal response, w')
       end.

(** [await new Promise (resolve => setTimeout (resolve, ms))] *)
Definition sleep (ms : Z) : Eff World unit :=
  modify (λ w, advance ms (add_trace (Wait ms) w)).

(** How the [try] block of one iteration ends when it does not throw. *)
Inductive Attempt : Type :=
| Return (response : Response)
| FallThrough.

Definition NOT_FOUND : JsError := Error "Gist not found (404). Check Gist ID.".

Definition try_block (req : Request) : Eff World Attempt :=
  response <- fetch req ;;
  if status_ok (status response) then ret (Return response)
  else if status response =? 404 then throw NOT_FOUND
  else ret FallThrough.

Definition catch_block (i retries : nat) (error : JsError) : Eff World Attempt :=
  if (i =? retries - 1)%nat then throw error else ret FallThrough.

(** The [for] loop at index [i], with [n] iterations left; falling off
    its end, the function returns [undefined] ([None]). *)
Fixpoint backoff_loop (req : Request) (retries n i : nat)
    : Eff World (option Response) :=
  match n with
  | O => ret None
  | S n' =>
      r <- try_catch (try_block req) (catch_block i retries) ;;
      match r with
      | Return response => ret (Some response)
      | FallThrough =>
          sleep (2 ^ Z.of_nat i * 1000) ;;;
          backoff_loop req retries n' (S i)
      end
  end.

Definition fetchWithBackoff (req : Request) (retries : nat)
    : Eff World (option Response) :=
  backoff_loop req retries retries 0.

Definition DEFAULT_RETRIES : nat := 5.

(** [store.get] hands back a request object, not a promise: awaiting it
    yields that object, which is truthy and has no [value] property.  So
    with the database open the function returns [undefined] ([None]);
    when [db] is not set, the [TypeError] is caught and the empty
    configuration is returned. *)
Definition getGistConfig : Eff World (option GistConfig) :=
  try_catch
    (λ w, match db w with
          | None => not_open w
          | Some _ => (Normal None, w)
          end)
    (λ e, ret (Some (mkGistConfig "" ""))).

Definition updateGistConfig (newConfig : GistConfig) : Eff World unit :=
  λ w, match db w with
       | None => not_open w
       | Some d =>
           (Normal tt,
            set_db (mkDatabase (users d) (evidences d)
                      (<[CONFIG_KEY := mkConfigRecord CONFIG_KEY newConfig]> (config d))) w)
       end.

Definition REQUIRED : JsError :=
  Error "Gist ID y Token de GitHub son requeridos para la sincronización.".
Definition FILE_MISSING : JsError :=
  Error "El archivo 'asistencias_pro_data.json' no se encontró en el Gist.".

Definition file_content {A} (files : list (string * A)) (name : string) : option A :=
  snd <$> (snd <$> list_find (λ kv, kv.1 = name) files).

Definition loadDataFromGist (gistId token : string) : Eff World RemoteData :=
  if falsy gistId || falsy token then throw REQUIRED
  else
    let req := mkRequest "GET" (GIST_API_URL +:+ gistId)
                 [("Accept", "application/vnd.github.v3+json");
                  ("Authorization", "token " +:+ token)] None in
    response <- fetchWithBackoff req DEFAULT_RETRIES ;;
    match response with
    | None => throw (TypeError "Cannot read properties of undefined (reading 'json')")
    | Some response =>
        match gist response with
        | None => throw (SyntaxError "response.json")
        | Some files =>
            match file_content files DATA_FILE with
            | None => throw FILE_MISSING
            | Some None => throw (SyntaxError "JSON.parse")
            | Some (Some content) => ret content
            end
        end
    end.

Definition worker_json (u : Worker) : Json :=
  JObj [("id", JOpt JNum (id u)); ("name", JStr (name u)); ("dni", JStr (dni u));
        ("totalAssists", JOpt JNum (totalAssists u));
        ("lastAssistance", JOpt JStr (lastAssistance u))].

Definition evidence_json (e : Evidence) : Json :=
  JObj [("userId", JNum (userId e)); ("date", JStr (date e));
        ("amount", JNumber (amount e)); ("notes", JStr (notes e));
        ("image", JOpt JStr (image e)); ("timestamp", JIsoTime (timestamp e));
        ("id", JOpt JNum (ev_id e))].

(** [dataToSave] *)
Definition dataToSave (users : list Worker) (evidences : list Evidence) (now : Z) : Json :=
  JObj [("users", JArr (worker_json <$> users));
        ("evidences", JArr (evidence_json <$> evidences));
        ("lastSync", JIsoTime now)].

Definition push_request (gistId token : string) (doc : Json) : Request :=
  mkRequest "PATCH" (GIST_API_URL +:+ gistId)
    [("Accept", "application/vnd.github.v3+json");
     ("Authorization", "token " +:+ token);
     ("Content-Type", "application/json")]
    (Some (mkPayload (Lit "Datos de Asistencias PRO sincronizados automáticamente.")
                     [(DATA_FILE, doc)])).

Definition status_synced : Eff World unit :=
  now <- Date_now ;;
  modify (set_syncStatus (LitTime "Sincronizado: " now)) ;;;
  modify (set_syncColour green).

Definition status_failed : Eff World unit :=
  modify (set_syncStatus (Lit "Error de Sincronización")) ;;;
  modify (set_syncColour red).

Definition saveDataToGist (gistId token : string) : Eff World unit :=
  if falsy gistId || falsy token then ret tt
  else
    users <- getAll STORES_USERS ;;
    evidences <- getAll STORES_EVIDENCES ;;
    now <- Date_now ;;
    let req := push_request gistId token (dataToSave users evidences now) in
    try_catch
      (fetchWithBackoff req DEFAULT_RETRIES ;;;
       status_synced)
      (λ e, status_failed).

(** *** The handlers *)

(** A call whose promise nobody awaits: its effects happen, its rejection
    reaches no handler. *)
Definition detached {A} (m : Eff World A) : Eff World unit :=
  λ w, (Normal tt, snd (m w)).

Definition attend (dateValue : string) (u : Worker) : Worker :=
  mkWorker (id u) (name u) (dni u)
           (Some (default 0 (totalAssists u) + 1)) (Some dateValue).

Definition is_user (k : Z) (u : Worker) : bool := bool_decide (id u = Some k).

(** [allUsers] after [userToUpdate], one of its elements, was changed in
    place. *)
Fixpoint updated_in_place (k : Z) (dateValue : string) (allUsers : list Worker)
    : list Worker :=
  match allUsers with
  | [] => []
  | u :: rest =>
      if is_user k u then attend dateValue u :: rest
      else u :: updated_in_place k dateValue rest
  end.

Definition handleAttendanceSubmit (dateValue : string) (amountValue : float)
    (notesValue : string) (imageBase64 : option string) : Eff World unit :=
  cur <- gets currentUserId ;;
  match cur with
  | None => ret tt                              (* [!null] *)
  | Some currentUserId =>
      if currentUserId =? 0 then ret tt         (* [!0] *)
      else
        now <- Date_now ;;
        let newEvidence :=
          mkEvidence None currentUserId dateValue amountValue notesValue
                     imageBase64 now in
        try_catch
          (put STORES_EVIDENCES newEvidence ;;;
           allUsers <- getAll STORES_USERS ;;
           match find (is_user currentUserId) allUsers with
           | Some userToUpdate =>
               put STORES_USERS (attend dateValue userToUpdate) ;;; ret tt
           | None => ret tt
           end ;;;
           config <- getGistConfig ;;
           match config with
           | None =>
               throw (TypeError "Cannot read properties of undefined (reading 'gistId')")
           | Some config => detached (saveDataToGist (gistId config) (token config))
           end ;;;
           renderTeamGrid (updated_in_place currentUserId dateValue allUsers) ;;;
           closeModal "modal-ocr" ;;;
           showNotification "Asistencia registrada y sincronización iniciada." success)
          (λ e, showNotification
                  "Error al guardar la asistencia en el almacenamiento local." error)
  end.

(** [renderTeamGrid (remoteData.users)] *)
Definition renderTeamGrid_member (users : option (list Worker)) : Eff World unit :=
  match users with
  | Some users => renderTeamGrid users
  | None => throw (TypeError "Cannot read properties of undefined (reading 'sort')")
  end.

Definition initialDataLoad (gistId token : string) : Eff World unit :=
  try_catch
    (if negb (falsy gistId) && negb (falsy token) then
       remoteData <- loadDataFromGist gistId token ;;
       match remoteData with
       | NullDocument =>
           throw (TypeError "Cannot read properties of null (reading 'users')")
       | Document users evidences =>
           clearAndBulkAdd_member STORES_USERS users ;;;
           clearAndBulkAdd_member STORES_EVIDENCES evidences ;;;
           showNotification "Datos de asistencia cargados y sincronizados desde Gist."
                            success ;;;
           now <- Date_now ;;
           modify (set_syncStatus (LitTime "Sincronizado: " now)) ;;;
           renderTeamGrid_member users
       end
     else
       currentUsers <- getAll STORES_USERS ;;
       (if (length currentUsers =? 0)%nat then
          clearAndBulkAdd STORES_USERS INITIAL_USERS ;;;
          renderTeamGrid INITIAL_USERS
        else renderTeamGrid currentUsers) ;;;
       showNotification "Modo Offline/Local: Gist no configurado." error ;;;
       modify (set_syncStatus (Lit "Modo Local (Sin Gist)")))
    (λ e,
       showNotification (with_message "Error al cargar datos: " e ". Usando local.") error ;;;
       modify (set_syncStatus (Lit "Error de Carga Remota")) ;;;
       currentUsers <- getAll STORES_USERS ;;
       renderTeamGrid currentUsers).

(** *** Vocabulary of the statements *)

(** The effect of a piece of network activity on the world. *)
Definition replay_event (w : World) (e : NetEvent) : World :=
  match e with
  | Fetch req => add_trace (Fetch req) w
  | Wait ms => advance ms (add_trace (Wait ms) w)
  end.

Definition replay (evs : list NetEvent) (w : World) : World :=
  fold_left replay_event evs w.

(** [n] iterations from index [i] on, each an attempt and then a wait. *)
Fixpoint retry_schedule (req : Request) (n i : nat) : list NetEvent :=
  match n with
  | O => []
  | S n' => Fetch req :: Wait (2 ^ Z.of_nat i * 1000) :: retry_schedule req n' (S i)
  end.

(** Every request is answered, with a status that satisfies [P]. *)
Definition answers (P : Z → Prop) (w : World) : Prop :=
  ∀ n req, ∃ r, server w n req = Responded r ∧ P (status r).

Definition not_found (st : Z) : Prop := st = 404.
Definition transient (st : Z) : Prop := status_ok st = false ∧ st ≠ 404.

(** Network activity that sends nothing but the request [req]. *)
Definition only_sends (req : Request) (evs : list NetEvent) : Prop :=
  Forall (λ e, e = Fetch req ∨ ∃ ms, e = Wait ms) evs.

(** A configuration is complete when neither part is empty. *)
Definition configured (gistId token : string) : Prop :=
  falsy gistId = false ∧ falsy token = false.

(** What the engine maintains of a store: ascending keys, every record
    stored under its own [id], the generator past the keys. *)
Definition store_wf `{Keyed V} (s : ObjectStore V) : Prop :=
  StronglySorted Z.lt (records s).*1 ∧
  Forall (λ kv, key_of kv.2 = Some kv.1 ∧ kv.1 < generator s) (records s).

(** What the key path means for a type of records. *)
Class KeyedLaws (V : Type) `{Keyed V} : Prop := {
  key_with_key : ∀ k v, key_of (with_key k v) = Some k;
  key_without_key : ∀ v, key_of (without_key v) = None;
  without_with_key : ∀ k v, without_key (with_key k v) = without_key v;
  without_without_key : ∀ v, without_key (without_key v) = without_key v
}.

(** The records that the generator numbers from [g] on, in sequence. *)
Fixpoint numbered `{Keyed V} (g : Z) (items : list V) : list (Z * V) :=
  match items with
  | [] => []
  | item :: rest => (g, with_key g item) :: numbered (g + 1) rest
  end.

(** A sequence of records as a store that holds no other keeps it: each
    record with the key under which it is kept, which is the [id] that
    the record brings or else the next number of the generator, from [g]
    on; a number given is written into the record. *)
Fixpoint assigned `{Keyed V} (isEv : bool) (g : Z) (dataArray : list V) : list (Z * V) :=
  match dataArray with
  | [] => []
  | item :: rest =>
      let '(k, v, g') := resolve_key (strip_id isEv item) g in
      (k, v) :: assigned isEv g' rest
  end.

(** Keys that a store can still take: they differ from each other and
    none of them is in the store. *)
Definition keys_free {V} (ks : list Z) (l : list (Z * V)) : Prop :=
  NoDup ks ∧ Forall (λ k, store_lookup k l = None) ks.

(** The error of an [add] whose key is taken, and that of a request cut
    off by the abort of its transaction. *)
Definition CONSTRAINT : JsError := DOMException "ConstraintError".
Definition ABORT : JsError := DOMException "AbortError".

(** The evidence records attributed to a worker. *)
Definition events_of (k : Z) (d : Database) : list Evidence :=
  filter (λ e, userId e = k) (store_getAll (evidences d)).

(** *** Worlds used in the examples *)

Definition always (st : Z) : Server := λ _ _, Responded (mkResponse st None).
Definition unreachable : Server := λ _ _, Rejected.

Definition fresh (srv : Server) : World :=
  mkWorld (Some (mkDatabase empty_store empty_store ∅)) None 0 (Lit "") None [] [] srv.

(** Workers as a remote document may list them, without an [id]. *)
Definition unnumbered : list Worker := without_key <$> INITIAL_USERS.

Definition seeded (srv : Server) : World :=
  mkWorld (Some (mkDatabase (mkObjectStore (numbered 1 INITIAL_USERS) 4) empty_store ∅))
          (Some 1) 0 (Lit "") None [] [] srv.

(** *** Opening the database and starting the page *)

(** [openDB]: nothing to do when [db] is set; otherwise the engine opens
    the database (a new one has its stores empty), or fails. *)
Definition openDB (engine : JsError + Database) : Eff World unit :=
  λ w, match db w with
       | Some _ => (Normal tt, w)
       | None =>
           match engine with
           | inr d => (Normal tt, set_db d w)
           | inl e => (Thrown e, w)
           end
       end.

Definition CRITICAL : string :=
  "Fallo crítico al inicializar la DB. La aplicación no puede continuar.".

(** The [DOMContentLoaded] listener, up to the start-up load; the
    listeners that it registers afterwards are not part of the world. *)
Definition onDOMContentLoaded (engine : JsError + Database) : Eff World unit :=
  try_catch
    (openDB engine ;;;
     config <- getGistConfig ;;
     match config with
     | None => throw (TypeError "Cannot read properties of undefined (reading 'gistId')")
     | Some config => initialDataLoad (gistId config) (token config)
     end)
    (λ e, showNotification CRITICAL error).

(** [handleConfigSubmit]; [gistId] and [token] are the trimmed values of
    the two fields of the form. *)
Definition handleConfigSubmit (gistId token : string) : Eff World unit :=
  if negb (falsy gistId) && negb (falsy token) then
    updateGistConfig (mkGistConfig gistId token) ;;;
    closeModal "modal-config" ;;;
    showNotification "Configuración de Gist guardada. Intentando cargar datos..." success ;;;
    initialDataLoad gistId token
  else
    showNotification "Debe ingresar ID del Gist y Token." error.

(** *** Dates read by recognition *)

(** [s.split ('/')] *)
Fixpoint split_slash (s : string) : list string :=
  match s with
  | EmptyString => [""]
  | String c rest =>
      if Ascii.eqb c "/"%char then "" :: split_slash rest
      else match split_slash rest with
           | part :: parts => String c part :: parts
           | [] => [String c ""]
           end
  end.

Definition digit_value (c : ascii) : option Z :=
  if (48 <=? byte c) && (byte c <=? 57) then Some (byte c - 48) else None.

(** The white space and the line ends that [parseInt] skips ahead of
    the number: U+0009 to U+000D, U+0020, U+00A0, U+1680, U+2000 to
    U+200A, U+2028, U+2029, U+202F, U+205F, U+3000 and U+FEFF. *)
Definition space1 (a : Z) : bool := ((9 <=? a) && (a <=? 13)) || (a =? 32).
Definition space2 (a b : Z) : bool := (a =? 194) && (b =? 160).
Definition space3 (a b c : Z) : bool :=
  ((a =? 225) && (b =? 154) && (c =? 128))
  || ((a =? 226) && (b =? 128)
      && (((128 <=? c) && (c <=? 138)) || (c =? 168) || (c =? 169) || (c =? 175)))
  || ((a =? 226) && (b =? 129) && (c =? 159))
  || ((a =? 227) && (b =? 128) && (c =? 128))
  || ((a =? 239) && (b =? 187) && (c =? 191)).

Fixpoint skip_spaces (s : string) : string :=
  match s with
  | String a rest =>
      if space1 (byte a) then skip_spaces rest
      else
        match rest with
        | String b rest' =>
            if space2 (byte a) (byte b) then skip_spaces rest'
            else
              match rest' with
              | String c rest'' =>
                  if space3 (byte a) (byte b) (byte c) then skip_spaces rest'' else s
              | EmptyString => s
              end
        | EmptyString => s
        end
  | EmptyString => s
  end.

(** The value of the longest prefix of decimal digits, from [acc] on. *)
Fixpoint digits_from (acc : Z) (s : string) : Z :=
  match s with
  | String c rest =>
      match digit_value c with
      | Some d => digits_from (10 * acc + d) rest
      | None => acc
      end
  | EmptyString => acc
  end.

Definition unsigned_int (s : string) : option Z :=
  match s with
  | String c rest =>
      match digit_value c with
      | Some d => Some (digits_from d rest)
      | None => None
      end
  | EmptyString => None
  end.

(** The integer that [parseInt (s, 10)] reads; [None] when it reads none
    and returns [NaN].  What [parseInt] returns is the double nearest to
    this integer. *)
Definition parseInt10 (s : string) : option Z :=
  match skip_spaces s with
  | String "-"%char rest => Z.opp <$> unsigned_int rest
  | String "+"%char rest => unsigned_int rest
  | t => unsigned_int t
  end.

(** A number of the code, as far as the embedding follows it: [NaN]; an
    integer of at most 2^53 in size, which a double holds exactly; or a
    double beyond, which is not followed. *)
Inductive Number : Type :=
| NaN
| Exact (z : Z)
| Beyond.

Definition number_of (z : Z) : Number :=
  if Z.abs z <=? 2 ^ 53 then Exact z else Beyond.

(** [base + year] for an integer [base] that is exact. *)
Definition plus (base : Z) (year : Number) : Number :=
  match year with
  | NaN => NaN
  | Exact z => number_of (base + z)
  | Beyond => Beyond
  end.

Fixpoint zeros (n : nat) : string :=
  match n with
  | O => ""
  | S n' => String "0"%char (zeros n')
  end.

(** [s.padStart (2, '0')]: the length that counts is that in code
    units. *)
Definition padStart2 (s : string) : string :=
  zeros (2 - length (code_units s)) +:+ s.

(** The text [`${fullYear}-${month}-${day}`], the number apart. *)
Record DateText : Type := mkDateText {
  fullYear : Number;
  month : string;
  day : string
}.

(** The text written out, where the number is followed. *)
Definition written (t : DateText) : option string :=
  match fullYear t with
  | NaN => Some ("NaN-" +:+ month t +:+ "-" +:+ day t)
  | Exact z => Some (pretty z +:+ "-" +:+ month t +:+ "-" +:+ day t)
  | Beyond => None
  end.

(** [parseOCRDate]; [currentYear] is [new Date ().getFullYear ()], an
    integer.  The comparison is made on the integer read: rounding it to
    the nearest double does not move it across [currentYearShort + 10]. *)
Definition parseOCRDate (currentYear : Z) (ocrDateString : string) : option DateText :=
  match split_slash ocrDateString with
  | [part0; part1; part2] =>
      let year := parseInt10 part2 in
      let currentYearShort := currentYear - 2000 in
      let fullYear :=
        match year with
        | None => NaN
        | Some year =>
            if currentYearShort + 10 <? year
            then plus 1900 (number_of year) else plus 2000 (number_of year)
        end in
      let month := padStart2 part1 in
      let day := padStart2 part0 in
      Some (mkDateText fullYear month day)
  | _ => None
  end.

(** *** More vocabulary of the statements *)

(** The remote end cannot be reached: every [fetch] is rejected. *)
Definition rejects (w : World) : Prop :=
  ∀ n req, server w n req = Rejected.

(** The waits of [k] failed iterations in a row, from index [i] on. *)
Fixpoint backoff_waits (k i : nat) : list Z :=
  match k with
  | O => []
  | S k' => 2 ^ Z.of_nat i * 1000 :: backoff_waits k' (S i)
  end.

(** Both stores of records are well formed. *)
Definition db_wf (d : Database) : Prop :=
  store_wf (users d) ∧ store_wf (evidences d).

(** The keys of a store. *)
Definition store_keys {V} (s : ObjectStore V) : list Z := (records s).*1.

(** No character of the string is a slash. *)
Fixpoint slash_free (s : string) : bool :=
  match s with
  | EmptyString => true
  | String c rest => negb (Ascii.eqb c "/"%char) && slash_free rest
  end.

(** The number of slashes in a string. *)
Fixpoint slashes (s : string) : nat :=
  match s with
  | EmptyString => O
  | String c rest => ((if Ascii.eqb c "/"%char then 1 else 0) + slashes rest)%nat
  end.

(** The request of a pull. *)
Definition pull_request (gistId token : string) : Request :=
  mkRequest "GET" (GIST_API_URL +:+ gistId)
    [("Accept", "application/vnd.github.v3+json");
     ("Authorization", "token " +:+ token)] None.

(** What a push or a pull must not touch: the stores, the selection and
    what the page has shown. *)
Definition local_state (w : World) : option Database * option Z * list UiEvent :=
  (db w, currentUserId w, ui w).

(** Where the data file that the remote end serves parses to a value
    with members, both members are arrays of records. *)
Definition arrays_or_null (w : World) : Prop :=
  ∀ n req r files users evidences,
    server w n req = Responded r →
    gist r = Some files →
    file_content files DATA_FILE = Some (Some (Document users evidences)) →
    is_Some users ∧ is_Some evidences.

(** A remote end that answers 503 to the first [j] requests and 200, with
    the given body, from then on. *)
Definition flaky (j : nat) (files : option (list (string * option RemoteData))) : Server :=
  λ n _, if (n <? j)%nat then Responded (mkResponse 503 None)
         else Responded (mkResponse 200 files).

(** Worker 7 is selected but the workers' store does not hold it. *)
Definition stranger (srv : Server) : World :=
  mkWorld (Some (mkDatabase (mkObjectStore (numbered 1 INITIAL_USERS) 4) empty_store ∅))
          (Some 7) 0 (Lit "") None [] [] srv.

(** The database is open and the worker with [id] 0 is selected. *)
Definition zero_selected (srv : Server) : World :=
  mkWorld (Some (mkDatabase (mkObjectStore (numbered 0 INITIAL_USERS) 3) empty_store ∅))
          (Some 0) 0 (Lit "") None [] [] srv.

(** Nothing was opened yet. *)
Definition cold (srv : Server) : World :=
  mkWorld None None 0 (Lit "") None [] [] srv.

(** The remote document lists two evidence records with the same [id]. *)
Definition twice : list Evidence :=
  [ mkEvidence (Some 5) 1 "2024-01-10" 12.5%float "" None 0;
    mkEvidence (Some 5) 2 "2024-01-11" 8%float "" None 0 ].

(** One evidence record is stored locally, for worker 1. *)
Definition with_local_evidence (srv : Server) : World :=
  mkWorld (Some (mkDatabase (mkObjectStore (numbered 1 INITIAL_USERS) 4)
                   (mkObjectStore [(1, mkEvidence (Some 1) 1 "2024-01-09" 3%float "" None 0)] 2)
                   ∅))
          (Some 1) 0 (Lit "") None [] [] srv.

(** *** The listeners of the page *)

Definition set_currentUserId (k : option Z) (w : World) : World :=
  mkWorld (db w) k (clock w) (syncStatus w) (syncColour w)
          (ui w) (trace w) (server w).

(** [handleUserSelect]: the world keeps the selection; the title and the
    fields of the modal, which the function resets before it opens the
    modal, are not part of the world. *)
Definition handleUserSelect (userId : Z) (userName : string) : Eff World unit :=
  modify (set_currentUserId (Some userId)).

(** The events that the page listens to once it has started, with the
    values that the listeners read from the forms. *)
Inductive PageEvent : Type :=
| UserSelect (userId : Z) (userName : string)
| AttendanceSubmit (dateValue : string) (amountValue : float) (notesValue : string)
                   (imageBase64 : option string)
| ConfigSubmit (gistId token : string)
| CloseClick (modalId : string).

Definition dispatch (e : PageEvent) : Eff World unit :=
  match e with
  | UserSelect userId userName => handleUserSelect userId userName
  | AttendanceSubmit dateValue amountValue notesValue imageBase64 =>
      handleAttendanceSubmit dateValue amountValue notesValue imageBase64
  | ConfigSubmit gistId token => handleConfigSubmit gistId token
  | CloseClick modalId => closeModal modalId
  end.

(** Events that arrive one after the other, each when the listener of the
    one before has run to its end, or to the point where it is left
    pending; the page goes on whatever became of that listener.  The
    session gives how the listeners ended, in order. *)
Fixpoint session (events : list PageEvent) (w : World)
    : list (Completion unit) * World :=
  match events with
  | [] => ([], w)
  | e :: rest =>
      let '(c, w1) := dispatch e w in
      let '(cs, w') := session rest w1 in
      (c :: cs, w')
  end.

(** The key generators of [d'] are not behind those of [d]. *)
Definition generators_advance (d d' : Database) : Prop :=
  generator (users d) ≤ generator (users d') ∧
  generator (evidences d) ≤ generator (evidences d').

(** The event is not a submission of the configuration form. *)
Definition keeps_configuration (e : PageEvent) : bool :=
  match e with
  | ConfigSubmit _ _ => false
  | _ => true
  end.

End App.

(** ** Facts about the evidence module *)

Module EvidenceFacts.
Import EvidenceModule.

Lemma save_open (w : World) (d : Database) userId dateISO tipo dataUrl ocr :
  db w = Some d →
  let id := evidence_id userId dateISO in
  let base :=
    default (mkEvidence id userId dateISO None None VNull VNull (clock w))
            (evidences d !! id) in
  let r := if String.eqb tipo "entrada"
           then set_entrada dataUrl (or_true ocr) base
           else set_salida dataUrl (or_true ocr) base in
  saveEvidenceForUser userId dateISO tipo dataUrl ocr w =
    (Normal r,
     mkWorld (Some (mkDatabase (users d) (<[EvidenceModule.id r := r]> (evidences d)) (config d)))
             (Some (getLocalIndex w ++ [mkIndexEntry id userId dateISO tipo (clock w)]))
             (clock w)
             ((ui w ++ [Toast "Evidencia guardada localmente." false]) ++
              [Preview (if String.eqb tipo "entrada" then "preview-entrada"
                        else "preview-salida") dataUrl])
             (sent w) (server w)).
Proof.
  intros Hdb. destruct w as [dbw ix ck u sn sv]. simpl in Hdb. subst dbw.
  reflexivity.
Qed.

Lemma save_id tipo dataUrl ocr (base : EvidenceRecord) :
  id (if String.eqb tipo "entrada"
      then set_entrada dataUrl (or_true ocr) base
      else set_salida dataUrl (or_true ocr) base) = id base.
Proof. by destruct (String.eqb tipo "entrada"). Qed.

Lemma save_slot tipo dataUrl ocr (base : EvidenceRecord) :
  slot tipo (if String.eqb tipo "entrada"
             then set_entrada dataUrl (or_true ocr) base
             else set_salida dataUrl (or_true ocr) base) = Some dataUrl.
Proof. unfold slot. by destruct (String.eqb tipo "entrada"). Qed.

(** What one save does when the database is open: the record it returns
    is stored under the composite key, its slot holds the image, the
    other slot and the creation time of an existing record are kept, and
    the index gains one entry. *)
Lemma save_spec (w : World) (d : Database) userId dateISO tipo dataUrl ocr :
  db w = Some d →
  keyed STORES_EVIDENCES d →
  ∃ r w',
    saveEvidenceForUser userId dateISO tipo dataUrl ocr w = (Normal r, w') ∧
    db w' = Some (mkDatabase (users d)
                    (<[evidence_id userId dateISO := r]> (evidences d)) (config d)) ∧
    id r = evidence_id userId dateISO ∧
    slot tipo r = Some dataUrl ∧
    (∀ old, evidences d !! evidence_id userId dateISO = Some old →
       timestamp r = timestamp old ∧
       (tipo = "entrada" →
          salida r = salida old ∧ validatedExit r = validatedExit old) ∧
       (tipo ≠ "entrada" →
          entrada r = entrada old ∧ validatedEntry r = validatedEntry old)) ∧
    localIndex w' =
      Some (getLocalIndex w ++
            [mkIndexEntry (evidence_id userId dateISO) userId dateISO tipo (clock w)]) ∧
    clock w' = clock w.
Proof.
  intros Hdb Hk.
  pose proof (save_open w d userId dateISO tipo dataUrl ocr Hdb) as H.
  cbv zeta in H.
  set (base := default _ (evidences d !! evidence_id userId dateISO)) in H.
  assert (Hbase : id base = evidence_id userId dateISO).
  { subst base. destruct (evidences d !! evidence_id userId dateISO) eqn:E; simpl.
    - by apply (Hk _ _ E).
    - done. }
  rewrite save_id, Hbase in H.
  eexists _, _. split; [exact H |]. simpl.
  split; [done |]. split; [by rewrite save_id |]. split; [apply save_slot |].
  split; [| done].
  intros old Hold. subst base. rewrite Hold. simpl.
  destruct (String.eqb_spec tipo "entrada") as [-> | Hne]; simpl; naive_solver.
Qed.

Lemma keyed_insert (d : Database) (r : EvidenceRecord) :
  keyed STORES_EVIDENCES d →
  keyed STORES_EVIDENCES (mkDatabase (users d) (<[id r := r]> (evidences d)) (config d)).
Proof.
  intros Hk k v. simpl. rewrite lookup_insert.
  case_decide; [naive_solver | apply Hk].
Qed.

Lemma filter_none {A} (P : A → Prop) `{∀ x, Decision (P x)} (l : list A) :
  Forall (λ x, ¬ P x) l → filter P l = [].
Proof.
  induction 1 as [| x l Hx _ IH]; [done |].
  by rewrite filter_cons_False.
Qed.

(** A map lists exactly one binding for a key that it holds. *)
Lemma one_binding {V} (m : gmap string V) (k : string) (v : V) :
  m !! k = Some v →
  filter (λ kv, kv.1 = k) (map_to_list m) = [(k, v)].
Proof.
  intros Hm. apply Permutation_singleton_r.
  rewrite <- (insert_id m k v Hm), <- insert_delete_eq.
  rewrite map_to_list_insert by apply lookup_delete_eq.
  rewrite filter_cons_True by done.
  apply Permutation_cons; [done |].
  replace (filter (λ kv, kv.1 = k) (map_to_list (delete k m))) with (@nil (string * V));
    [done |].
  symmetry. apply filter_none. apply Forall_forall. intros [k' v'] Hin.
  apply elem_of_map_to_list in Hin. simpl. intros ->.
  by rewrite lookup_delete_eq in Hin.
Qed.

Lemma filter_by_key (k : string) (l : list (string * EvidenceRecord)) :
  Forall (λ kv, id kv.2 = kv.1) l →
  filter (λ r, id r = k) l.*2 = (filter (λ kv, kv.1 = k) l).*2.
Proof.
  induction 1 as [| [k' r] l Hr _ IH]; [done |]. simpl in Hr.
  rewrite fmap_cons. simpl.
  destruct (decide (k' = k)) as [-> | Hne].
  - rewrite !filter_cons_True by done. by rewrite fmap_cons, IH.
  - rewrite !filter_cons_False by (simpl; congruence). done.
Qed.

Lemma in_key_order_perm {V} (m : gmap string V) :
  in_key_order m ≡ₚ (map_to_list m).*2.
Proof. unfold in_key_order. by rewrite merge_sort_Permutation. Qed.

Lemma one_record (d : Database) (k : string) (r : EvidenceRecord) :
  keyed STORES_EVIDENCES d →
  evidences d !! k = Some r →
  filter (λ r, id r = k) (all_records STORES_EVIDENCES d) = [r].
Proof.
  intros Hk Hr. apply Permutation_singleton_r.
  unfold all_records. rewrite in_key_order_perm. simpl.
  rewrite filter_by_key.
  - by rewrite (one_binding _ _ _ Hr).
  - apply Forall_forall. intros [k' r'] Hin.
    apply elem_of_map_to_list in Hin. by apply (Hk _ _ Hin).
Qed.

(** What a save has done when it has completed. *)
Lemma save_done (w w' : World) userId dateISO tipo dataUrl ocr (r : EvidenceRecord) :
  saveEvidenceForUser userId dateISO tipo dataUrl ocr w = (Normal r, w') →
  ∃ d, db w = Some d ∧
       r = (let base :=
              default (mkEvidence (userId +:+ "_" +:+ dateISO) userId dateISO
                         None None VNull VNull (clock w))
                      (evidences d !! (userId +:+ "_" +:+ dateISO)) in
            if String.eqb tipo "entrada"
            then set_entrada dataUrl (or_true ocr) base
            else set_salida dataUrl (or_true ocr) base) ∧
       db w' = Some (mkDatabase (users d) (<[id r := r]> (evidences d)) (config d)).
Proof.
  intros H. destruct (db w) as [d |] eqn:Hdb.
  - rewrite (save_open w d userId dateISO tipo dataUrl ocr Hdb) in H.
    cbv zeta in H. injection H as <- <-. by exists d.
  - destruct w as [dbw ix ck u sn sv]. simpl in Hdb. subst dbw. discriminate H.
Qed.

(** C4. When evidence has been saved twice for the same worker, date and
    event kind, with two images and any time in between, the store holds
    exactly one record whose key is the worker's id, an underscore and the
    date; it is the record that the first save left, with the slot of the
    event kind and its mark replaced by those of the second save, so that
    the slot holds the second image while the other slot and the creation
    time are those of the first save; the second save adds no record and
    touches no record under another key. *)
Theorem C4_resave_updates_in_place (w w1 w2 : World) (d : Database)
    userId dateISO tipo img1 img2 ocr1 ocr2 (r1 r2 : EvidenceRecord) (ms : Z) :
  db w = Some d →
  keyed STORES_EVIDENCES d →
  saveEvidenceForUser userId dateISO tipo img1 ocr1 w = (Normal r1, w1) →
  (later ms ;;; saveEvidenceForUser userId dateISO tipo img2 ocr2) w1 = (Normal r2, w2) →
  ∃ d1 d2,
    db w1 = Some d1 ∧ db w2 = Some d2 ∧
    id r2 = userId +:+ "_" +:+ dateISO ∧
    evidences d2 !! (userId +:+ "_" +:+ dateISO) = Some r2 ∧
    filter (λ r, id r = userId +:+ "_" +:+ dateISO)
           (all_records STORES_EVIDENCES d2) = [r2] ∧
    slot tipo r2 = Some img2 ∧
    r2 = (if String.eqb tipo "entrada"
          then set_entrada img2 (or_true ocr2) r1
          else set_salida img2 (or_true ocr2) r1) ∧
    timestamp r2 = timestamp r1 ∧
    size (evidences d2) = size (evidences d1) ∧
    (∀ k, k ≠ userId +:+ "_" +:+ dateISO → evidences d2 !! k = evidences d !! k).
Proof.
  intros Hdb Hk H1 H2.
  set (key := userId +:+ "_" +:+ dateISO).
  destruct (save_done _ _ _ _ _ _ _ _ H1) as (d0 & Hdb0 & Hr1 & Hdb1).
  rewrite Hdb in Hdb0. injection Hdb0 as <-. cbv zeta in Hr1. fold key in Hr1.
  assert (Hid1 : id r1 = key).
  { rewrite Hr1, save_id. destruct (evidences d !! key) as [old |] eqn:E; simpl.
    - by apply (Hk _ _ E).
    - done. }
  rewrite Hid1 in Hdb1.
  unfold bind, later, modify in H2.
  destruct (save_done _ _ _ _ _ _ _ _ H2) as (d1 & Hdb1' & Hr2 & Hdb2).
  cbn [db clock] in Hdb1'. rewrite Hdb1 in Hdb1'. injection Hdb1' as <-.
  cbv zeta in Hr2. fold key in Hr2. cbn [evidences] in Hr2.
  rewrite lookup_insert_eq in Hr2. cbn [default from_option] in Hr2.
  assert (Hid2 : id r2 = key) by (by rewrite Hr2, save_id).
  rewrite Hid2 in Hdb2. cbn [users evidences config] in Hdb2.
  rewrite insert_insert_eq in Hdb2.
  eexists _, _. split; [exact Hdb1 |]. split; [exact Hdb2 |].
  split; [exact Hid2 |]. cbn [evidences].
  split; [apply lookup_insert_eq |].
  split.
  { apply one_record; [| apply lookup_insert_eq].
    rewrite <- Hid2. by apply keyed_insert. }
  split; [rewrite Hr2; apply save_slot |].
  split; [exact Hr2 |].
  split; [rewrite Hr2; by destruct (String.eqb tipo "entrada") |].
  split.
  - rewrite !map_size_insert. by destruct (evidences d !! key).
  - intros k Hne. by rewrite lookup_insert_ne.
Qed.

Lemma C4_witness :
  ∃ r1 w1 r2 w2 d2,
    saveEvidenceForUser "W1" "2024-01-10" "entrada" "img-a" None only_W1 = (Normal r1, w1) ∧
    (later 60000 ;;; saveEvidenceForUser "W1" "2024-01-10" "entrada" "img-b" None) w1
      = (Normal r2, w2) ∧
    clock w2 = 1704880060000 ∧
    db w2 = Some d2 ∧
    r2 = mkEvidence "W1_2024-01-10" "W1" "2024-01-10" (Some "img-b") None
                    VTrue VNull 1704880000000 ∧
    evidences d2 !! "W1_2024-01-10" = Some r2 ∧
    filter (λ r, id r = "W1_2024-01-10") (all_records STORES_EVIDENCES d2) = [r2] ∧
    size (evidences d2) = 1%nat.
Proof.
  destruct (C4_resave_updates_in_place only_W1
              (saveEvidenceForUser "W1" "2024-01-10" "entrada" "img-a" None only_W1).2
              ((later 60000 ;;; saveEvidenceForUser "W1" "2024-01-10" "entrada" "img-b" None)
                 (saveEvidenceForUser "W1" "2024-01-10" "entrada" "img-a" None only_W1).2).2
              (mkDatabase {[ "W1" := W1 ]} ∅ ∅)
              "W1" "2024-01-10" "entrada" "img-a" "img-b" None None
              (mkEvidence "W1_2024-01-10" "W1" "2024-01-10" (Some "img-a") None
                          VTrue VNull 1704880000000)
              (mkEvidence "W1_2024-01-10" "W1" "2024-01-10" (Some "img-b") None
                          VTrue VNull 1704880000000)
              60000)
    as (d1 & d2 & Hdb1 & Hdb2 & _ & Hr2 & Hone & _ & _ & _ & Hsize & _).
  - reflexivity.
  - intros k v. simpl. by rewrite lookup_empty.
  - vm_compute. reflexivity.
  - vm_compute. reflexivity.
  - eexists _, _, _, _, d2.
    split; [vm_compute; reflexivity |]. split; [vm_compute; reflexivity |].
    split; [vm_compute; reflexivity |]. split; [exact Hdb2 |].
    split; [reflexivity |]. split; [exact Hr2 |]. split; [exact Hone |].
    rewrite Hsize. vm_compute in Hdb1. injection Hdb1 as <-. reflexivity.
Defined.

(** C9. Saving a check-in image for an existing composite record keeps
    the record's check-out fields and its creation time, and keeps every
    evidence record stored under another key; saving a check-out keeps
    the check-in fields in the same way. *)
Theorem C9_save_frames_other_slot (w : World) (d : Database)
    userId dateISO tipo dataUrl ocr (old : EvidenceRecord) :
  db w = Some d →
  keyed STORES_EVIDENCES d →
  evidences d !! evidence_id userId dateISO = Some old →
  ∃ r w' d',
    saveEvidenceForUser userId dateISO tipo dataUrl ocr w = (Normal r, w') ∧
    db w' = Some d' ∧
    evidences d' !! evidence_id userId dateISO = Some r ∧
    timestamp r = timestamp old ∧
    (tipo = "entrada" →
       salida r = salida old ∧ validatedExit r = validatedExit old) ∧
    (tipo = "salida" →
       entrada r = entrada old ∧ validatedEntry r = validatedEntry old) ∧
    (∀ k, k ≠ evidence_id userId dateISO → evidences d' !! k = evidences d !! k).
Proof.
  intros Hdb Hk Hold.
  destruct (save_spec w d userId dateISO tipo dataUrl ocr Hdb Hk)
    as (r & w' & H & Hdb' & _ & _ & Hframe & _).
  destruct (Hframe old Hold) as (Hts & Hin & Hout).
  eexists r, w', _. split; [exact H |]. split; [exact Hdb' |]. simpl.
  split; [apply lookup_insert_eq |]. split; [exact Hts |].
  split; [exact Hin |]. split.
  - intros ->. by apply Hout.
  - intros k Hne. by rewrite lookup_insert_ne.
Qed.

Lemma C9_witness :
  ∃ r w' d',
    saveEvidenceForUser "W1" "2024-01-10" "entrada" "img-in" None after_checkout
      = (Normal r, w') ∧
    db w' = Some d' ∧
    evidences d' !! evidence_id "W1" "2024-01-10" = Some r ∧
    timestamp r = timestamp checked_out ∧
    salida r = Some "img-out" ∧ validatedExit r = VTrue ∧
    evidences d' !! "W2_2024-01-10" = evidences day_db !! "W2_2024-01-10".
Proof.
  destruct (C9_save_frames_other_slot after_checkout day_db
              "W1" "2024-01-10" "entrada" "img-in" None checked_out)
    as (r & w' & d' & Hsave & Hdb & Hr & Hts & Hin & _ & Hother).
  - reflexivity.
  - intros k v Hkv. simpl in Hkv.
    apply lookup_singleton_Some in Hkv as [<- <-]. reflexivity.
  - reflexivity.
  - exists r, w', d'. destruct (Hin eq_refl) as [Hs Hv].
    split; [exact Hsave |]. split; [exact Hdb |]. split; [exact Hr |].
    split; [exact Hts |]. split; [exact Hs |]. split; [exact Hv |].
    apply Hother. discriminate.
Defined.

(** C10. Every successful save appends exactly one entry to the index
    kept in [localStorage], also when it updates a record that exists:
    after two saves for the same worker and date the index has gained two
    entries with the same id while the store holds one record with that
    id; the length of the index counts the saves. *)
Theorem C10_index_counts_saves (w : World) userId dateISO tipo dataUrl ocr :
  (∀ r w',
     saveEvidenceForUser userId dateISO tipo dataUrl ocr w = (Normal r, w') →
     getLocalIndex w' =
       getLocalIndex w ++
       [mkIndexEntry (evidence_id userId dateISO) userId dateISO tipo (clock w)]) ∧
  (∀ d tipo2 dataUrl2 ocr2,
     db w = Some d →
     keyed STORES_EVIDENCES d →
     ∃ r1 w1 r2 w2 d2,
       saveEvidenceForUser userId dateISO tipo dataUrl ocr w = (Normal r1, w1) ∧
       saveEvidenceForUser userId dateISO tipo2 dataUrl2 ocr2 w1 = (Normal r2, w2) ∧
       db w2 = Some d2 ∧
       getLocalIndex w2 =
         getLocalIndex w ++
         [mkIndexEntry (evidence_id userId dateISO) userId dateISO tipo (clock w);
          mkIndexEntry (evidence_id userId dateISO) userId dateISO tipo2 (clock w)] ∧
       length (getLocalIndex w2) = S (S (length (getLocalIndex w))) ∧
       filter (λ r, id r = evidence_id userId dateISO)
              (all_records STORES_EVIDENCES d2) = [r2]).
Proof.
  split.
  - intros r w' H. destruct (db w) as [d |] eqn:Hdb.
    + rewrite (save_open w d userId dateISO tipo dataUrl ocr Hdb) in H.
      by injection H as _ <-.
    + destruct w as [dbw ix ck u sn sv]. simpl in Hdb. subst dbw. discriminate H.
  - intros d tipo2 dataUrl2 ocr2 Hdb Hk.
    destruct (save_spec w d userId dateISO tipo dataUrl ocr Hdb Hk)
      as (r1 & w1 & H1 & Hdb1 & Hid1 & _ & _ & Hix1 & Hck1).
    assert (Hk1 : keyed STORES_EVIDENCES
                    (mkDatabase (users d)
                       (<[evidence_id userId dateISO := r1]> (evidences d)) (config d))).
    { rewrite <- Hid1. by apply keyed_insert. }
    destruct (save_spec w1 _ userId dateISO tipo2 dataUrl2 ocr2 Hdb1 Hk1)
      as (r2 & w2 & H2 & Hdb2 & Hid2 & _ & _ & Hix2 & _).
    eexists r1, w1, r2, w2, _.
    split; [exact H1 |]. split; [exact H2 |]. split; [exact Hdb2 |].
    assert (Hix : getLocalIndex w2 =
              getLocalIndex w ++
              [mkIndexEntry (evidence_id userId dateISO) userId dateISO tipo (clock w);
               mkIndexEntry (evidence_id userId dateISO) userId dateISO tipo2 (clock w)]).
    { unfold getLocalIndex at 1. rewrite Hix2. simpl.
      unfold getLocalIndex at 1. rewrite Hix1. simpl.
      by rewrite Hck1, <- app_assoc. }
    split; [exact Hix |]. split.
    + rewrite Hix, length_app. simpl. lia.
    + apply one_record; [| apply lookup_insert_eq].
      simpl. rewrite insert_insert_eq. rewrite <- Hid2. by apply keyed_insert.
Qed.

Lemma C10_witness :
  getLocalIndex
    (saveEvidenceForUser "W1" "2024-01-10" "entrada" "img-a" None only_W1).2
    = [mkIndexEntry "W1_2024-01-10" "W1" "2024-01-10" "entrada" (clock only_W1)] ∧
  ∃ r1 w1 r2 w2 d2,
    saveEvidenceForUser "W1" "2024-01-10" "entrada" "img-a" None only_W1 = (Normal r1, w1) ∧
    saveEvidenceForUser "W1" "2024-01-10" "salida" "img-b" None w1 = (Normal r2, w2) ∧
    db w2 = Some d2 ∧
    getLocalIndex w2 =
      getLocalIndex only_W1 ++
      [mkIndexEntry (evidence_id "W1" "2024-01-10") "W1" "2024-01-10" "entrada"
                    (clock only_W1);
       mkIndexEntry (evidence_id "W1" "2024-01-10") "W1" "2024-01-10" "salida"
                    (clock only_W1)] ∧
    length (getLocalIndex w2) = S (S (length (getLocalIndex only_W1))) ∧
    filter (λ r, id r = evidence_id "W1" "2024-01-10")
           (all_records STORES_EVIDENCES d2) = [r2].
Proof.
  destruct (C10_index_counts_saves only_W1 "W1" "2024-01-10" "entrada" "img-a" None)
    as [Hone Htwo].
  split.
  - eapply Hone. reflexivity.
  - apply (Htwo (mkDatabase {[ "W1" := W1 ]} ∅ ∅)).
    + reflexivity.
    + intros k v. simpl. by rewrite lookup_empty.
Defined.

(** A save in the evidence module leaves the workers' store as it was:
    worker [W1], with five attendances, still has five after a check-in
    was saved for it, and no last-attendance date. *)
Lemma C5_counterexample :
  ∃ r w' d',
    saveEvidenceForUser "W1" "2024-01-10" "entrada" "img-a" None only_W1 = (Normal r, w') ∧
    db w' = Some d' ∧
    users d' !! "W1" = Some W1 ∧
    W1 = JObj [("id", JStr "W1"); ("name", JStr "Ana López");
               ("totalAssists", JNum 5); ("lastAssistance", JNull)].
Proof.
  eexists _, _, _. split; [reflexivity |]. split; [reflexivity |].
  split; [| reflexivity]. simpl. apply lookup_singleton_eq.
Qed.

End EvidenceFacts.

(** ** Facts about the application script *)

Module AppFacts.
Import App.

(** *** The retry loop *)

Lemma replay_app (evs1 evs2 : list NetEvent) (w : World) :
  replay (evs1 ++ evs2) w = replay evs2 (replay evs1 w).
Proof. apply fold_left_app. Qed.

Lemma server_replay (evs : list NetEvent) (w : World) :
  server (replay evs w) = server w.
Proof.
  revert w. induction evs as [| e evs IH]; intros w; simpl; [done |].
  rewrite IH. by destruct e.
Qed.

Lemma db_replay (evs : list NetEvent) (w : World) : db (replay evs w) = db w.
Proof.
  revert w. induction evs as [| e evs IH]; intros w; simpl; [done |].
  rewrite IH. by destruct e.
Qed.

Lemma ui_replay (evs : list NetEvent) (w : World) : ui (replay evs w) = ui w.
Proof.
  revert w. induction evs as [| e evs IH]; intros w; simpl; [done |].
  rewrite IH. by destruct e.
Qed.

Lemma trace_replay (evs : list NetEvent) (w : World) :
  trace (replay evs w) = trace w ++ evs.
Proof.
  revert w. induction evs as [| e evs IH]; intros w; simpl.
  - by rewrite app_nil_r.
  - rewrite IH. destruct e; simpl; by rewrite <- app_assoc.
Qed.

Lemma answers_replay (P : Z → Prop) (evs : list NetEvent) (w : World) :
  answers P w → answers P (replay evs w).
Proof. intros H n req. rewrite server_replay. apply H. Qed.

Lemma attempts_replay (evs : list NetEvent) (w : World) :
  attempts (replay evs w) = (attempts w + length (filter is_fetch evs))%nat.
Proof.
  unfold attempts. by rewrite trace_replay, filter_app, length_app.
Qed.

Lemma delays_replay (evs : list NetEvent) (w : World) :
  delays (replay evs w) =
  delays w ++ omap (λ e, match e with Wait ms => Some ms | Fetch _ => None end) evs.
Proof. unfold delays. by rewrite trace_replay, omap_app. Qed.

(** One iteration against a remote end that answers 404: the [throw] sits
    inside the [try], so the [catch] of the same iteration receives it
    and lets it out on the last iteration only. *)
Lemma iteration_not_found (req : Request) (retries i : nat) (w : World) :
  answers not_found w →
  try_catch (try_block req) (catch_block i retries) w =
    if (i =? retries - 1)%nat
    then (Thrown NOT_FOUND, add_trace (Fetch req) w)
    else (Normal FallThrough, add_trace (Fetch req) w).
Proof.
  intros H. destruct (H (attempts w) req) as (r & Hr & Hst).
  unfold try_catch, try_block, bind, fetch, catch_block. rewrite Hr.
  unfold not_found in Hst. rewrite Hst. simpl.
  by destruct (i =? retries - 1)%nat.
Qed.

(** One iteration against a remote end that answers another failure
    status: nothing is thrown. *)
Lemma iteration_transient (req : Request) (retries i : nat) (w : World) :
  answers transient w →
  try_catch (try_block req) (catch_block i retries) w =
    (Normal FallThrough, add_trace (Fetch req) w).
Proof.
  intros H. destruct (H (attempts w) req) as (r & Hr & Hok & Hne).
  unfold try_catch, try_block, bind, fetch. rewrite Hr, Hok.
  by rewrite (proj2 (Z.eqb_neq _ _) Hne).
Qed.

Lemma loop_not_found (req : Request) (retries : nat) :
  ∀ n i w,
    answers not_found w →
    (i + S n = retries)%nat →
    backoff_loop req retries (S n) i w =
      (Thrown NOT_FOUND, replay (retry_schedule req n i ++ [Fetch req]) w).
Proof.
  induction n as [| n IH]; intros i w Hw Hi.
  - simpl. unfold bind. rewrite iteration_not_found by done.
    by rewrite (proj2 (Nat.eqb_eq _ _)) by lia.
  - change (backoff_loop req retries (S (S n)) i w)
      with (bind (try_catch (try_block req) (catch_block i retries))
                 (λ r, match r with
                       | Return response => ret (Some response)
                       | FallThrough =>
                           bind (sleep (2 ^ Z.of_nat i * 1000))
                                (λ _, backoff_loop req retries (S n) (S i))
                       end) w).
    unfold bind at 1. rewrite iteration_not_found by done.
    rewrite (proj2 (Nat.eqb_neq _ _)) by lia.
    unfold bind, sleep, modify.
    rewrite (IH (S i)); [done | | lia].
    apply (answers_replay _ [Fetch req; Wait (2 ^ Z.of_nat i * 1000)] w Hw).
Qed.

Lemma loop_transient (req : Request) (retries : nat) :
  ∀ n i w,
    answers transient w →
    backoff_loop req retries n i w = (Normal None, replay (retry_schedule req n i) w).
Proof.
  induction n as [| n IH]; intros i w Hw; [done |].
  simpl. unfold bind at 1. rewrite iteration_transient by done.
  unfold bind, sleep, modify.
  rewrite (IH (S i)); [done |].
  apply (answers_replay _ [Fetch req; Wait (2 ^ Z.of_nat i * 1000)] w Hw).
Qed.

(** *** Pull and push against a failing remote end *)

Lemma pull_not_found (w : World) gistId token :
  answers not_found w →
  configured gistId token →
  ∃ req,
    loadDataFromGist gistId token w =
      (Thrown NOT_FOUND, replay (retry_schedule req 4 0 ++ [Fetch req]) w).
Proof.
  intros Hw [Hg Ht]. unfold loadDataFromGist. rewrite Hg, Ht. cbn [orb]. cbv beta iota zeta.
  eexists. unfold bind, fetchWithBackoff, DEFAULT_RETRIES. cbv beta.
  by rewrite (loop_not_found _ 5 4 0 w Hw eq_refl).
Qed.

Lemma push_not_found (w : World) (d : Database) gistId token :
  answers not_found w →
  configured gistId token →
  db w = Some d →
  ∃ req,
    saveDataToGist gistId token w =
      (Normal tt,
       set_syncColour red
         (set_syncStatus (Lit "Error de Sincronización")
            (replay (retry_schedule req 4 0 ++ [Fetch req]) w))).
Proof.
  intros Hw [Hg Ht] Hdb. unfold saveDataToGist. rewrite Hg, Ht. cbn [orb]. cbv beta iota zeta.
  eexists. unfold bind at 1. unfold getAll at 1. rewrite Hdb. cbv beta iota.
  unfold bind at 1. unfold getAll at 1. rewrite Hdb. cbv beta iota.
  unfold bind at 1. unfold Date_now, gets. cbv beta iota.
  unfold try_catch, bind at 1, fetchWithBackoff, DEFAULT_RETRIES. cbv beta.
  by rewrite (loop_not_found _ 5 4 0 w Hw eq_refl).
Qed.

Lemma push_transient (w : World) (d : Database) gistId token :
  answers transient w →
  configured gistId token →
  db w = Some d →
  ∃ req,
    fetchWithBackoff req DEFAULT_RETRIES w =
      (Normal None, replay (retry_schedule req 5 0) w) ∧
    saveDataToGist gistId token w =
      (Normal tt,
       set_syncColour green
         (set_syncStatus (LitTime "Sincronizado: " (clock (replay (retry_schedule req 5 0) w)))
            (replay (retry_schedule req 5 0) w))).
Proof.
  intros Hw [Hg Ht] Hdb. unfold saveDataToGist. rewrite Hg, Ht. cbn [orb]. cbv beta iota zeta.
  eexists. split.
  - unfold fetchWithBackoff, DEFAULT_RETRIES. by rewrite loop_transient.
  - unfold bind at 1. unfold getAll at 1. rewrite Hdb. cbv beta iota.
    unfold bind at 1. unfold getAll at 1. rewrite Hdb. cbv beta iota.
    unfold bind at 1. unfold Date_now at 1, gets. cbv beta iota.
    unfold try_catch, bind at 1, fetchWithBackoff, DEFAULT_RETRIES. cbv beta.
    by rewrite loop_transient.
Qed.

Lemma status_keeps_trace (c : Colour) (t : Text) (w : World) :
  attempts (set_syncColour c (set_syncStatus t w)) = attempts w ∧
  delays (set_syncColour c (set_syncStatus t w)) = delays w.
Proof. done. Qed.

Lemma status_keeps_db (c : Colour) (t : Text) (w : World) :
  db (set_syncColour c (set_syncStatus t w)) = db w ∧
  trace (set_syncColour c (set_syncStatus t w)) = trace w.
Proof. done. Qed.

(** C1 (what the code does where the claim fails). Against a remote end
    that answers 404 to every request, a pull makes five network
    attempts, waiting 1, 2, 4 and 8 seconds between them, before it fails
    with the not-found error; a push makes the same five attempts and
    waits before it shows the error status. *)
Theorem C1_not_found_is_retried (w : World) (d : Database) gistId token :
  answers not_found w →
  configured gistId token →
  db w = Some d →
  (∃ w', loadDataFromGist gistId token w = (Thrown NOT_FOUND, w') ∧
         attempts w' = (attempts w + 5)%nat ∧
         delays w' = delays w ++ [1000; 2000; 4000; 8000]) ∧
  (∃ w', saveDataToGist gistId token w = (Normal tt, w') ∧
         attempts w' = (attempts w + 5)%nat ∧
         delays w' = delays w ++ [1000; 2000; 4000; 8000] ∧
         syncStatus w' = Lit "Error de Sincronización").
Proof.
  intros Hw Hcfg Hdb. split.
  - destruct (pull_not_found w gistId token Hw Hcfg) as (req & H).
    eexists. split; [exact H |].
    by rewrite attempts_replay, delays_replay.
  - destruct (push_not_found w d gistId token Hw Hcfg Hdb) as (req & H).
    eexists. split; [exact H |].
    rewrite (proj1 (status_keeps_trace _ _ _)), (proj2 (status_keeps_trace _ _ _)).
    by rewrite attempts_replay, delays_replay.
Qed.

Lemma C1_witness :
  (∃ w', loadDataFromGist "abc" "tok" (fresh (always 404)) = (Thrown NOT_FOUND, w') ∧
         attempts w' = (attempts (fresh (always 404)) + 5)%nat ∧
         delays w' = delays (fresh (always 404)) ++ [1000; 2000; 4000; 8000]) ∧
  (∃ w', saveDataToGist "abc" "tok" (fresh (always 404)) = (Normal tt, w') ∧
         attempts w' = (attempts (fresh (always 404)) + 5)%nat ∧
         delays w' = delays (fresh (always 404)) ++ [1000; 2000; 4000; 8000] ∧
         syncStatus w' = Lit "Error de Sincronización").
Proof.
  apply (C1_not_found_is_retried (fresh (always 404))
           (mkDatabase empty_store empty_store ∅) "abc" "tok").
  - intros n req. eexists. split; reflexivity.
  - split; reflexivity.
  - reflexivity.
Defined.

(** C2 (what the code does where the claim fails). Against a remote end
    that answers every request with a failure status other than 404, a
    push makes exactly five attempts and waits 1, 2, 4, 8 and 16 seconds
    after them; the retry loop then ends without throwing, and the push
    shows the status "Sincronizado" in green, as after a success. *)
Theorem C2_exhausted_retries_report_success (w : World) (d : Database) gistId token :
  answers transient w →
  configured gistId token →
  db w = Some d →
  ∃ w', saveDataToGist gistId token w = (Normal tt, w') ∧
        attempts w' = (attempts w + 5)%nat ∧
        delays w' = delays w ++ [1000; 2000; 4000; 8000; 16000] ∧
        syncStatus w' = LitTime "Sincronizado: " (clock w + 31000) ∧
        syncColour w' = Some green.
Proof.
  intros Hw Hcfg Hdb.
  destruct (push_transient w d gistId token Hw Hcfg Hdb) as (req & _ & H).
  eexists. split; [exact H |].
  rewrite (proj1 (status_keeps_trace _ _ _)), (proj2 (status_keeps_trace _ _ _)).
  rewrite attempts_replay, delays_replay.
  split; [done |]. split; [done |]. split; [| done].
  simpl. f_equal. lia.
Qed.

Lemma C2_witness :
  ∃ w', saveDataToGist "abc" "tok" (fresh (always 500)) = (Normal tt, w') ∧
        attempts w' = (attempts (fresh (always 500)) + 5)%nat ∧
        delays w' = delays (fresh (always 500)) ++ [1000; 2000; 4000; 8000; 16000] ∧
        syncStatus w' = LitTime "Sincronizado: " (clock (fresh (always 500)) + 31000) ∧
        syncColour w' = Some green.
Proof.
  apply (C2_exhausted_retries_report_success (fresh (always 500))
           (mkDatabase empty_store empty_store ∅) "abc" "tok").
  - intros n req. eexists. split; [reflexivity |]. split; [reflexivity | discriminate].
  - split; reflexivity.
  - reflexivity.
Defined.

(** *** An incomplete configuration *)

(** With an incomplete configuration the pull throws: it is not a no-op
    that resolves to a skipped result. *)
Lemma C3_counterexample :
  loadDataFromGist "" "" (fresh (always 200)) = (Thrown REQUIRED, fresh (always 200)).
Proof. reflexivity. Qed.

(** C3 (amended). When the document id or the credential is empty, a
    push of the application script resolves to [undefined] without an
    error and changes nothing; a pull makes no request and changes
    nothing but is rejected with the error that both are required.
    The load routine, called with such a configuration, does not call
    the pull: it makes no request and, with the database open, it
    completes on its local branch, rendering the local workers (the
    default workers when there are none) and showing the local-mode
    notice and status, none of which the catch of a rejected pull would
    show.  In the evidence module a push with such a stored
    configuration shows the error toast that the sync is skipped, sends
    nothing and resolves to [undefined]. *)
Theorem C3_incomplete_configuration (w : World) gistId token :
  falsy gistId || falsy token = true →
  saveDataToGist gistId token w = (Normal tt, w) ∧
  loadDataFromGist gistId token w = (Thrown REQUIRED, w) ∧
  trace (initialDataLoad gistId token w).2 = trace w ∧
  (∀ d, db w = Some d →
     ∃ w', initialDataLoad gistId token w = (Normal tt, w') ∧
           trace w' = trace w ∧
           clock w' = clock w ∧
           syncStatus w' = Lit "Modo Local (Sin Gist)" ∧
           ui w' = ui w ++
                   [Render (match store_getAll (users d) with
                            | [] => INITIAL_USERS
                            | currentUsers => currentUsers
                            end);
                    Notification (Lit "Modo Offline/Local: Gist no configurado.") error]) ∧
  (∀ (v : EvidenceModule.World) cfg,
     EvidenceModule.getGistConfig v = (Normal cfg, v) →
     falsy (EvidenceModule.cfg_id cfg) || falsy (EvidenceModule.cfg_token cfg) = true →
     ∃ v', EvidenceModule.syncToGist v = (Normal None, v') ∧
           EvidenceModule.sent v' = EvidenceModule.sent v ∧
           EvidenceModule.db v' = EvidenceModule.db v ∧
           EvidenceModule.localIndex v' = EvidenceModule.localIndex v ∧
           EvidenceModule.ui v' =
             EvidenceModule.ui v ++
             [EvidenceModule.Toast "Gist no configurado — omitiendo sincronización." true]).
Proof.
  intros Hcfg.
  assert (Hoff : negb (falsy gistId) && negb (falsy token) = false)
    by (by destruct (falsy gistId), (falsy token)).
  split; [| split; [| split; [| split]]].
  - unfold saveDataToGist. by rewrite Hcfg.
  - unfold loadDataFromGist. by rewrite Hcfg.
  - unfold initialDataLoad. rewrite Hoff.
    destruct w as [[d |] cur ck st col u tr sv]; [| reflexivity].
    unfold try_catch, bind at 1, getAll at 1. simpl db. cbv beta iota.
    destruct (store_getAll (contents STORES_USERS d)) as [| u0 us] eqn:Hall.
    + simpl. reflexivity.
    + reflexivity.
  - intros d Hdb. unfold initialDataLoad. rewrite Hoff.
    destruct w as [dbw cur ck st col u tr sv]. simpl in Hdb. subst dbw.
    unfold try_catch, bind at 1, getAll at 1. simpl db. cbv beta iota.
    cbn [contents STORES_USERS].
    destruct (store_getAll (users d)) as [| u0 us] eqn:Hall.
    + destruct d as [[l g] ev cf]. unfold store_getAll in Hall. cbn [users records] in Hall.
      apply fmap_nil_inv in Hall. subst l.
      eexists. split; [reflexivity |]. repeat split.
      cbn [ui set_syncStatus add_ui set_db]. by rewrite <- app_assoc.
    + eexists. split; [reflexivity |]. repeat split.
      cbn [ui set_syncStatus add_ui set_db]. by rewrite <- app_assoc.
  - intros v cfg Hget Hc. unfold EvidenceModule.syncToGist.
    unfold bind at 1. rewrite Hget. rewrite Hc.
    eexists. split; [reflexivity |]. by repeat split.
Qed.

Lemma C3_witness :
  saveDataToGist "abc" "" (seeded (always 200)) = (Normal tt, seeded (always 200)) ∧
  loadDataFromGist "abc" "" (seeded (always 200)) = (Thrown REQUIRED, seeded (always 200)) ∧
  (∃ w', initialDataLoad "abc" "" (seeded (always 200)) = (Normal tt, w') ∧
         trace w' = [] ∧
         syncStatus w' = Lit "Modo Local (Sin Gist)" ∧
         ui w' = [Render (numbered 1 INITIAL_USERS).*2;
                  Notification (Lit "Modo Offline/Local: Gist no configurado.") error]) ∧
  (∃ v', EvidenceModule.syncToGist EvidenceModule.only_W1 = (Normal None, v') ∧
         EvidenceModule.sent v' = [] ∧
         EvidenceModule.ui v' =
           [EvidenceModule.Toast "Gist no configurado — omitiendo sincronización." true]).
Proof.
  destruct (C3_incomplete_configuration (seeded (always 200)) "abc" "" eq_refl)
    as (Hpush & Hpull & _ & Hload & Hmodule).
  split; [exact Hpush |]. split; [exact Hpull |]. split.
  - destruct (Hload _ eq_refl) as (w' & Hrun & Htr & _ & Hst & Hui).
    exists w'. by repeat split.
  - destruct (Hmodule EvidenceModule.only_W1 EvidenceModule.no_config eq_refl eq_refl)
      as (v' & Hrun & Hsent & _ & _ & Hui).
    exists v'. by repeat split.
Defined.

(** *** Object stores *)

Section Stores.
Context {V : Type}.

Lemma store_lookup_insert_eq (k : Z) (v : V) (l : list (Z * V)) :
  store_lookup k (store_insert k v l) = Some v.
Proof.
  induction l as [| [k' v'] l IH]; simpl.
  - by rewrite Z.eqb_refl.
  - destruct (k <? k') eqn:Hlt; simpl; [by rewrite Z.eqb_refl |].
    destruct (k =? k') eqn:Heq; simpl; [by rewrite Z.eqb_refl |].
    by rewrite Heq.
Qed.

Lemma store_lookup_insert_ne (k k' : Z) (v : V) (l : list (Z * V)) :
  k ≠ k' → store_lookup k' (store_insert k v l) = store_lookup k' l.
Proof.
  intros Hne. induction l as [| [k0 v0] l IH]; simpl.
  - by rewrite (proj2 (Z.eqb_neq k' k)).
  - destruct (k <? k0) eqn:Hlt; simpl.
    { by rewrite (proj2 (Z.eqb_neq k' k)). }
    destruct (k =? k0) eqn:Heq; simpl.
    + apply Z.eqb_eq in Heq. subst k0.
      by rewrite (proj2 (Z.eqb_neq k' k)).
    + by rewrite IH.
Qed.

Lemma store_lookup_below (k : Z) (l : list (Z * V)) :
  Forall (λ kv, kv.1 < k) l → store_lookup k l = None.
Proof.
  induction 1 as [| [k' v'] l Hk _ IH]; [done |]. simpl in *.
  by rewrite (proj2 (Z.eqb_neq k k')) by lia.
Qed.

(** A key past all the others goes to the end. *)
Lemma store_insert_last (k : Z) (v : V) (l : list (Z * V)) :
  Forall (λ kv, kv.1 < k) l → store_insert k v l = l ++ [(k, v)].
Proof.
  induction 1 as [| [k' v'] l Hk _ IH]; [done |]. simpl in *.
  rewrite (proj2 (Z.ltb_ge k k')) by lia.
  rewrite (proj2 (Z.eqb_neq k k')) by lia.
  by rewrite IH.
Qed.

Lemma store_insert_perm (k : Z) (v : V) (l : list (Z * V)) :
  store_lookup k l = None → store_insert k v l ≡ₚ (k, v) :: l.
Proof.
  induction l as [| [k' v'] l IH]; simpl; [done |].
  destruct (k =? k') eqn:Heq; [done |]. intros Hl.
  destruct (k <? k'); [done |].
  rewrite (IH Hl). apply Permutation_swap.
Qed.

Lemma store_insert_keys (k : Z) (v : V) (l : list (Z * V)) (P : Z → Prop) :
  P k → Forall P l.*1 → Forall P (store_insert k v l).*1.
Proof.
  intros Hk. induction l as [| [k' v'] l IH]; simpl; intros Hl.
  - by constructor.
  - inversion_clear Hl as [| ? ? Hk' Hl'].
    destruct (k <? k'); [by repeat constructor |].
    destruct (k =? k'); constructor; auto.
Qed.

Lemma store_insert_sorted (k : Z) (v : V) (l : list (Z * V)) :
  StronglySorted Z.lt l.*1 → StronglySorted Z.lt (store_insert k v l).*1.
Proof.
  induction l as [| [k' v'] l IH]; simpl; intros Hs.
  - repeat constructor.
  - inversion_clear Hs as [| ? ? Hs' Hall].
    destruct (k <? k') eqn:Hlt.
    + apply Z.ltb_lt in Hlt. simpl. constructor.
      * by constructor.
      * constructor; [done |]. eapply Forall_impl; [exact Hall |].
        simpl. intros. lia.
    + apply Z.ltb_ge in Hlt. destruct (k =? k') eqn:Heq.
      * apply Z.eqb_eq in Heq. subst k'. simpl. by constructor.
      * apply Z.eqb_neq in Heq. simpl. constructor; [by apply IH |].
        apply store_insert_keys; [lia | done].
Qed.

Lemma store_insert_all (k : Z) (v : V) (l : list (Z * V)) (P : Z * V → Prop) :
  P (k, v) → Forall P l → Forall P (store_insert k v l).
Proof.
  intros Hk. induction 1 as [| [k' v'] l Hk' Hl IH]; simpl.
  - by constructor.
  - destruct (k <? k'); [by repeat constructor |].
    destruct (k =? k'); by constructor.
Qed.

End Stores.

#[export] Instance worker_laws : KeyedLaws Worker.
Proof. by split. Qed.

#[export] Instance evidence_laws : KeyedLaws Evidence.
Proof. by split. Qed.

(** Storing a value keeps a store well formed. *)
Lemma resolve_key_spec `{KeyedLaws V} (v : V) (g : Z) :
  ∃ k v' g', resolve_key v g = (k, v', g') ∧
             key_of v' = Some k ∧ k < g' ∧ g ≤ g' ∧
             without_key v' = without_key v.
Proof.
  unfold resolve_key. destruct (key_of v) as [k |] eqn:Hk.
  - exists k, v. eexists. split; [done |]. split; [done |].
    destruct (g <=? k) eqn:Hle; [apply Z.leb_le in Hle | apply Z.leb_gt in Hle];
      split_and!; try done; lia.
  - exists g, (with_key g v), (g + 1). split; [done |].
    rewrite key_with_key, without_with_key. split_and!; try done; lia.
Qed.

Lemma store_wf_insert `{KeyedLaws V} (s : ObjectStore V) (k : Z) (v : V) (g : Z) :
  store_wf s → key_of v = Some k → k < g → generator s ≤ g →
  store_wf (mkObjectStore (store_insert k v (records s)) g).
Proof.
  intros [Hs Hall] Hk Hlt Hle. split; simpl.
  - by apply store_insert_sorted.
  - apply store_insert_all; [done |].
    eapply Forall_impl; [exact Hall |]. simpl. intros [k' v'] [? ?]. simpl in *.
    split; [done | lia].
Qed.

Lemma store_put_wf `{KeyedLaws V} (v : V) (s : ObjectStore V) :
  store_wf s → store_wf (store_put v s).2.
Proof.
  intros Hs. unfold store_put.
  destruct (resolve_key_spec v (generator s)) as (k & v' & g' & -> & Hk & Hlt & Hle & _).
  simpl. by apply store_wf_insert.
Qed.

Lemma store_wf_below `{Keyed V} (s : ObjectStore V) :
  store_wf s → Forall (λ kv, kv.1 < generator s) (records s).
Proof. intros [_ Hall]. eapply Forall_impl; [exact Hall |]. by intros ? [_ ?]. Qed.

(** In a well-formed store of workers, looking for the worker with a
    given [id] in what [getAll] returns is a lookup of that key. *)
Lemma find_is_lookup (k : Z) (l : list (Z * Worker)) :
  Forall (λ kv, key_of kv.2 = Some kv.1) l →
  find (is_user k) l.*2 = store_lookup k l.
Proof.
  induction 1 as [| [k' u] l Hu _ IH]; [done |]. simpl in *.
  unfold is_user at 1. rewrite Hu.
  destruct (Z.eqb_spec k k') as [-> | Hne].
  - by rewrite bool_decide_eq_true_2.
  - rewrite bool_decide_eq_false_2 by congruence. done.
Qed.

(** *** Registering an attendance *)

Lemma put_open `{Keyed V} (store : StoreRef V) (data : V) (w : World) (d : Database) :
  db w = Some d →
  put store data w =
    (Normal (store_put data (contents store d)).1,
     set_db (replace store (store_put data (contents store d)).2 d) w).
Proof.
  intros Hdb. unfold put. rewrite Hdb.
  by destruct (store_put data (contents store d)).
Qed.

Lemma getAll_open {V} (store : StoreRef V) (w : World) (d : Database) :
  db w = Some d →
  getAll store w = (Normal (store_getAll (contents store d)), w).
Proof. intros Hdb. unfold getAll. by rewrite Hdb. Qed.

Lemma getGistConfig_open (w : World) (d : Database) :
  db w = Some d → getGistConfig w = (Normal None, w).
Proof. intros Hdb. unfold getGistConfig, try_catch. by rewrite Hdb. Qed.

(** The handler with the database open and the selected worker in the
    store: both writes are made; reading the configuration then yields
    [undefined], so the handler ends in its [catch] with the writes in
    place. *)
Lemma handle_open (w : World) (d : Database) (k : Z) (u : Worker)
    dateValue amountValue notesValue imageBase64 :
  db w = Some d →
  currentUserId w = Some k →
  k ≠ 0 →
  find (is_user k) (store_getAll (users d)) = Some u →
  handleAttendanceSubmit dateValue amountValue notesValue imageBase64 w =
    (Normal tt,
     mkWorld
       (Some (mkDatabase
                (store_put (attend dateValue u) (users d)).2
                (store_put (mkEvidence None k dateValue amountValue notesValue
                                       imageBase64 (clock w)) (evidences d)).2
                (config d)))
       (Some k) (clock w) (syncStatus w) (syncColour w)
       (ui w ++ [Notification
                   "Error al guardar la asistencia en el almacenamiento local." error])
       (trace w) (server w)).
Proof.
  intros Hdb Hcur Hk Hfind.
  unfold handleAttendanceSubmit, bind at 1, gets. rewrite Hcur.
  rewrite (proj2 (Z.eqb_neq k 0) Hk).
  unfold bind at 1, Date_now, gets, try_catch.
  unfold bind at 1. rewrite (put_open _ _ w d Hdb).
  unfold bind at 1. erewrite getAll_open by reflexivity.
  cbn [contents replace STORES_EVIDENCES STORES_USERS users].
  rewrite Hfind.
  unfold bind at 1. unfold bind at 1. erewrite put_open by reflexivity.
  unfold ret at 1.
  unfold bind at 1. erewrite getGistConfig_open by reflexivity.
  unfold bind at 1, throw at 1.
  destruct w as [dbw cur ck st col u0 tr sv]. simpl in Hdb, Hcur. subst dbw cur.
  reflexivity.
Qed.

(** C5 (amended). After a successful attendance write of the application
    script for a selected worker that the workers' store holds, the
    worker's count is one more than before, its last-attendance date is
    the date of the new event, the other workers are as before, and the
    store holds one more event of that worker.  A save of the evidence
    module leaves the workers' store as it is. *)
Theorem C5_attendance_updates_worker (w : World) (d : Database) (k : Z) (u : Worker)
    dateValue amountValue notesValue imageBase64 :
  db w = Some d →
  currentUserId w = Some k →
  k ≠ 0 →
  store_wf (users d) →
  store_wf (evidences d) →
  store_lookup k (records (users d)) = Some u →
  (∃ w' d',
     handleAttendanceSubmit dateValue amountValue notesValue imageBase64 w
       = (Normal tt, w') ∧
     db w' = Some d' ∧
     store_lookup k (records (users d')) = Some (attend dateValue u) ∧
     totalAssists (attend dateValue u) = Some (default 0 (totalAssists u) + 1) ∧
     lastAssistance (attend dateValue u) = Some dateValue ∧
     (∀ k', k' ≠ k →
        store_lookup k' (records (users d')) = store_lookup k' (records (users d))) ∧
     length (events_of k d') = S (length (events_of k d))) ∧
  (∀ (v : EvidenceModule.World) e userId dateISO tipo dataUrl ocr r v',
     EvidenceModule.db v = Some e →
     EvidenceModule.saveEvidenceForUser userId dateISO tipo dataUrl ocr v
       = (Normal r, v') →
     EvidenceModule.users <$> EvidenceModule.db v' = Some (EvidenceModule.users e)).
Proof.
  intros Hdb Hcur Hk Hwu Hwe Hu. split.
  - assert (Hid : key_of u = Some k).
    { destruct Hwu as [_ Hall]. clear -Hall Hu.
      induction Hall as [| [k' u'] l [Hk' _] _ IH]; [done |]. simpl in *.
      destruct (Z.eqb_spec k k') as [-> | Hne]; [by injection Hu as -> | by apply IH]. }
    assert (Hfind : find (is_user k) (store_getAll (users d)) = Some u).
    { unfold store_getAll. rewrite find_is_lookup; [done |].
      destruct Hwu as [_ Hall]. eapply Forall_impl; [exact Hall |]. by intros ? [? _]. }
    eexists _, _. split; [by apply handle_open |]. split; [reflexivity |].
    cbn [users evidences].
    assert (Hput : store_put (attend dateValue u) (users d)
                   = (k, mkObjectStore (store_insert k (attend dateValue u) (records (users d)))
                           (if generator (users d) <=? k then k + 1 else generator (users d)))).
    { unfold store_put, resolve_key. simpl in Hid. simpl. by rewrite Hid. }
    rewrite Hput. cbn [snd records].
    split; [apply store_lookup_insert_eq |]. split; [done |]. split; [done |].
    split; [intros k' Hne; by apply store_lookup_insert_ne |].
    unfold events_of, store_getAll, store_put, resolve_key. cbn [key_of evidence_keyed ev_id snd records evidences].
    rewrite store_insert_last by (by apply store_wf_below).
    rewrite fmap_app, filter_app, length_app. simpl.
    rewrite filter_cons_True by done. simpl. lia.
  - intros v e userId dateISO tipo dataUrl ocr r v' Hv Hsave.
    rewrite (EvidenceFacts.save_open v e userId dateISO tipo dataUrl ocr Hv) in Hsave.
    by injection Hsave as _ <-.
Qed.

Lemma C5_witness :
  (∃ w' d',
     handleAttendanceSubmit "2024-01-10" 12.5%float "" None (seeded (always 200))
       = (Normal tt, w') ∧
     db w' = Some d' ∧
     store_lookup 1 (records (users d'))
       = Some (mkWorker (Some 1) "Ana López" "12345678A" (Some 6) (Some "2024-01-10")) ∧
     store_lookup 2 (records (users d')) = store_lookup 2 (numbered 1 INITIAL_USERS) ∧
     length (events_of 1 d') = 1%nat) ∧
  EvidenceModule.users <$>
    EvidenceModule.db
      (EvidenceModule.saveEvidenceForUser "W1" "2024-01-10" "entrada" "img-a" None
         EvidenceModule.only_W1).2
    = Some {[ "W1" := EvidenceModule.W1 ]}.
Proof.
  destruct (C5_attendance_updates_worker (seeded (always 200))
              (mkDatabase (mkObjectStore (numbered 1 INITIAL_USERS) 4) empty_store ∅) 1
              (mkWorker (Some 1) "Ana López" "12345678A" (Some 5) None)
              "2024-01-10" 12.5%float "" None)
    as [(w' & d' & Hrun & Hdb & Hu & _ & _ & Hother & Hev) Hmodule].
  - reflexivity.
  - reflexivity.
  - lia.
  - split; simpl.
    + repeat constructor; lia.
    + repeat constructor; simpl; lia.
  - split; simpl; constructor.
  - reflexivity.
  - split.
    + exists w', d'. split; [exact Hrun |]. split; [exact Hdb |].
      split; [exact Hu |]. split; [apply Hother; lia | exact Hev].
    + exact (Hmodule EvidenceModule.only_W1
               (EvidenceModule.mkDatabase {[ "W1" := EvidenceModule.W1 ]} ∅ ∅)
               "W1" "2024-01-10" "entrada" "img-a" None
               (EvidenceModule.mkEvidence "W1_2024-01-10" "W1" "2024-01-10"
                  (Some "img-a") None EvidenceModule.VTrue EvidenceModule.VNull
                  1704880000000)
               (EvidenceModule.saveEvidenceForUser "W1" "2024-01-10" "entrada" "img-a"
                  None EvidenceModule.only_W1).2
               eq_refl eq_refl).
Defined.

(** *** Replacing a collection *)

(** A transaction that commits although the engine limits its life
    commits the same store when nothing limits it. *)
Lemma addNext_budget `{Keyed V} (isEv : bool) (dataArray : list V) :
  ∀ life s s',
    addNext isEv dataArray life s = Committed s' →
    addNext isEv dataArray None s = Committed s'.
Proof.
  induction dataArray as [| item rest IH]; intros life s s'.
  - simpl. by destruct (spent life).
  - simpl. destruct (spent life); [done |].
    destruct (store_add (strip_id isEv item) s) as [e | s1]; [done |].
    apply IH.
Qed.

(** A life longer than the requests and the commit changes nothing. *)
Lemma addNext_long_life `{Keyed V} (isEv : bool) (dataArray : list V) :
  ∀ k s,
    (length dataArray < k)%nat →
    addNext isEv dataArray (Some k) s = addNext isEv dataArray None s.
Proof.
  induction dataArray as [| item rest IH]; intros k s Hk; simpl in *.
  - destruct k; [lia | done].
  - destruct k as [| k]; [lia |]. simpl.
    destruct (store_add (strip_id isEv item) s) as [e | s1]; [done |].
    apply IH. lia.
Qed.

(** The end of a transaction whose requests all succeed, when the engine
    aborts it after [k] of its steps. *)
Lemma addNext_short_life `{Keyed V} (isEv : bool) (dataArray : list V) :
  ∀ k s s',
    addNext isEv dataArray None s = Committed s' →
    (k ≤ length dataArray)%nat →
    addNext isEv dataArray (Some k) s
      = if (k =? length dataArray)%nat then Uncommitted else Interrupted.
Proof.
  induction dataArray as [| item rest IH]; intros k s s' Hrun Hk; simpl in *.
  - by replace k with O by lia.
  - destruct k as [| k]; [done |]. simpl.
    destruct (store_add (strip_id isEv item) s) as [e | s1]; [done |].
    apply (IH k s1 s' Hrun). lia.
Qed.

Lemma strip_id_without `{KeyedLaws V} (isEv : bool) (item : V) :
  without_key (strip_id isEv item) = without_key item.
Proof.
  unfold strip_id. destruct (isEv && falsy_id (key_of item)); [| done].
  apply without_without_key.
Qed.

(** What the loop has done when the transaction commits. *)
Lemma addNext_commit `{KeyedLaws V} (isEv : bool) (dataArray : list V) :
  ∀ s s',
    store_wf s →
    addNext isEv dataArray None s = Committed s' →
    store_wf s' ∧
    without_key <$> store_getAll s'
      ≡ₚ (without_key <$> store_getAll s) ++ (without_key <$> dataArray).
Proof.
  induction dataArray as [| item rest IH]; intros s s' Hwf; simpl.
  - intros [= <-]. split; [done |]. by rewrite app_nil_r.
  - unfold store_add.
    destruct (resolve_key_spec (strip_id isEv item) (generator s))
      as (k & v' & g' & -> & Hk & Hlt & Hle & Hwo).
    destruct (store_lookup k (records s)) eqn:Hl; [done |].
    intros Hrest.
    destruct (IH _ _ (store_wf_insert s k v' g' Hwf Hk Hlt Hle) Hrest) as [Hwf' Hperm].
    split; [done |]. rewrite Hperm. unfold store_getAll. cbn [records].
    rewrite (store_insert_perm k v' (records s) Hl). simpl.
    rewrite Hwo, strip_id_without. by rewrite Permutation_middle.
Qed.

(** Records without an [id] are numbered by the generator, in sequence. *)
Lemma addNext_numbered `{Keyed V} (isEv : bool) (dataArray : list V) :
  ∀ l g,
    Forall (λ kv, kv.1 < g) l →
    Forall (λ item, key_of (strip_id isEv item) = None) dataArray →
    addNext isEv dataArray None (mkObjectStore l g) =
      Committed (mkObjectStore (l ++ numbered g (strip_id isEv <$> dataArray))
                               (g + Z.of_nat (length dataArray))).
Proof.
  induction dataArray as [| item rest IH]; intros l g Hl Hauto; simpl.
  - by rewrite app_nil_r, Z.add_0_r.
  - inversion_clear Hauto as [| ? ? Hitem Hrest].
    unfold store_add, resolve_key. rewrite Hitem. cbn [generator records].
    rewrite (store_lookup_below g l Hl), (store_insert_last g _ l Hl).
    rewrite IH; [| | done].
    + rewrite <- app_assoc. simpl. do 2 f_equal. lia.
    + apply Forall_app. split.
      * eapply Forall_impl; [exact Hl |]. simpl. intros. lia.
      * repeat constructor. simpl. lia.
Qed.

Lemma assigned_numbered `{Keyed V} (isEv : bool) (dataArray : list V) :
  ∀ g,
    Forall (λ item, key_of (strip_id isEv item) = None) dataArray →
    assigned isEv g dataArray = numbered g (strip_id isEv <$> dataArray).
Proof.
  induction dataArray as [| item rest IH]; intros g Hauto; [done |].
  inversion_clear Hauto as [| ? ? Hitem Hrest].
  simpl. unfold resolve_key. rewrite Hitem. by rewrite IH.
Qed.

Lemma addNext_app `{Keyed V} (isEv : bool) (l1 l2 : list V) :
  ∀ s s',
    addNext isEv (l1 ++ l2) None s = Committed s' →
    ∃ s1, addNext isEv l1 None s = Committed s1 ∧
          addNext isEv l2 None s1 = Committed s'.
Proof.
  induction l1 as [| item rest IH]; intros s s'; simpl.
  - intros Hrun. by exists s.
  - destruct (store_add (strip_id isEv item) s) as [e | s1]; [done |]. apply IH.
Qed.

(** A committed run never moves the generator back and never touches a
    record that was there. *)
Lemma addNext_stable `{KeyedLaws V} (isEv : bool) (dataArray : list V) :
  ∀ s s',
    addNext isEv dataArray None s = Committed s' →
    generator s ≤ generator s' ∧
    ∀ k v, store_lookup k (records s) = Some v → store_lookup k (records s') = Some v.
Proof.
  induction dataArray as [| item rest IH]; intros s s'; simpl.
  - intros [= <-]. by split.
  - unfold store_add.
    destruct (resolve_key_spec (strip_id isEv item) (generator s))
      as (k & v' & g' & -> & _ & _ & Hle & _).
    destruct (store_lookup k (records s)) eqn:Hl; [done |].
    intros Hrest. destruct (IH _ _ Hrest) as [Hgen Hkeep]. cbn [generator records] in *.
    split; [lia |].
    intros k0 v0 Hk0. apply Hkeep.
    rewrite store_lookup_insert_ne; [done |]. intros ->. congruence.
Qed.

(** A record without an [id] is stored under the generator's number. *)
Lemma addNext_auto `{KeyedLaws V} (isEv : bool) (item : V) (rest : list V) :
  ∀ s s',
    key_of (strip_id isEv item) = None →
    addNext isEv (item :: rest) None s = Committed s' →
    generator s < generator s' ∧
    store_lookup (generator s) (records s')
      = Some (with_key (generator s) (strip_id isEv item)).
Proof.
  intros s s' Hauto. simpl. unfold store_add, resolve_key. rewrite Hauto.
  destruct (store_lookup (generator s) (records s)); [done |].
  intros Hrest. destruct (addNext_stable _ _ _ _ Hrest) as [Hgen Hkeep].
  cbn [generator records] in *. split; [lia |].
  apply Hkeep. apply store_lookup_insert_eq.
Qed.

Lemma keys_free_cons {V} (k : Z) (v : V) (ks : list Z) (l : list (Z * V)) :
  keys_free (k :: ks) l ↔
  store_lookup k l = None ∧ keys_free ks (store_insert k v l).
Proof.
  unfold keys_free. rewrite NoDup_cons, Forall_cons. split.
  - intros [[Hnotin Hnd] [Hk Hall]]. split; [done |]. split; [done |].
    apply Forall_forall. intros k' Hin.
    rewrite store_lookup_insert_ne by (intros ->; done).
    by apply (proj1 (Forall_forall _ _) Hall).
  - intros [Hk [Hnd Hall]]. split; [split; [| done] | split; [done |]].
    + intros Hin. pose proof (proj1 (Forall_forall _ _) Hall k Hin) as Hl.
      cbv beta in Hl. by rewrite store_lookup_insert_eq in Hl.
    + apply Forall_forall. intros k' Hin.
      pose proof (proj1 (Forall_forall _ _) Hall k' Hin) as Hl.
      cbv beta in Hl.
      destruct (decide (k = k')) as [-> | Hne]; [by rewrite store_lookup_insert_eq in Hl |].
      by rewrite store_lookup_insert_ne in Hl.
Qed.

(** The loop commits exactly when the keys of the records are free; the
    store then holds what it held and the records, each under its key. *)
Lemma addNext_spec `{KeyedLaws V} (isEv : bool) (dataArray : list V) :
  ∀ s,
    store_wf s →
    (keys_free (assigned isEv (generator s) dataArray).*1 (records s) →
     ∃ s', addNext isEv dataArray None s = Committed s' ∧
           store_wf s' ∧
           records s' ≡ₚ records s ++ assigned isEv (generator s) dataArray) ∧
    (¬ keys_free (assigned isEv (generator s) dataArray).*1 (records s) →
     addNext isEv dataArray None s = RequestFailed CONSTRAINT).
Proof.
  induction dataArray as [| item rest IH]; intros s Hwf.
  - split.
    + intros _. exists s. split; [done |]. split; [done |]. by rewrite app_nil_r.
    + intros Hno. destruct Hno. split; constructor.
  - cbn [assigned addNext spent]. unfold store_add.
    destruct (resolve_key_spec (strip_id isEv item) (generator s))
      as (k & v' & g' & -> & Hk & Hlt & Hle & _).
    cbn [fmap list_fmap fst].
    change ((k, v').1 :: ?l) with (k :: l).
    destruct (store_lookup k (records s)) eqn:Hl.
    + split; [| done].
      intros Hfree. apply (keys_free_cons k v') in Hfree as [Hnone _]. congruence.
    + destruct (IH (mkObjectStore (store_insert k v' (records s)) g')
                  (store_wf_insert s k v' g' Hwf Hk Hlt Hle)) as [Hok Hfail].
      cbn [generator records] in Hok, Hfail. split.
      * intros Hfree. apply (keys_free_cons k v') in Hfree as [_ Hfree].
        destruct (Hok Hfree) as (s' & Hrun & Hwf' & Hperm).
        exists s'. split; [done |]. split; [done |].
        rewrite Hperm, (store_insert_perm k v' (records s) Hl).
        simpl. apply Permutation_middle.
      * intros Hno. apply Hfail. intros Hfree. apply Hno.
        by apply (keys_free_cons k v').
Qed.

(** A replace when the engine lets the transaction complete. *)
Lemma bulk_spec `{KeyedLaws V} (isEv : bool) (dataArray : list V) (s : ObjectStore V) :
  (NoDup (assigned isEv (generator s) dataArray).*1 →
   ∃ s', bulk_transaction isEv dataArray None s = Committed s' ∧
         store_wf s' ∧
         records s' ≡ₚ assigned isEv (generator s) dataArray ∧
         generator s ≤ generator s') ∧
  (¬ NoDup (assigned isEv (generator s) dataArray).*1 →
   bulk_transaction isEv dataArray None s = RequestFailed CONSTRAINT).
Proof.
  assert (Hclear : store_wf (store_clear s)) by (split; simpl; constructor).
  destruct (addNext_spec isEv dataArray (store_clear s) Hclear) as [Hok Hfail].
  cbn [store_clear generator records] in Hok, Hfail.
  assert (Hfree : ∀ ks, keys_free ks (@nil (Z * V)) ↔ NoDup ks).
  { intros ks. unfold keys_free. split; [by intros [? _] |].
    intros Hnd. split; [done |]. by apply Forall_forall. }
  split.
  - intros Hnd. destruct (Hok (proj2 (Hfree _) Hnd)) as (s' & Hrun & Hwf & Hperm).
    exists s'. split; [exact Hrun |]. split; [done |]. split; [done |].
    by destruct (addNext_stable _ _ _ _ Hrun).
  - intros Hno. apply Hfail. intros Hf. apply Hno. exact (proj1 Hf).
Qed.

(** C6. Replacing a collection is all or nothing, whatever the engine
    grants the transaction: afterwards the collection is as it was, or it
    holds exactly the given records, each under the [id] that it brings
    or under the number that the generator gives it.  When the engine
    lets the transaction complete, the records are taken exactly when
    their keys are pairwise distinct, and the call is rejected with the
    collection as it was when they are not; of two records without an
    [id] the earlier in the sequence gets the smaller number, and a
    sequence of records without [id]s is always taken and is numbered
    by the generator in order, so that the collection lists it in that
    order.  When the
    engine aborts the transaction during its requests the call is
    rejected; when it aborts it between the last request and the commit
    the call has resolved although the collection is as it was. *)
Theorem C6_bulk_replace_is_atomic `{KeyedLaws V} (store : StoreRef V)
    (dataArray : list V) (w : World) (d : Database) :
  db w = Some d →
  (∀ life,
     (∃ c, clearAndBulkAdd_within life store dataArray w = (c, w)) ∨
     (∃ s', clearAndBulkAdd_within life store dataArray w
              = (Normal tt, set_db (replace store s' d) w) ∧
            store_wf s' ∧
            records s' ≡ₚ assigned (isEvidences store) (generator (contents store d))
                                   dataArray)) ∧
  (NoDup (assigned (isEvidences store) (generator (contents store d)) dataArray).*1 →
   ∃ s',
     clearAndBulkAdd store dataArray w = (Normal tt, set_db (replace store s' d) w) ∧
     store_wf s' ∧
     records s' ≡ₚ assigned (isEvidences store) (generator (contents store d)) dataArray ∧
     generator (contents store d) ≤ generator s' ∧
     (∀ pre a mid b post,
        dataArray = pre ++ a :: mid ++ b :: post →
        key_of (strip_id (isEvidences store) a) = None →
        key_of (strip_id (isEvidences store) b) = None →
        ∃ ka kb,
          ka < kb ∧
          store_lookup ka (records s')
            = Some (with_key ka (strip_id (isEvidences store) a)) ∧
          store_lookup kb (records s')
            = Some (with_key kb (strip_id (isEvidences store) b))) ∧
     (Forall (λ item, key_of (strip_id (isEvidences store) item) = None) dataArray →
      records s' = numbered (generator (contents store d))
                            (strip_id (isEvidences store) <$> dataArray)) ∧
     (∀ k, clearAndBulkAdd_within (Some k) store dataArray w =
             if (k <=? length dataArray)%nat then (Thrown ABORT, w)
             else if (k =? S (length dataArray))%nat then (Normal tt, w)
             else (Normal tt, set_db (replace store s' d) w))) ∧
  (¬ NoDup (assigned (isEvidences store) (generator (contents store d)) dataArray).*1 →
   clearAndBulkAdd store dataArray w = (Thrown CONSTRAINT, w)) ∧
  (Forall (λ item, key_of (strip_id (isEvidences store) item) = None) dataArray →
   clearAndBulkAdd store dataArray w =
     (Normal tt,
      set_db (replace store
                (mkObjectStore
                   (numbered (generator (contents store d))
                             (strip_id (isEvidences store) <$> dataArray))
                   (generator (contents store d) + Z.of_nat (length dataArray)))
                d) w)).
Proof.
  intros Hdb.
  set (isEv := isEvidences store). set (s := contents store d).
  destruct (bulk_spec isEv dataArray s) as [Hok Hfail].
  split; [| split; [| split]].
  - intros life. unfold clearAndBulkAdd_within. rewrite Hdb. fold isEv s.
    destruct (bulk_transaction isEv dataArray life s) as [s' | e | |] eqn:Hrun;
      [| left; by eexists | left; by eexists | left; by eexists].
    right. exists s'. split; [done |].
    assert (Hnone : bulk_transaction isEv dataArray None s = Committed s').
    { unfold bulk_transaction in *. destruct (spent life); [done |].
      cbn [spent fmap option_fmap option_map].
      by apply (addNext_budget _ _ _ _ _ Hrun). }
    destruct (decide (NoDup (assigned isEv (generator s) dataArray).*1)) as [Hnd | Hno].
    + destruct (Hok Hnd) as (s'' & Hrun' & Hwf & Hperm & _).
      rewrite Hnone in Hrun'. injection Hrun' as <-. by split.
    + rewrite (Hfail Hno) in Hnone. discriminate Hnone.
  - intros Hnd. destruct (Hok Hnd) as (s' & Hrun & Hwf & Hperm & Hgen).
    exists s'. split.
    { unfold clearAndBulkAdd, clearAndBulkAdd_within. rewrite Hdb. fold isEv s.
      by rewrite Hrun. }
    split; [done |]. split; [done |]. split; [done |]. split; [| split].
    + intros pre a mid b post -> Ha Hb.
      unfold bulk_transaction in Hrun. simpl in Hrun.
      apply addNext_app in Hrun as (s1 & _ & Hrun).
      destruct (addNext_auto _ _ _ _ _ Ha Hrun) as [_ Hka].
      change (a :: mid ++ b :: post) with ([a] ++ mid ++ b :: post) in Hrun.
      apply addNext_app in Hrun as (s2 & Hsa & Hrun).
      destruct (addNext_auto _ _ _ _ _ Ha Hsa) as [Hlt _].
      apply addNext_app in Hrun as (s3 & Hmid & Hrun).
      destruct (addNext_stable _ _ _ _ Hmid) as [Hle _].
      destruct (addNext_auto _ _ _ _ _ Hb Hrun) as [_ Hkb].
      exists (generator s1), (generator s3). split; [lia | by split].
    + intros Hauto. unfold bulk_transaction, store_clear in Hrun. simpl in Hrun.
      rewrite addNext_numbered in Hrun by done. by injection Hrun as <-.
    + intros k. unfold clearAndBulkAdd_within. rewrite Hdb. fold isEv s.
      unfold bulk_transaction in *. cbn [spent fmap option_fmap option_map] in Hrun.
      destruct k as [| k]; [done |].
      cbn [spent fmap option_fmap option_map Nat.pred].
      destruct (Nat.leb_spec (S k) (length dataArray)) as [Hle | Hgt].
      * rewrite (addNext_short_life _ _ _ _ _ Hrun) by lia.
        by rewrite (proj2 (Nat.eqb_neq _ _)) by lia.
      * destruct (Nat.eqb_spec (S k) (S (length dataArray))) as [Heq | Hne].
        -- rewrite (addNext_short_life _ _ _ _ _ Hrun) by lia.
           by rewrite (proj2 (Nat.eqb_eq _ _)) by lia.
        -- rewrite addNext_long_life by lia. by rewrite Hrun.
  - intros Hno. unfold clearAndBulkAdd, clearAndBulkAdd_within. rewrite Hdb. fold isEv s.
    by rewrite (Hfail Hno).
  - intros Hauto. unfold clearAndBulkAdd, clearAndBulkAdd_within. rewrite Hdb. fold isEv s.
    unfold bulk_transaction, store_clear. cbn [spent fmap option_fmap option_map].
    by rewrite addNext_numbered.
Qed.

Lemma C6_witness :
  (∀ life,
     (∃ c, clearAndBulkAdd_within life STORES_USERS unnumbered (seeded (always 200))
             = (c, seeded (always 200))) ∨
     (∃ s', clearAndBulkAdd_within life STORES_USERS unnumbered (seeded (always 200))
              = (Normal tt, set_db (mkDatabase s' empty_store ∅) (seeded (always 200))) ∧
            store_wf s' ∧
            records s' ≡ₚ numbered 4 unnumbered)) ∧
  (∃ s',
     clearAndBulkAdd STORES_USERS unnumbered (seeded (always 200))
       = (Normal tt, set_db (mkDatabase s' empty_store ∅) (seeded (always 200))) ∧
     records s' = numbered 4 unnumbered ∧
     store_getAll s'
       = [mkWorker (Some 4) "Ana López" "12345678A" (Some 5) None;
          mkWorker (Some 5) "Roberto Gómez" "87654321B" (Some 3) None;
          mkWorker (Some 6) "Carla Pérez" "11223344C" (Some 8) None] ∧
     clearAndBulkAdd_within (Some 3%nat) STORES_USERS unnumbered (seeded (always 200))
       = (Thrown ABORT, seeded (always 200)) ∧
     clearAndBulkAdd_within (Some 4%nat) STORES_USERS unnumbered (seeded (always 200))
       = (Normal tt, seeded (always 200))) ∧
  clearAndBulkAdd STORES_EVIDENCES twice (with_local_evidence (always 200))
    = (Thrown CONSTRAINT, with_local_evidence (always 200)).
Proof.
  destruct (C6_bulk_replace_is_atomic STORES_USERS unnumbered (seeded (always 200))
              (mkDatabase (mkObjectStore (numbered 1 INITIAL_USERS) 4) empty_store ∅)
              eq_refl)
    as (Hany & Hgood & _ & _).
  destruct Hgood as (s' & Hrun & Hwf & Hperm & _ & _ & Hnum & Hcut).
  { vm_compute. by apply (bool_decide_unpack _). }
  pose proof (Hnum ltac:(by repeat constructor)) as Hrec.
  split; [exact Hany |]. split.
  - exists s'. split; [exact Hrun |]. split; [exact Hrec |].
    split; [unfold store_getAll; by rewrite Hrec |].
    split; [exact (Hcut 3%nat) | exact (Hcut 4%nat)].
  - destruct (C6_bulk_replace_is_atomic STORES_EVIDENCES twice
                (with_local_evidence (always 200))
                (mkDatabase (mkObjectStore (numbered 1 INITIAL_USERS) 4)
                   (mkObjectStore [(1, mkEvidence (Some 1) 1 "2024-01-09" 3%float "" None 0)] 2)
                   ∅)
                eq_refl)
      as (_ & _ & Hbad & _).
    apply Hbad. vm_compute. intros Hnd. apply NoDup_cons in Hnd as [Hin _].
    apply Hin. by left.
Defined.

(** *** What the retry loop sends *)

Lemma iteration_world (req : Request) (retries i : nat) (w : World) :
  (try_catch (try_block req) (catch_block i retries) w).2 = add_trace (Fetch req) w.
Proof.
  unfold try_catch, try_block, bind, fetch, catch_block.
  destruct (server w (attempts w) req) as [| r]; simpl.
  - by destruct (i =? retries - 1)%nat.
  - destruct (status_ok (status r)); [done |].
    destruct (status r =? 404); [| done].
    by destruct (i =? retries - 1)%nat.
Qed.

(** Whatever the remote end answers, the loop sends the request it was
    given, at least once, and nothing else. *)
Lemma loop_activity (req : Request) (retries : nat) :
  ∀ n i w, ∃ evs,
    (backoff_loop req retries (S n) i w).2 = replay (Fetch req :: evs) w ∧
    only_sends req evs.
Proof.
  induction n as [| n IH]; intros i w.
  - simpl. unfold bind at 1.
    pose proof (iteration_world req retries i w) as Hw.
    destruct (try_catch (try_block req) (catch_block i retries) w) as [[[r |] | e |] w1];
      simpl in Hw; subst w1.
    + exists []. split; [done | constructor].
    + exists [Wait (2 ^ Z.of_nat i * 1000)]. split; [done |].
      constructor; [right; by eexists | constructor].
    + exists []. split; [done | constructor].
    + exists []. split; [done | constructor].
  - change (backoff_loop req retries (S (S n)) i w)
      with (bind (try_catch (try_block req) (catch_block i retries))
                 (λ r, match r with
                       | Return response => ret (Some response)
                       | FallThrough =>
                           bind (sleep (2 ^ Z.of_nat i * 1000))
                                (λ _, backoff_loop req retries (S n) (S i))
                       end) w).
    unfold bind at 1.
    pose proof (iteration_world req retries i w) as Hw.
    destruct (try_catch (try_block req) (catch_block i retries) w) as [[[r |] | e |] w1];
      simpl in Hw; subst w1.
    + exists []. split; [done | constructor].
    + unfold bind, sleep, modify.
      destruct (IH (S i) (advance (2 ^ Z.of_nat i * 1000)
                            (add_trace (Wait (2 ^ Z.of_nat i * 1000))
                               (add_trace (Fetch req) w)))) as (evs & Hevs & Hall).
      exists (Wait (2 ^ Z.of_nat i * 1000) :: Fetch req :: evs). split.
      * by rewrite Hevs.
      * constructor; [right; by eexists |]. constructor; [by left | done].
    + exists []. split; [done | constructor].
    + exists []. split; [done | constructor].
Qed.

(** The loop settles: its promise is never left pending. *)
Lemma loop_settles (req : Request) (retries : nat) :
  ∀ n i w, (backoff_loop req retries n i w).1 ≠ Pending.
Proof.
  induction n as [| n IH]; intros i w; [done |].
  simpl. unfold bind at 1.
  assert (Hit : (try_catch (try_block req) (catch_block i retries) w).1 ≠ Pending).
  { unfold try_catch, try_block, bind, fetch, catch_block.
    destruct (server w (attempts w) req) as [| r]; simpl.
    - by destruct (i =? retries - 1)%nat.
    - destruct (status_ok (status r)); [done |].
      destruct (status r =? 404); [| done].
      by destruct (i =? retries - 1)%nat. }
  destruct (try_catch (try_block req) (catch_block i retries) w) as [[[r |] | e |] w1];
    [done | | done | done].
  unfold bind, sleep, modify. apply IH.
Qed.

Lemma fetchWithBackoff_settles (req : Request) (w : World) :
  (fetchWithBackoff req DEFAULT_RETRIES w).1 ≠ Pending.
Proof. apply loop_settles. Qed.

Lemma fetchWithBackoff_activity (req : Request) (w : World) :
  ∃ evs,
    (fetchWithBackoff req DEFAULT_RETRIES w).2 = replay (Fetch req :: evs) w ∧
    only_sends req evs.
Proof. apply (loop_activity req 5 4 0 w). Qed.

Lemma pull_activity (w : World) gistId token :
  ∃ evs, (loadDataFromGist gistId token w).2 = replay evs w.
Proof.
  unfold loadDataFromGist.
  destruct (falsy gistId || falsy token); [by exists [] |].
  set (req := mkRequest "GET" _ _ _).
  destruct (fetchWithBackoff_activity req w) as (evs & Hevs & _).
  exists (Fetch req :: evs). unfold bind.
  destruct (fetchWithBackoff req DEFAULT_RETRIES w) as [[[r |] | e |] w1];
    simpl in Hevs; subst w1; [| done | done | done].
  destruct (gist r) as [fs |]; [| done].
  by destruct (file_content fs DATA_FILE) as [[c |] |].
Qed.

(** *** The start-up load *)

(** The pull fails and the workers' store, empty before, is empty after:
    the default workers are not written. *)
Lemma C7_counterexample :
  loadDataFromGist "abc" "tok" (fresh unreachable)
    = (Thrown NetworkFailure, replay (retry_schedule
                                        (mkRequest "GET" (GIST_API_URL +:+ "abc")
                                           [("Accept", "application/vnd.github.v3+json");
                                            ("Authorization", "token tok")] None) 4 0
                                      ++ [Fetch (mkRequest "GET" (GIST_API_URL +:+ "abc")
                                           [("Accept", "application/vnd.github.v3+json");
                                            ("Authorization", "token tok")] None)])
                                     (fresh unreachable)) ∧
  store_getAll (users (mkDatabase empty_store empty_store ∅)) = [] ∧
  db (initialDataLoad "abc" "tok" (fresh unreachable)).2
    = Some (mkDatabase empty_store empty_store ∅).
Proof. split; [vm_compute; reflexivity |]. split; vm_compute; reflexivity. Qed.

(** C7 (amended). Whenever the load routine runs with a complete
    configuration and the pull fails, it shows the error, sets the
    status of a failed remote load and renders the workers that the
    local store holds; the store stays as it is, also when it is empty:
    no default worker is written.  Whenever the routine runs without a
    complete configuration, it makes no request; it writes the built-in
    default workers, and renders them, when the workers' collection is
    empty, leaving the evidence collection as it is, and it renders the
    local workers and writes nothing when the collection is not
    empty. *)
Theorem C7_failed_pull_keeps_local_store :
  (∀ (w : World) (d : Database) gistId token e w1,
     db w = Some d →
     configured gistId token →
     loadDataFromGist gistId token w = (Thrown e, w1) →
     ∃ w', initialDataLoad gistId token w = (Normal tt, w') ∧
           db w' = Some d ∧
           trace w' = trace w1 ∧
           syncStatus w' = Lit "Error de Carga Remota" ∧
           ui w' = ui w ++
                   [Notification (with_message "Error al cargar datos: " e ". Usando local.")
                                 error;
                    Render (store_getAll (users d))]) ∧
  (∀ (w : World) (d : Database) noId noToken,
     db w = Some d →
     falsy noId || falsy noToken = true →
     (store_getAll (users d) = [] →
      ∃ w' d', initialDataLoad noId noToken w = (Normal tt, w') ∧
               db w' = Some d' ∧
               store_getAll (users d') = INITIAL_USERS ∧
               evidences d' = evidences d ∧
               trace w' = trace w ∧
               ui w' = ui w ++
                       [Render INITIAL_USERS;
                        Notification (Lit "Modo Offline/Local: Gist no configurado.")
                                     error]) ∧
     (store_getAll (users d) ≠ [] →
      ∃ w', initialDataLoad noId noToken w = (Normal tt, w') ∧
            db w' = Some d ∧
            trace w' = trace w ∧
            ui w' = ui w ++
                    [Render (store_getAll (users d));
                     Notification (Lit "Modo Offline/Local: Gist no configurado.")
                                  error])).
Proof.
  split.
  - intros w d gistId token e w1 Hdb [Hg Ht] Hpull.
    destruct (pull_activity w gistId token) as (evs & Hevs).
    rewrite Hpull in Hevs. simpl in Hevs. subst w1.
    unfold initialDataLoad. rewrite Hg, Ht. cbn [negb andb].
    unfold try_catch, bind at 1. rewrite Hpull.
    unfold bind at 1, showNotification, modify.
    unfold bind at 1.
    unfold bind at 1. erewrite getAll_open by (simpl; by rewrite db_replay).
    eexists. split; [reflexivity |]. simpl.
    rewrite db_replay, ui_replay, <- app_assoc. by repeat split.
  - intros w d noId noToken Hdb Hcfg.
    assert (Hoff : negb (falsy noId) && negb (falsy noToken) = false)
      by (by destruct (falsy noId), (falsy noToken)).
    unfold initialDataLoad. rewrite Hoff.
    split; intros Hempty;
      unfold try_catch, bind at 1; rewrite (getAll_open _ w d Hdb);
      cbn [contents STORES_USERS];
      destruct w as [dbw cur ck st col u0 tr sv]; simpl in Hdb; subst dbw.
    + rewrite Hempty. cbn [length Nat.eqb].
      destruct d as [[us g] ev cf]. cbn [users] in Hempty.
      unfold store_getAll in Hempty. cbn [records] in Hempty.
      apply fmap_nil_inv in Hempty. subst us.
      eexists _, _. split; [reflexivity |]. repeat split.
      cbn [ui set_syncStatus add_ui set_db]. by rewrite <- app_assoc.
    + destruct (store_getAll (users d)) as [| u1 us] eqn:Hall; [done |].
      eexists. split; [reflexivity |]. repeat split.
      cbn [ui set_syncStatus add_ui set_db]. by rewrite <- app_assoc.
Qed.

Lemma C7_witness :
  (∃ w', initialDataLoad "abc" "tok" (fresh unreachable) = (Normal tt, w') ∧
         db w' = Some (mkDatabase empty_store empty_store ∅) ∧
         syncStatus w' = Lit "Error de Carga Remota" ∧
         ui w' = [Notification (LitMessage "Error al cargar datos: " NetworkFailure
                                           ". Usando local.") error;
                  Render []]) ∧
  (∃ w' d', initialDataLoad "" "" (fresh unreachable) = (Normal tt, w') ∧
            db w' = Some d' ∧
            store_getAll (users d') = INITIAL_USERS ∧
            evidences d' = empty_store) ∧
  (∃ w', initialDataLoad "" "" (seeded unreachable) = (Normal tt, w') ∧
         db w' = db (seeded unreachable) ∧
         ui w' = [Render (numbered 1 INITIAL_USERS).*2;
                  Notification (Lit "Modo Offline/Local: Gist no configurado.") error]).
Proof.
  destruct C7_failed_pull_keeps_local_store as [Hfail Hlocal].
  split; [| split].
  - destruct (Hfail (fresh unreachable) (mkDatabase empty_store empty_store ∅)
                "abc" "tok" NetworkFailure
                (loadDataFromGist "abc" "tok" (fresh unreachable)).2)
      as (w' & Hrun & Hdb & _ & Hst & Hui).
    + reflexivity.
    + split; reflexivity.
    + vm_compute. reflexivity.
    + exists w'. by repeat split.
  - destruct (Hlocal (fresh unreachable) (mkDatabase empty_store empty_store ∅) "" ""
                eq_refl eq_refl) as [Hseed _].
    destruct (Hseed eq_refl) as (w' & d' & Hrun & Hdb & Hus & Hev & _).
    exists w', d'. by repeat split.
  - destruct (Hlocal (seeded unreachable)
                (mkDatabase (mkObjectStore (numbered 1 INITIAL_USERS) 4) empty_store ∅)
                "" "" eq_refl eq_refl) as [_ Hkeep].
    destruct (Hkeep ltac:(discriminate)) as (w' & Hrun & Hdb & _ & Hui).
    exists w'. by repeat split.
Defined.

(** *** What a push sends *)

(** The document pushed by the application script has a third member,
    [lastSync], besides the two collections. *)
Lemma C8_counterexample :
  trace (saveDataToGist "abc" "tok" (seeded (always 200))).2
    = [Fetch (push_request "abc" "tok"
                (JObj [("users", JArr (worker_json <$> INITIAL_USERS));
                       ("evidences", JArr []);
                       ("lastSync", JIsoTime 0)]))]
  ∧ JObj [("users", JArr (worker_json <$> INITIAL_USERS));
          ("evidences", JArr []);
          ("lastSync", JIsoTime 0)]
    ≠ JObj [("users", JArr (worker_json <$> INITIAL_USERS));
            ("evidences", JArr [])].
Proof. split; [vm_compute; reflexivity | discriminate]. Qed.

(** C8 (amended). A push of the application script with a complete
    configuration and the database open sends one request, and the same
    request again on each retry: a [PATCH] to the address of the
    document, whose body has exactly one file, the data file; the
    content of that file has three members in this order: [users], the
    workers' collection as [getAll] lists it, [evidences], the evidence
    collection as [getAll] lists it, and [lastSync], the time of the
    push.  The local collections are left as they are.  A push of the
    evidence module with a complete stored configuration sends one
    [PATCH] whose body has exactly one file, with the two members
    [users] and [evidences] and nothing else. *)
Theorem C8_push_document :
  (∀ (w : World) (d : Database) gistId token,
     db w = Some d →
     configured gistId token →
     ∃ w' req evs,
       saveDataToGist gistId token w = (Normal tt, w') ∧
       db w' = Some d ∧
       trace w' = trace w ++ Fetch req :: evs ∧
       only_sends req evs ∧
       method req = "PATCH" ∧
       url req = GIST_API_URL +:+ gistId ∧
       files <$> body req =
         Some [(DATA_FILE,
                JObj [("users", JArr (worker_json <$> store_getAll (users d)));
                      ("evidences", JArr (evidence_json <$> store_getAll (evidences d)));
                      ("lastSync", JIsoTime (clock w))])]) ∧
  (∀ (v : EvidenceModule.World) e cfg,
     EvidenceModule.db v = Some e →
     EvidenceModule.getGistConfig v = (Normal cfg, v) →
     falsy (EvidenceModule.cfg_id cfg) || falsy (EvidenceModule.cfg_token cfg) = false →
     ∃ ok v' req,
       EvidenceModule.syncToGist v = (Normal (Some ok), v') ∧
       EvidenceModule.db v' = Some e ∧
       EvidenceModule.sent v' = EvidenceModule.sent v ++ [req] ∧
       method req = "PATCH" ∧
       url req = "https://api.github.com/gists/" +:+ EvidenceModule.cfg_id cfg ∧
       files <$> body req =
         Some [(EvidenceModule.GIST_FILE_NAME,
                JObj [("users",
                       JArr (EvidenceModule.all_records EvidenceModule.STORES_USERS e));
                      ("evidences",
                       JArr (EvidenceModule.evidence_json <$>
                             EvidenceModule.all_records EvidenceModule.STORES_EVIDENCES e))])]).
Proof.
  split.
  - intros w d gistId token Hdb [Hg Ht].
    set (req := push_request gistId token
                  (dataToSave (store_getAll (users d)) (store_getAll (evidences d))
                              (clock w))).
    destruct (fetchWithBackoff_activity req w) as (evs & Hevs & Hall).
    cut (∃ w', saveDataToGist gistId token w = (Normal tt, w') ∧
               db w' = Some d ∧ trace w' = trace w ++ Fetch req :: evs).
    { intros (w' & Hrun & Hdb' & Htr). exists w', req, evs. by repeat split. }
    unfold saveDataToGist. rewrite Hg, Ht. cbn [orb]. cbv beta iota zeta.
    unfold bind at 1. rewrite (getAll_open _ w d Hdb). cbv beta iota.
    unfold bind at 1. rewrite (getAll_open _ w d Hdb). cbv beta iota.
    unfold bind at 1, Date_now at 1, gets. cbv beta iota.
    cbn [contents STORES_USERS STORES_EVIDENCES]. fold req.
    unfold try_catch, bind at 1.
    destruct (fetchWithBackoff req DEFAULT_RETRIES w) as [[r | e |] w1] eqn:Hfetch;
      simpl in Hevs; subst w1.
    + eexists. split; [reflexivity |].
      rewrite (proj1 (status_keeps_db _ _ _)), (proj2 (status_keeps_db _ _ _)).
      rewrite db_replay, trace_replay. simpl. by rewrite <- app_assoc.
    + eexists. split; [reflexivity |].
      rewrite (proj1 (status_keeps_db _ _ _)), (proj2 (status_keeps_db _ _ _)).
      rewrite db_replay, trace_replay. simpl. by rewrite <- app_assoc.
    + exfalso. apply (fetchWithBackoff_settles req w). by rewrite Hfetch.
  - intros v e cfg Hv Hget Hcfg. unfold EvidenceModule.syncToGist.
    unfold bind at 1. rewrite Hget, Hcfg.
    destruct v as [dbv ix ck u0 sn sv]. simpl in Hv. subst dbv.
    unfold try_catch, bind, EvidenceModule.showToast, modify, EvidenceModule.idbGetAll,
      EvidenceModule.Date_now, gets, EvidenceModule.fetch.
    cbn [EvidenceModule.db EvidenceModule.add_ui EvidenceModule.server
         EvidenceModule.sent EvidenceModule.clock EvidenceModule.localIndex
         EvidenceModule.ui EvidenceModule.add_sent].
    destruct (sv _ _) as [| status].
    + eexists _, _, _. split; [reflexivity |]. by repeat split.
    + destruct (status_ok status).
      * eexists _, _, _. split; [reflexivity |]. by repeat split.
      * eexists _, _, _. split; [reflexivity |]. by repeat split.
Qed.

Lemma C8_witness :
  (∃ w' req evs,
     saveDataToGist "abc" "tok" (with_local_evidence (always 200)) = (Normal tt, w') ∧
     trace w' = Fetch req :: evs ∧
     only_sends req evs ∧
     method req = "PATCH" ∧
     files <$> body req =
       Some [(DATA_FILE,
              JObj [("users", JArr (worker_json <$> (numbered 1 INITIAL_USERS).*2));
                    ("evidences",
                     JArr [JObj [("userId", JNum 1); ("date", JStr "2024-01-09");
                                 ("amount", JDouble 3); ("notes", JStr "");
                                 ("image", JNull); ("timestamp", JIsoTime 0);
                                 ("id", JNum 1)]]);
                    ("lastSync", JIsoTime 0)])]) ∧
  (∃ ok v' req,
     EvidenceModule.syncToGist EvidenceModule.with_config = (Normal (Some ok), v') ∧
     EvidenceModule.sent v' = [req] ∧
     method req = "PATCH" ∧
     files <$> body req =
       Some [(EvidenceModule.GIST_FILE_NAME,
              JObj [("users", JArr [EvidenceModule.W1]);
                    ("evidences",
                     JArr [EvidenceModule.evidence_json EvidenceModule.checked_out])])]).
Proof.
  destruct C8_push_document as [Happ Hmodule]. split.
  - destruct (Happ (with_local_evidence (always 200)) _ "abc" "tok" eq_refl)
      as (w' & req & evs & Hrun & _ & Htrace & Hevs & Hm & _ & Hbody).
    + split; reflexivity.
    + exists w', req, evs. by repeat split.
  - destruct (Hmodule EvidenceModule.with_config EvidenceModule.synced_db
                (EvidenceModule.mkGistConfig "abc" "tok") eq_refl eq_refl eq_refl)
      as (ok & v' & req & Hrun & _ & Hsent & Hm & _ & Hbody).
    exists ok, v', req. by repeat split.
Defined.

End AppFacts.

(** ** More facts about the evidence module *)

Module EvidenceExtras.
Import EvidenceModule.

(** X1. The first save for a worker and day creates the record: it has the
    composite key, the slot of the event kind holds the image and is
    marked with the recognised text or [true], the other slot and its mark
    are [null], the creation time is the time of the save, and the store
    has one record more. *)
Theorem save_creates_record (w : World) (d : Database)
    userId dateISO tipo dataUrl ocr :
  db w = Some d →
  evidences d !! evidence_id userId dateISO = None →
  ∃ r w',
    saveEvidenceForUser userId dateISO tipo dataUrl ocr w = (Normal r, w') ∧
    r = (if String.eqb tipo "entrada"
         then mkEvidence (evidence_id userId dateISO) userId dateISO
                (Some dataUrl) None (or_true ocr) VNull (clock w)
         else mkEvidence (evidence_id userId dateISO) userId dateISO
                None (Some dataUrl) VNull (or_true ocr) (clock w)) ∧
    db w' = Some (mkDatabase (users d)
                    (<[evidence_id userId dateISO := r]> (evidences d)) (config d)) ∧
    size (<[evidence_id userId dateISO := r]> (evidences d)) = S (size (evidences d)).
Proof.
  intros Hdb Hnew.
  pose proof (EvidenceFacts.save_open w d userId dateISO tipo dataUrl ocr Hdb) as H.
  cbv zeta in H. rewrite Hnew in H. cbn [default from_option] in H.
  eexists _, _. split; [exact H |].
  destruct (String.eqb tipo "entrada"); (split; [reflexivity |]);
    (split; [reflexivity |]); by rewrite map_size_insert_None.
Qed.

Lemma save_creates_record_witness :
  ∃ r w',
    saveEvidenceForUser "W1" "2024-01-10" "entrada" "img-in" (Some "12.50") only_W1
      = (Normal r, w') ∧
    r = mkEvidence "W1_2024-01-10" "W1" "2024-01-10"
          (Some "img-in") None (VOcr "12.50") VNull 1704880000000 ∧
    db w' = Some (mkDatabase {[ "W1" := W1 ]} {[ "W1_2024-01-10" := r ]} ∅) ∧
    size (<[ "W1_2024-01-10" := r ]> (∅ : gmap string EvidenceRecord)) = 1%nat.
Proof.
  destruct (save_creates_record only_W1 (mkDatabase {[ "W1" := W1 ]} ∅ ∅)
              "W1" "2024-01-10" "entrada" "img-in" (Some "12.50") eq_refl eq_refl)
    as (r & w' & Hsave & Hr & Hdb & Hsize).
  exists r, w'. split; [exact Hsave |]. split; [exact Hr |].
  split; [exact Hdb | exact Hsize].
Defined.

(** X2. A check-in and a check-out for the same worker and day end in one
    record that holds both images and both marks, in whichever order the
    two are saved; the records under other keys are as before. *)
Theorem check_in_and_out_in_any_order (w : World) (d : Database)
    userId dateISO imgIn imgOut ocrIn ocrOut :
  db w = Some d →
  keyed STORES_EVIDENCES d →
  ∃ r1 w1 r2 w2 d2 s1 v1 s2 v2 e2,
    saveEvidenceForUser userId dateISO "entrada" imgIn ocrIn w = (Normal r1, w1) ∧
    saveEvidenceForUser userId dateISO "salida" imgOut ocrOut w1 = (Normal r2, w2) ∧
    saveEvidenceForUser userId dateISO "salida" imgOut ocrOut w = (Normal s1, v1) ∧
    saveEvidenceForUser userId dateISO "entrada" imgIn ocrIn v1 = (Normal s2, v2) ∧
    db w2 = Some d2 ∧ db v2 = Some e2 ∧
    evidences d2 !! evidence_id userId dateISO = Some r2 ∧
    evidences e2 !! evidence_id userId dateISO = Some s2 ∧
    entrada r2 = Some imgIn ∧ salida r2 = Some imgOut ∧
    validatedEntry r2 = or_true ocrIn ∧ validatedExit r2 = or_true ocrOut ∧
    entrada s2 = Some imgIn ∧ salida s2 = Some imgOut ∧
    validatedEntry s2 = or_true ocrIn ∧ validatedExit s2 = or_true ocrOut ∧
    (∀ k, k ≠ evidence_id userId dateISO →
       evidences d2 !! k = evidences d !! k ∧ evidences e2 !! k = evidences d !! k).
Proof.
  intros Hdb Hk.
  destruct (EvidenceFacts.save_spec w d userId dateISO "entrada" imgIn ocrIn Hdb Hk)
    as (r1 & w1 & H1 & Hdb1 & Hid1 & Hslot1 & _).
  destruct (EvidenceFacts.save_spec w d userId dateISO "salida" imgOut ocrOut Hdb Hk)
    as (s1 & v1 & G1 & Gdb1 & Gid1 & Gslot1 & _).
  assert (Hk1 : keyed STORES_EVIDENCES
                  (mkDatabase (users d)
                     (<[evidence_id userId dateISO := r1]> (evidences d)) (config d))).
  { rewrite <- Hid1. by apply EvidenceFacts.keyed_insert. }
  assert (Gk1 : keyed STORES_EVIDENCES
                  (mkDatabase (users d)
                     (<[evidence_id userId dateISO := s1]> (evidences d)) (config d))).
  { rewrite <- Gid1. by apply EvidenceFacts.keyed_insert. }
  destruct (EvidenceFacts.save_spec w1 _ userId dateISO "salida" imgOut ocrOut Hdb1 Hk1)
    as (r2 & w2 & H2 & Hdb2 & _ & Hslot2 & Hframe2 & _).
  destruct (EvidenceFacts.save_spec v1 _ userId dateISO "entrada" imgIn ocrIn Gdb1 Gk1)
    as (s2 & v2 & G2 & Gdb2 & _ & Gslot2 & Gframe2 & _).
  cbn [evidences] in Hframe2, Gframe2.
  destruct (Hframe2 r1 (lookup_insert_eq _ _ _)) as (_ & _ & Hkeep).
  destruct (Gframe2 s1 (lookup_insert_eq _ _ _)) as (_ & Gkeep & _).
  destruct (Hkeep ltac:(discriminate)) as [Hin Hvin].
  destruct (Gkeep eq_refl) as [Gout Gvout].
  assert (Hmark : ∀ tipo img ocr (r : EvidenceRecord) w0 w0' d0,
            db w0 = Some d0 →
            saveEvidenceForUser userId dateISO tipo img ocr w0 = (Normal r, w0') →
            if String.eqb tipo "entrada" then validatedEntry r = or_true ocr
            else validatedExit r = or_true ocr).
  { intros tipo img ocr r w0 w0' d0 Hd0 Hs.
    rewrite (EvidenceFacts.save_open w0 d0 userId dateISO tipo img ocr Hd0) in Hs.
    injection Hs as <- _. by destruct (String.eqb tipo "entrada"). }
  pose proof (Hmark _ _ _ _ _ _ _ Hdb H1) as M1. simpl in M1.
  pose proof (Hmark _ _ _ _ _ _ _ Hdb1 H2) as M2. simpl in M2.
  pose proof (Hmark _ _ _ _ _ _ _ Hdb G1) as N1. simpl in N1.
  pose proof (Hmark _ _ _ _ _ _ _ Gdb1 G2) as N2. simpl in N2.
  unfold slot in Hslot1, Hslot2, Gslot1, Gslot2. simpl in Hslot1, Hslot2, Gslot1, Gslot2.
  eexists r1, w1, r2, w2, _, s1, v1, s2, v2, _.
  split; [exact H1 |]. split; [exact H2 |]. split; [exact G1 |]. split; [exact G2 |].
  split; [exact Hdb2 |]. split; [exact Gdb2 |]. cbn [evidences].
  split; [apply lookup_insert_eq |]. split; [apply lookup_insert_eq |].
  split; [congruence |]. split; [exact Hslot2 |].
  split; [congruence |]. split; [exact M2 |].
  split; [exact Gslot2 |]. split; [congruence |].
  split; [exact N2 |]. split; [congruence |].
  intros k Hne. by rewrite !lookup_insert_ne.
Qed.

Lemma check_in_and_out_in_any_order_witness :
  ∃ r2 s2 w2 v2,
    (saveEvidenceForUser "W1" "2024-01-10" "salida" "img-out" None
       (saveEvidenceForUser "W1" "2024-01-10" "entrada" "img-in" None only_W1).2)
      = (Normal r2, w2) ∧
    (saveEvidenceForUser "W1" "2024-01-10" "entrada" "img-in" None
       (saveEvidenceForUser "W1" "2024-01-10" "salida" "img-out" None only_W1).2)
      = (Normal s2, v2) ∧
    entrada r2 = Some "img-in" ∧ salida r2 = Some "img-out" ∧
    entrada s2 = Some "img-in" ∧ salida s2 = Some "img-out".
Proof.
  destruct (check_in_and_out_in_any_order only_W1 (mkDatabase {[ "W1" := W1 ]} ∅ ∅)
              "W1" "2024-01-10" "img-in" "img-out" None None)
    as (r1 & w1 & r2 & w2 & d2 & s1 & v1 & s2 & v2 & e2 & H1 & H2 & G1 & G2 & _ & _ & _ & _
        & Hin & Hout & _ & _ & Gin & Gout & _).
  - reflexivity.
  - intros k v. simpl. by rewrite lookup_empty.
  - exists r2, s2, w2, v2. rewrite H1, G1. cbn [snd].
    split; [exact H2 |]. split; [exact G2 |].
    split; [exact Hin |]. split; [exact Hout |]. split; [exact Gin | exact Gout].
Defined.

(** X3. A save is not all or nothing.  With the database not open it
    throws and the world is exactly as before, and so it is when the
    engine fails the [put].  But when [localStorage] refuses the new
    index, the save throws after the record was written: the store holds
    the record that a save that succeeds returns, with the image in the
    slot of the event kind, while the index has no entry for it and
    neither the toast nor the preview is shown. *)
Theorem save_is_not_all_or_nothing (w : World) userId dateISO tipo dataUrl ocr :
  (∀ storage,
     db w = None →
     saveEvidenceForUser_on storage userId dateISO tipo dataUrl ocr w
       = (Thrown (TypeError "db is null"), w)) ∧
  (∀ d e,
     db w = Some d →
     saveEvidenceForUser_on (PutFails e) userId dateISO tipo dataUrl ocr w
       = (Thrown e, w)) ∧
  (∀ d,
     db w = Some d →
     keyed STORES_EVIDENCES d →
     ∃ r w',
       saveEvidenceForUser userId dateISO tipo dataUrl ocr w = (Normal r, w') ∧
       slot tipo r = Some dataUrl ∧
       saveEvidenceForUser_on IndexFull userId dateISO tipo dataUrl ocr w
         = (Thrown (DOMException "QuotaExceededError"),
            mkWorld (Some (mkDatabase (users d)
                             (<[evidence_id userId dateISO := r]> (evidences d))
                             (config d)))
                    (localIndex w) (clock w) (ui w) (sent w) (server w))).
Proof.
  split; [| split].
  - intros storage Hdb. destruct w as [dbw ix ck u sn sv]. simpl in Hdb. subst dbw.
    by destruct storage.
  - intros d e Hdb. destruct w as [dbw ix ck u sn sv]. simpl in Hdb. by subst dbw.
  - intros d Hdb Hk.
    destruct (EvidenceFacts.save_spec w d userId dateISO tipo dataUrl ocr Hdb Hk)
      as (r & w' & Hrun & _ & Hid & Hslot & _).
    exists r, w'. split; [exact Hrun |]. split; [exact Hslot |].
    rewrite (EvidenceFacts.save_open w d userId dateISO tipo dataUrl ocr Hdb) in Hrun.
    cbv zeta in Hrun. injection Hrun as Hr _.
    rewrite <- Hid, <- Hr.
    destruct w as [dbw ix ck u sn sv]. simpl in Hdb. subst dbw. reflexivity.
Qed.

Lemma save_is_not_all_or_nothing_witness :
  saveEvidenceForUser_on Serves "W1" "2024-01-10" "entrada" "img-in" None closed
    = (Thrown (TypeError "db is null"), closed) ∧
  saveEvidenceForUser_on (PutFails (Event "error"))
      "W1" "2024-01-10" "entrada" "img-in" None only_W1
    = (Thrown (Event "error"), only_W1) ∧
  (∃ w',
     saveEvidenceForUser_on IndexFull "W1" "2024-01-10" "entrada" "img-in" None only_W1
       = (Thrown (DOMException "QuotaExceededError"), w') ∧
     db w' = Some (mkDatabase {[ "W1" := W1 ]}
                     {[ "W1_2024-01-10" :=
                          mkEvidence "W1_2024-01-10" "W1" "2024-01-10"
                            (Some "img-in") None VTrue VNull 1704880000000 ]} ∅) ∧
     getLocalIndex w' = [] ∧
     ui w' = []).
Proof.
  destruct (save_is_not_all_or_nothing only_W1 "W1" "2024-01-10" "entrada" "img-in" None)
    as (_ & Hput & Hfull).
  split; [| split].
  - apply (proj1 (save_is_not_all_or_nothing closed "W1" "2024-01-10" "entrada"
                    "img-in" None)).
    reflexivity.
  - apply (Hput (mkDatabase {[ "W1" := W1 ]} ∅ ∅)). reflexivity.
  - destruct (Hfull (mkDatabase {[ "W1" := W1 ]} ∅ ∅) eq_refl) as (r & w' & Hrun & _ & Hfail).
    + intros k v. simpl. by rewrite lookup_empty.
    + vm_compute in Hrun. injection Hrun as <- _.
      eexists. split; [exact Hfail |]. by repeat split.
Defined.

Lemma getGistConfig_total (w : World) :
  ∃ cfg, getGistConfig w = (Normal cfg, w).
Proof.
  unfold getGistConfig, try_catch, bind, idbGet.
  destruct (db w) as [d |]; [| by eexists].
  destruct (contents STORES_CONFIG d !! "gist") as [c |]; by eexists.
Qed.

(** X4. With the database open [setGistConfig] resolves to [undefined];
    the configuration that it stores is the one that [getGistConfig]
    reads back, and storing it touches neither the workers nor the
    evidence; reading the configuration never throws and changes
    nothing, and yields the empty configuration when the database is not
    open. *)
Theorem config_round_trip (w : World) (d : Database) gistId token :
  db w = Some d →
  (∃ w1,
     setGistConfig gistId token w = (Normal tt, w1) ∧
     getGistConfig w1 = (Normal (mkGistConfig gistId token), w1) ∧
     db w1 = Some (mkDatabase (users d) (evidences d)
                     (<["gist" := mkConfigRecord "gist" (Some (mkGistConfig gistId token))]>
                        (config d)))) ∧
  (∀ v, ∃ cfg, getGistConfig v = (Normal cfg, v) ∧ (db v = None → cfg = no_config)).
Proof.
  intros Hdb. split.
  - destruct w as [dbw ix ck u sn sv]. simpl in Hdb. subst dbw.
    eexists. split; [reflexivity |]. split; [| reflexivity].
    unfold getGistConfig, try_catch, bind, idbGet. cbn [db set_db contents replace STORES_CONFIG config keyPath key].
    by rewrite lookup_insert_eq.
  - intros v. destruct (getGistConfig_total v) as (cfg & Hcfg).
    exists cfg. split; [exact Hcfg |]. intros Hv.
    unfold getGistConfig, try_catch, bind, idbGet in Hcfg. rewrite Hv in Hcfg.
    by injection Hcfg as <-.
Qed.

Lemma config_round_trip_witness :
  (∃ w1,
     setGistConfig "abc" "tok" only_W1 = (Normal tt, w1) ∧
     getGistConfig w1 = (Normal (mkGistConfig "abc" "tok"), w1)) ∧
  getGistConfig closed = (Normal no_config, closed).
Proof.
  destruct (config_round_trip only_W1 (mkDatabase {[ "W1" := W1 ]} ∅ ∅) "abc" "tok" eq_refl)
    as [(w1 & Hset & Hget & _) Hany].
  split.
  - exists w1. split; [exact Hset | exact Hget].
  - destruct (Hany closed) as (cfg & Hcfg & Hnone).
    rewrite (Hnone eq_refl) in Hcfg. exact Hcfg.
Defined.

(** X5. The push of the evidence module never throws, never changes the
    stores or the index, and sends at most one request, a [PATCH], without
    any retry; it resolves to [true] only when that one request was
    answered with a status in 200-299, and to the skipped result exactly
    when the stored configuration is incomplete. *)
Theorem sync_sends_at_most_once (w : World) :
  ∃ r w' cfg,
    syncToGist w = (Normal r, w') ∧
    getGistConfig w = (Normal cfg, w) ∧
    db w' = db w ∧ localIndex w' = localIndex w ∧
    (sent w' = sent w ∨ ∃ req, sent w' = sent w ++ [req] ∧ method req = "PATCH") ∧
    (r = Some true →
     ∃ req status,
       sent w' = sent w ++ [req] ∧
       server w (length (sent w)) req = Responded status ∧
       status_ok status = true) ∧
    (r = None ↔ falsy (cfg_id cfg) || falsy (cfg_token cfg) = true).
Proof.
  destruct (getGistConfig_total w) as (cfg & Hcfg).
  unfold syncToGist. unfold bind at 1. rewrite Hcfg.
  destruct (falsy (cfg_id cfg) || falsy (cfg_token cfg)) eqn:Hc.
  - eexists _, _, cfg. split; [reflexivity |]. split; [done |].
    split; [done |]. split; [done |]. split; [by left |]. split; [done |]. done.
  - destruct w as [[d |] ix ck u sn sv].
    + unfold try_catch, bind, showToast, modify, idbGetAll, Date_now, gets, fetch.
      cbn [db add_ui server sent clock localIndex ui add_sent].
      destruct (sv _ _) as [| status] eqn:Hsv.
      * eexists _, _, cfg. split; [reflexivity |]. split; [done |].
        split; [done |]. split; [done |].
        split; [right; eexists; by split |]. split; [done |]. split; [done | congruence].
      * destruct (status_ok status) eqn:Hok.
        -- eexists _, _, cfg. split; [reflexivity |]. split; [done |].
           split; [done |]. split; [done |].
           split; [right; eexists; by split |].
           split; [| split; [done | congruence]].
           intros _. eexists _, status. split; [reflexivity |]. by split.
        -- eexists _, _, cfg. split; [reflexivity |]. split; [done |].
           split; [done |]. split; [done |].
           split; [right; eexists; by split |]. split; [done |]. split; [done | congruence].
    + eexists _, _, cfg. split; [reflexivity |]. split; [done |].
      split; [done |]. split; [done |]. split; [by left |]. split; [done |]. split; [done | congruence].
Qed.

(** X6. The listener of the file input turns an input down before it
    reads the image when no file was chosen, when the date is empty, or
    when no worker is selected in the module or on the window: it then
    shows one error toast and does nothing else (no record, no index
    entry, no preview, no request, the page variables as before). *)
Theorem listener_turns_down_without_writing
    (file : option (ImageFile * Recognition)) (dateEl : option string)
    (today : string) (p : Page) :
  turned_down file dateEl today p →
  ∃ msg,
    onFileChange file dateEl today p
      = (Normal tt, set_world (add_ui (Toast msg true) (world p)) p).
Proof.
  intros Hdown. unfold onFileChange.
  destruct file as [[image recognition] |]; [| eexists; reflexivity].
  destruct (falsy (default today dateEl)) eqn:Hdate; [eexists; reflexivity |].
  destruct Hdown as [Hfile | [Hd | [Ha Hwa]]]; [done | congruence |].
  unfold bind at 1, modify. rewrite Ha, Hwa. cbn [negb andb].
  unfold bind at 1, gets. rewrite Ha. cbn [negb].
  eexists; reflexivity.
Qed.

Lemma listener_turns_down_without_writing_witness :
  (∃ msg,
     onFileChange None (Some "2024-01-10") "2024-01-11" (selected only_W1)
       = (Normal tt, set_world (add_ui (Toast msg true) only_W1) (selected only_W1))) ∧
  (∃ msg,
     onFileChange (Some (Decodable "img", NoTesseract)) (Some "") "2024-01-11"
                  (selected only_W1)
       = (Normal tt, set_world (add_ui (Toast msg true) only_W1) (selected only_W1))) ∧
  (∃ msg,
     onFileChange (Some (Decodable "img", NoTesseract)) None "2024-01-11"
                  (unselected only_W1)
       = (Normal tt, set_world (add_ui (Toast msg true) only_W1) (unselected only_W1))).
Proof.
  split; [| split].
  - apply (listener_turns_down_without_writing None (Some "2024-01-10") "2024-01-11"
             (selected only_W1)).
    by left.
  - apply (listener_turns_down_without_writing (Some (Decodable "img", NoTesseract))
             (Some "") "2024-01-11" (selected only_W1)).
    right. by left.
  - apply (listener_turns_down_without_writing (Some (Decodable "img", NoTesseract))
             None "2024-01-11" (unselected only_W1)).
    right. right. by split.
Defined.

Lemma sync_frame (w : World) :
  db (syncToGist w).2 = db w ∧ localIndex (syncToGist w).2 = localIndex w.
Proof.
  assert (H : ∃ c w', syncToGist w = (c, w') ∧
                      db w' = db w ∧ localIndex w' = localIndex w).
  { destruct (getGistConfig_total w) as (cfg & Hcfg).
    unfold syncToGist. unfold bind at 1. rewrite Hcfg.
    destruct (falsy (cfg_id cfg) || falsy (cfg_token cfg));
      [eexists _, _; split; [reflexivity | by split] |].
    destruct w as [[d |] ix ck u sn sv];
      [| eexists _, _; split; [reflexivity | by split]].
    unfold try_catch, bind, showToast, modify, idbGetAll, Date_now, gets, fetch.
    cbn [db add_ui server sent clock localIndex ui add_sent].
    destruct (sv _ _) as [| status];
      [eexists _, _; split; [reflexivity | by split] |].
    destruct (status_ok status); eexists _, _; (split; [reflexivity | by split]). }
  destruct H as (c & w' & -> & Hdb & Hix). by split.
Qed.

(** X7. When the image cannot be decoded, or when the database is not
    open, the listener stores nothing: no record, no index entry and no
    request; it ends with the toast that the image could not be
    processed. *)
Theorem listener_failure_stores_nothing
    (image : ImageFile) (recognition : Recognition) (dateEl : option string)
    (today : string) (p : Page) :
  falsy (default today dateEl) = false →
  truthy (effective_user p) = true →
  image = Undecodable ∨ db (world p) = None →
  ∃ p',
    onFileChange (Some (image, recognition)) dateEl today p = (Normal tt, p') ∧
    stored (world p') = stored (world p) ∧
    last (ui (world p')) = Some (Toast "Error procesando la imagen." true).
Proof.
  intros Hdate Huser Hfail. unfold onFileChange. rewrite Hdate.
  unfold bind at 1, modify. unfold bind at 1, gets.
  destruct p as [w t a wa]. unfold effective_user in Huser.
  cbn [activeUserId window_activeUserId] in *.
  assert (Hgo : negb (truthy (activeUserId
             (if negb (truthy a) && truthy wa
              then set_activeUserId wa (mkPage w t a wa) else mkPage w t a wa))) = false).
  { destruct (negb (truthy a) && truthy wa); cbn [activeUserId set_activeUserId];
      by rewrite Huser. }
  rewrite Hgo. clear Hgo.
  set (p1 := if negb (truthy a) && truthy wa
             then set_activeUserId wa (mkPage w t a wa) else mkPage w t a wa).
  assert (Hw1 : world p1 = w) by (subst p1; by destruct (negb (truthy a) && truthy wa)).
  unfold try_catch, bind at 1, lift at 1. rewrite Hw1.
  destruct Hfail as [-> | Hdb].
  - cbn [fileToDataURL throw]. unfold lift, showToast, modify.
    eexists. split; [reflexivity |]. cbn [world set_world]. split; [done |].
    simpl. by rewrite last_snoc.
  - cbn [world] in Hdb.
    destruct image as [dataUrl |].
    + cbn [fileToDataURL ret].
      unfold bind at 1, gets. unfold bind at 1, lift at 1, updatePreviewUI, modify.
      cbn [world set_world].
      unfold bind at 1, lift at 1. cbn [world set_world].
      destruct w as [dbw ix ck u sn sv]. cbn [db] in Hdb. subst dbw.
      destruct recognition; cbn; eexists; (split; [reflexivity |]);
        cbn [world set_world stored db localIndex sent ui add_ui];
        (split; [reflexivity |]); by rewrite last_snoc.
    + cbn [fileToDataURL throw]. unfold lift, showToast, modify.
      eexists. split; [reflexivity |]. cbn [world set_world]. split; [done |].
      simpl. by rewrite last_snoc.
Qed.

Lemma listener_failure_stores_nothing_witness :
  (∃ p',
     onFileChange (Some (Undecodable, NoTesseract)) (Some "2024-01-10") "2024-01-11"
                  (selected only_W1) = (Normal tt, p') ∧
     stored (world p') = stored only_W1 ∧
     last (ui (world p')) = Some (Toast "Error procesando la imagen." true)) ∧
  (∃ p',
     onFileChange (Some (Decodable "img", Recognised "12.50")) None "2024-01-11"
                  (selected closed) = (Normal tt, p') ∧
     stored (world p') = stored closed ∧
     last (ui (world p')) = Some (Toast "Error procesando la imagen." true)).
Proof.
  split.
  - apply (listener_failure_stores_nothing Undecodable NoTesseract (Some "2024-01-10")
             "2024-01-11" (selected only_W1)); [reflexivity | reflexivity | by left].
  - apply (listener_failure_stores_nothing (Decodable "img") (Recognised "12.50") None
             "2024-01-11" (selected closed)); [reflexivity | reflexivity | by right].
Defined.

(** X8. For an accepted input with an image that decodes and the database
    open, the listener writes the image into the slot of the pressed button
    (check-in when none was pressed) of the record of the effective worker
    and the chosen day, adds one index entry, and leaves the workers as
    they are; the push that it starts afterwards, whatever its outcome,
    leaves that record in place. *)
Theorem listener_saves_then_syncs
    (dataUrl : string) (recognition : Recognition) (dateEl : option string)
    (today : string) (p : Page) (d : Database) :
  falsy (default today dateEl) = false →
  truthy (effective_user p) = true →
  db (world p) = Some d →
  keyed STORES_EVIDENCES d →
  ∃ p' d' r,
    onFileChange (Some (Decodable dataUrl, recognition)) dateEl today p = (Normal tt, p') ∧
    db (world p') = Some d' ∧
    evidences d' !! evidence_id (or_else (effective_user p) "") (default today dateEl)
      = Some r ∧
    slot (or_else (tipoActual p) "entrada") r = Some dataUrl ∧
    users d' = users d ∧
    length (getLocalIndex (world p')) = S (length (getLocalIndex (world p))).
Proof.
  intros Hdate Huser Hdb Hk. unfold onFileChange. rewrite Hdate.
  unfold bind at 1, modify. unfold bind at 1, gets.
  destruct p as [w t a wa]. unfold effective_user in *.
  cbn [activeUserId window_activeUserId tipoActual world] in *.
  assert (Hgo : negb (truthy (activeUserId
             (if negb (truthy a) && truthy wa
              then set_activeUserId wa (mkPage w t a wa) else mkPage w t a wa))) = false).
  { destruct (negb (truthy a) && truthy wa); cbn [activeUserId set_activeUserId];
      by rewrite Huser. }
  rewrite Hgo. clear Hgo.
  set (user := if negb (truthy a) && truthy wa then wa else a) in *.
  set (p1 := if negb (truthy a) && truthy wa
             then set_activeUserId wa (mkPage w t a wa) else mkPage w t a wa).
  assert (Hp1 : p1 = mkPage w t user wa).
  { subst p1 user. by destruct (negb (truthy a) && truthy wa). }
  rewrite Hp1. clear p1 Hp1. cbn [activeUserId].
  unfold try_catch, bind at 1, lift at 1. cbn [world fileToDataURL ret set_world tipoActual activeUserId window_activeUserId].
  unfold bind at 1, gets. cbn [world set_world tipoActual activeUserId window_activeUserId].
  unfold bind at 1, lift at 1, updatePreviewUI, modify. cbn [world set_world tipoActual activeUserId window_activeUserId].
  set (w1 := add_ui _ w).
  assert (Hdb1 : db w1 = Some d) by (subst w1; by destruct w).
  unfold bind at 1, lift at 1. cbn [world set_world tipoActual activeUserId window_activeUserId].
  assert (Hocr : ∃ ocrText w2,
            doOCRFromDataUrl recognition w1 = (Normal ocrText, w2) ∧
            db w2 = Some d ∧ localIndex w2 = localIndex w).
  { destruct recognition; eexists _, _; (split; [reflexivity |]);
      subst w1; by destruct w. }
  destruct Hocr as (ocrText & w2 & -> & Hdb2 & Hix2). cbn [world set_world tipoActual activeUserId window_activeUserId].
  unfold bind at 1, lift at 1. cbn [world set_world tipoActual activeUserId window_activeUserId].
  destruct (EvidenceFacts.save_spec w2 d (or_else user "") (default today dateEl)
              (or_else t "entrada") dataUrl (if truthy ocrText then ocrText else None)
              Hdb2 Hk)
    as (r & w3 & -> & Hdb3 & _ & Hslot & _ & Hix3 & _).
  cbn [world set_world tipoActual activeUserId window_activeUserId]. unfold lift. cbn [world set_world tipoActual activeUserId window_activeUserId].
  unfold bind at 1, later, modify. unfold detached.
  set (w4 := mkWorld _ _ _ _ _ _).
  destruct (sync_frame w4) as [Hdb5 Hix5].
  eexists _, _, r. split; [reflexivity |]. cbn [world set_world tipoActual activeUserId window_activeUserId snd].
  rewrite Hdb5. subst w4. cbn [db]. split; [exact Hdb3 |]. cbn [evidences users].
  split; [apply lookup_insert_eq |]. split; [exact Hslot |]. split; [done |].
  unfold getLocalIndex at 1. rewrite Hix5. cbn [localIndex]. rewrite Hix3.
  change (default [] (Some ?l)) with l. rewrite length_app. simpl.
  unfold getLocalIndex. rewrite Hix2. lia.
Qed.

Lemma listener_saves_then_syncs_witness :
  ∃ p' d' r,
    onFileChange (Some (Decodable "img-in", Recognised "12.50")) (Some "2024-01-10")
                 "2024-01-11" (selected with_config) = (Normal tt, p') ∧
    db (world p') = Some d' ∧
    evidences d' !! "W1_2024-01-10" = Some r ∧
    entrada r = Some "img-in" ∧
    users d' = {[ "W1" := W1 ]} ∧
    length (getLocalIndex (world p')) = 1%nat.
Proof.
  destruct (listener_saves_then_syncs "img-in" (Recognised "12.50") (Some "2024-01-10")
              "2024-01-11" (selected with_config) synced_db)
    as (p' & d' & r & Hrun & Hdb & Hr & Hslot & Hu & Hix).
  - reflexivity.
  - reflexivity.
  - reflexivity.
  - intros k v Hkv. simpl in Hkv.
    apply lookup_singleton_Some in Hkv as [<- <-]. reflexivity.
  - exists p', d', r. split; [exact Hrun |]. split; [exact Hdb |].
    split; [exact Hr |]. split; [exact Hslot |]. split; [exact Hu | exact Hix].
Defined.

End EvidenceExtras.

(** ** More facts about the application script *)

Module AppExtras.
Import App.
Import AppFacts.

(** *** The retry loop, whatever the remote end does *)

Lemma schedule_attempts (req : Request) (k i : nat) :
  length (filter is_fetch (retry_schedule req k i)) = k.
Proof.
  revert i. induction k as [| k IH]; intros i; [done |].
  cbn [retry_schedule]. rewrite filter_cons_True by exact I.
  rewrite filter_cons_False by (simpl; intros []).
  simpl. by rewrite IH.
Qed.

Lemma schedule_waits (req : Request) (k i : nat) :
  omap (λ e, match e with Wait ms => Some ms | Fetch _ => None end)
       (retry_schedule req k i) = backoff_waits k i.
Proof.
  revert i. induction k as [| k IH]; intros i; [done |].
  simpl. by rewrite IH.
Qed.

Lemma clock_replay_schedule (req : Request) (k i : nat) (w : World) :
  clock (replay (retry_schedule req k i) w)
  = clock w + (2 ^ Z.of_nat (i + k) - 2 ^ Z.of_nat i) * 1000.
Proof.
  revert i w. induction k as [| k IH]; intros i w.
  - simpl. rewrite Nat.add_0_r. lia.
  - simpl. rewrite IH. simpl.
    replace (Z.of_nat (i + S k)) with (Z.succ (Z.of_nat i + Z.of_nat k)) by lia.
    rewrite ?Nat2Z.inj_succ, ?Nat2Z.inj_add.
    rewrite ?Z.pow_succ_r, ?Z.pow_add_r by lia. ring.
Qed.

(** How one iteration ends: the attempt is recorded; a response that is
    handed back is an ok one; something is thrown on the last index only. *)
Lemma iteration_cases (req : Request) (retries i : nat) (w : World) :
  ∃ c,
    try_catch (try_block req) (catch_block i retries) w = (c, add_trace (Fetch req) w) ∧
    match c with
    | Normal (Return r) => status_ok (status r) = true
    | Normal FallThrough => True
    | Thrown _ => i = (retries - 1)%nat
    | Pending => False
    end.
Proof.
  unfold try_catch, try_block, bind, fetch, catch_block.
  destruct (server w (attempts w) req) as [| r]; simpl.
  - destruct (Nat.eqb_spec i (retries - 1)); by eexists.
  - destruct (status_ok (status r)) eqn:Hok; [by eexists |].
    destruct (status r =? 404); [| by eexists].
    destruct (Nat.eqb_spec i (retries - 1)); by eexists.
Qed.

Lemma loop_shape (req : Request) (retries : nat) :
  ∀ n i w, ∃ k tail c,
    backoff_loop req retries n i w
      = (c, replay (retry_schedule req k i ++ tail) w) ∧
    (k + length tail ≤ n)%nat ∧
    match c with
    | Normal (Some r) => tail = [Fetch req] ∧ status_ok (status r) = true
    | Normal None => tail = [] ∧ k = n
    | Thrown _ => tail = [Fetch req] ∧ (i + k = retries - 1)%nat
    | Pending => False
    end.
Proof.
  induction n as [| n IH]; intros i w.
  - exists O, [], (Normal None). by split.
  - simpl. unfold bind at 1.
    destruct (iteration_cases req retries i w) as (c & -> & Hc).
    destruct c as [[r |] | e |]; [| | | done].
    + exists O, [Fetch req], (Normal (Some r)). split; [done |]. split; [simpl; lia | done].
    + unfold bind, sleep, modify.
      destruct (IH (S i) (advance (2 ^ Z.of_nat i * 1000)
                            (add_trace (Wait (2 ^ Z.of_nat i * 1000))
                               (add_trace (Fetch req) w))))
        as (k & tail & c & -> & Hlen & Hres).
      exists (S k), tail, c. split; [done |]. split; [lia |].
      destruct c as [[r |] | e |]; [done | | | done].
      * destruct Hres as [-> ->]. done.
      * destruct Hres as [-> Hk]. split; [done | lia].
    + exists O, [Fetch req], (Thrown e). split; [done |]. split; [simpl; lia |].
      split; [done | lia].
Qed.

(** X9. Whatever the remote end answers and whatever the bound, the retry
    loop settles after at most [retries] attempts, all with the request it
    was given; it waits 2^j seconds after the j-th failed attempt, so that the
    waits add up to at most 2^retries - 1 seconds; a response that it
    hands back has a status in 200-299; it returns nothing only after
    [retries] failed attempts, and it throws only on its last attempt. *)
Theorem backoff_is_bounded (req : Request) (retries : nat) (w : World) :
  ∃ k tail c w',
    fetchWithBackoff req retries w = (c, w') ∧
    trace w' = trace w ++ retry_schedule req k 0 ++ tail ∧
    (tail = [] ∨ tail = [Fetch req]) ∧
    attempts w' = (attempts w + k + length tail)%nat ∧
    (attempts w' ≤ attempts w + retries)%nat ∧
    delays w' = delays w ++ backoff_waits k 0 ∧
    clock w' = clock w + (2 ^ Z.of_nat k - 1) * 1000 ∧
    clock w' ≤ clock w + (2 ^ Z.of_nat retries - 1) * 1000 ∧
    db w' = db w ∧
    match c with
    | Normal (Some r) => status_ok (status r) = true
    | Normal None => k = retries
    | Thrown _ => (k = retries - 1)%nat
    | Pending => False
    end.
Proof.
  destruct (loop_shape req retries retries 0 w) as (k & tail & c & Hrun & Hlen & Hres).
  exists k, tail, c, (replay (retry_schedule req k 0 ++ tail) w).
  assert (Htail : tail = [] ∨ tail = [Fetch req]).
  { destruct c as [[r |] | e |]; [| | | done]; destruct Hres as [-> _]; auto. }
  assert (Hclock : clock (replay (retry_schedule req k 0 ++ tail) w)
                   = clock w + (2 ^ Z.of_nat k - 1) * 1000).
  { rewrite AppFacts.replay_app.
    assert (Ht : clock (replay tail (replay (retry_schedule req k 0) w))
                 = clock (replay (retry_schedule req k 0) w))
      by (destruct Htail as [-> | ->]; done).
    rewrite Ht, clock_replay_schedule. simpl. lia. }
  split; [exact Hrun |].
  split; [apply AppFacts.trace_replay |]. split; [exact Htail |].
  assert (Hatt : attempts (replay (retry_schedule req k 0 ++ tail) w)
                 = (attempts w + k + length tail)%nat).
  { rewrite AppFacts.attempts_replay, filter_app, length_app, schedule_attempts.
    destruct Htail as [-> | ->]; simpl; lia. }
  split; [exact Hatt |]. split; [lia |].
  split.
  { rewrite AppFacts.delays_replay, omap_app, schedule_waits.
    destruct Htail as [-> | ->]; simpl; by rewrite app_nil_r. }
  split; [exact Hclock |].
  split.
  { rewrite Hclock.
    assert (2 ^ Z.of_nat k ≤ 2 ^ Z.of_nat retries) by (apply Z.pow_le_mono_r; lia).
    lia. }
  split; [apply AppFacts.db_replay |].
  destruct c as [[r |] | e |]; [by destruct Hres | by destruct Hres | | done].
  destruct Hres as [_ Hk]. lia.
Qed.

Lemma iteration_ok (req : Request) (retries i : nat) (w : World) (r : Response) :
  server w (attempts w) req = Responded r →
  status_ok (status r) = true →
  try_catch (try_block req) (catch_block i retries) w
    = (Normal (Return r), add_trace (Fetch req) w).
Proof.
  intros Hr Hok. unfold try_catch, try_block, bind, fetch. by rewrite Hr, Hok.
Qed.

Lemma iteration_retry (req : Request) (retries i : nat) (w : World) (r : Response) :
  server w (attempts w) req = Responded r →
  transient (status r) →
  try_catch (try_block req) (catch_block i retries) w
    = (Normal FallThrough, add_trace (Fetch req) w).
Proof.
  intros Hr [Hok Hne]. unfold try_catch, try_block, bind, fetch. rewrite Hr, Hok.
  by rewrite (proj2 (Z.eqb_neq _ _) Hne).
Qed.

Lemma attempts_after_iteration (req : Request) (ms : Z) (w : World) :
  attempts (advance ms (add_trace (Wait ms) (add_trace (Fetch req) w))) = S (attempts w).
Proof.
  unfold attempts. simpl. rewrite !filter_app, !length_app. simpl. lia.
Qed.

Lemma loop_recovers (req : Request) (retries : nat) (r : Response) :
  ∀ j n i w,
    (j < n)%nat →
    (∀ t, (t < j)%nat →
       ∃ r', server w (attempts w + t)%nat req = Responded r' ∧ transient (status r')) →
    server w (attempts w + j)%nat req = Responded r →
    status_ok (status r) = true →
    backoff_loop req retries n i w
      = (Normal (Some r), replay (retry_schedule req j i ++ [Fetch req]) w).
Proof.
  induction j as [| j IH]; intros n i w Hn Hbad Hgood Hok.
  - destruct n as [| n]; [lia |]. simpl. unfold bind at 1.
    rewrite Nat.add_0_r in Hgood. by rewrite (iteration_ok _ _ _ _ r).
  - destruct n as [| n]; [lia |].
    destruct (Hbad O ltac:(lia)) as (r0 & Hr0 & Ht0). rewrite Nat.add_0_r in Hr0.
    change (backoff_loop req retries (S n) i w)
      with (bind (try_catch (try_block req) (catch_block i retries))
                 (λ a, match a with
                       | Return response => ret (Some response)
                       | FallThrough =>
                           bind (sleep (2 ^ Z.of_nat i * 1000))
                                (λ _, backoff_loop req retries n (S i))
                       end) w).
    unfold bind at 1. rewrite (iteration_retry _ _ _ _ r0 Hr0 Ht0).
    unfold bind, sleep, modify.
    rewrite (IH n (S i)); [done | lia | | | done].
    + intros t Ht. rewrite attempts_after_iteration.
      destruct (Hbad (S t) ltac:(lia)) as (r' & Hr' & Ht').
      exists r'. split; [| done].
      change (server (advance ?a (add_trace ?b (add_trace ?c ?x)))) with (server x).
      replace (S (attempts w) + t)%nat with (attempts w + S t)%nat by lia. exact Hr'.
    + rewrite attempts_after_iteration.
      change (server (advance ?a (add_trace ?b (add_trace ?c ?x)))) with (server x).
      replace (S (attempts w) + j)%nat with (attempts w + S j)%nat by lia. exact Hgood.
Qed.

(** X10. When the first [j] attempts are answered with failure statuses
    other than 404 and the next one with a status in 200-299, and [j] is
    below the bound, the retry loop hands that response back after
    [j + 1] attempts, having waited 1, 2, ..., 2^(j-1) seconds in
    between. *)
Theorem backoff_recovers (req : Request) (retries j : nat) (w : World) (r : Response) :
  (j < retries)%nat →
  (∀ t, (t < j)%nat →
     ∃ r', server w (attempts w + t)%nat req = Responded r' ∧ transient (status r')) →
  server w (attempts w + j)%nat req = Responded r →
  status_ok (status r) = true →
  ∃ w',
    fetchWithBackoff req retries w = (Normal (Some r), w') ∧
    attempts w' = (attempts w + j + 1)%nat ∧
    delays w' = delays w ++ backoff_waits j 0 ∧
    clock w' = clock w + (2 ^ Z.of_nat j - 1) * 1000.
Proof.
  intros Hj Hbad Hgood Hok. eexists. split.
  - unfold fetchWithBackoff. by apply loop_recovers.
  - rewrite AppFacts.attempts_replay, AppFacts.delays_replay, AppFacts.replay_app.
    rewrite filter_app, length_app, omap_app, schedule_attempts, schedule_waits.
    split; [simpl; lia |]. split; [simpl; by rewrite app_nil_r |].
    change (clock (replay [Fetch req] ?x)) with (clock x).
    rewrite clock_replay_schedule. simpl. lia.
Qed.

Lemma backoff_recovers_witness :
  ∃ w',
    fetchWithBackoff (pull_request "abc" "tok") DEFAULT_RETRIES (fresh (flaky 2 None))
      = (Normal (Some (mkResponse 200 None)), w') ∧
    attempts w' = 3%nat ∧
    delays w' = [1000; 2000] ∧
    clock w' = 3000.
Proof.
  destruct (backoff_recovers (pull_request "abc" "tok") DEFAULT_RETRIES 2
              (fresh (flaky 2 None)) (mkResponse 200 None))
    as (w' & Hrun & Hatt & Hdel & Hclock).
  - unfold DEFAULT_RETRIES. lia.
  - intros t Ht. exists (mkResponse 503 None).
    destruct t as [| [| t]]; [| | lia]; (split; [reflexivity |]);
      (split; [reflexivity | discriminate]).
  - reflexivity.
  - reflexivity.
  - exists w'. split; [exact Hrun |]. split; [exact Hatt |]. split; [exact Hdel | exact Hclock].
Defined.

Lemma rejects_replay (evs : list NetEvent) (w : World) :
  rejects w → rejects (replay evs w).
Proof. intros H n req. rewrite AppFacts.server_replay. apply H. Qed.

Lemma iteration_rejected (req : Request) (retries i : nat) (w : World) :
  rejects w →
  try_catch (try_block req) (catch_block i retries) w =
    if (i =? retries - 1)%nat
    then (Thrown NetworkFailure, add_trace (Fetch req) w)
    else (Normal FallThrough, add_trace (Fetch req) w).
Proof.
  intros H. unfold try_catch, try_block, bind, fetch, catch_block. rewrite H.
  by destruct (i =? retries - 1)%nat.
Qed.

Lemma loop_rejected (req : Request) (retries : nat) :
  ∀ n i w,
    rejects w →
    (i + S n = retries)%nat →
    backoff_loop req retries (S n) i w =
      (Thrown NetworkFailure, replay (retry_schedule req n i ++ [Fetch req]) w).
Proof.
  induction n as [| n IH]; intros i w Hw Hi.
  - simpl. unfold bind. rewrite iteration_rejected by done.
    by rewrite (proj2 (Nat.eqb_eq _ _)) by lia.
  - change (backoff_loop req retries (S (S n)) i w)
      with (bind (try_catch (try_block req) (catch_block i retries))
                 (λ r, match r with
                       | Return response => ret (Some response)
                       | FallThrough =>
                           bind (sleep (2 ^ Z.of_nat i * 1000))
                                (λ _, backoff_loop req retries (S n) (S i))
                       end) w).
    unfold bind at 1. rewrite iteration_rejected by done.
    rewrite (proj2 (Nat.eqb_neq _ _)) by lia.
    unfold bind, sleep, modify.
    rewrite (IH (S i)); [done | | lia].
    apply (rejects_replay [Fetch req; Wait (2 ^ Z.of_nat i * 1000)] w Hw).
Qed.

(** X11. When the remote end cannot be reached, the retry loop, for any
    bound of at least one attempt, makes exactly [retries] attempts, waits
    after all but the last of them (1, 2, ... seconds), and then throws
    the network error of the last attempt. *)
Theorem backoff_gives_up_when_unreachable (req : Request) (retries : nat) (w : World) :
  rejects w →
  (0 < retries)%nat →
  ∃ w',
    fetchWithBackoff req retries w = (Thrown NetworkFailure, w') ∧
    attempts w' = (attempts w + retries)%nat ∧
    delays w' = delays w ++ backoff_waits (retries - 1) 0 ∧
    clock w' = clock w + (2 ^ Z.of_nat (retries - 1) - 1) * 1000.
Proof.
  intros Hw Hpos. destruct retries as [| n]; [lia |]. eexists. split.
  - unfold fetchWithBackoff. by apply loop_rejected.
  - replace (S n - 1)%nat with n by lia.
    rewrite AppFacts.attempts_replay, AppFacts.delays_replay, AppFacts.replay_app.
    rewrite filter_app, length_app, omap_app, schedule_attempts, schedule_waits.
    split; [simpl; lia |]. split; [simpl; by rewrite app_nil_r |].
    change (clock (replay [Fetch req] ?x)) with (clock x).
    rewrite clock_replay_schedule. simpl. lia.
Qed.

Lemma backoff_gives_up_when_unreachable_witness :
  ∃ w',
    fetchWithBackoff (pull_request "abc" "tok") 3 (fresh unreachable)
      = (Thrown NetworkFailure, w') ∧
    attempts w' = 3%nat ∧
    delays w' = [1000; 2000] ∧
    clock w' = 3000.
Proof.
  destruct (backoff_gives_up_when_unreachable (pull_request "abc" "tok") 3
              (fresh unreachable))
    as (w' & Hrun & Hatt & Hdel & Hclock).
  - intros n req. reflexivity.
  - lia.
  - exists w'. split; [exact Hrun |]. split; [exact Hatt |]. split; [exact Hdel | exact Hclock].
Defined.

(** *** Pull and push *)

(** X12. When the first answer to a pull has a status in 200-299 and a
    body with the files of the Gist, the pull makes that one request, a
    [GET] with the credential, and waits for nothing: it returns the
    parsed content of the data file, throws the file-missing error when
    the Gist has no such file, and a syntax error when the content does
    not parse. *)
Theorem pull_reads_the_data_file (w : World) gistId token (r : Response)
    (files : list (string * option RemoteData)) :
  configured gistId token →
  server w (attempts w) (pull_request gistId token) = Responded r →
  status_ok (status r) = true →
  gist r = Some files →
  loadDataFromGist gistId token w =
    (match file_content files DATA_FILE with
     | Some (Some content) => Normal content
     | Some None => Thrown (SyntaxError "JSON.parse")
     | None => Thrown FILE_MISSING
     end,
     add_trace (Fetch (pull_request gistId token)) w).
Proof.
  intros [Hg Ht] Hr Hok Hfiles. unfold loadDataFromGist. rewrite Hg, Ht. cbn [orb].
  fold (pull_request gistId token). unfold bind, fetchWithBackoff, DEFAULT_RETRIES.
  rewrite (loop_recovers (pull_request gistId token) 5 r 0 5 0 w);
    [| lia | intros t Ht0; lia | by rewrite Nat.add_0_r | done].
  simpl replay. rewrite Hfiles.
  by destruct (file_content files DATA_FILE) as [[c |] |].
Qed.

Lemma pull_reads_the_data_file_witness :
  loadDataFromGist "abc" "tok"
    (fresh (flaky 0 (Some [(DATA_FILE, Some (Document (Some INITIAL_USERS) (Some [])))])))
  = (Normal (Document (Some INITIAL_USERS) (Some [])),
     add_trace (Fetch (pull_request "abc" "tok"))
       (fresh (flaky 0 (Some [(DATA_FILE, Some (Document (Some INITIAL_USERS) (Some [])))])))) ∧
  loadDataFromGist "abc" "tok" (fresh (flaky 0 (Some [("other.json", None)])))
  = (Thrown FILE_MISSING,
     add_trace (Fetch (pull_request "abc" "tok"))
       (fresh (flaky 0 (Some [("other.json", None)])))).
Proof.
  split.
  - apply (pull_reads_the_data_file
             (fresh (flaky 0 (Some [(DATA_FILE, Some (Document (Some INITIAL_USERS) (Some [])))])))
             "abc" "tok"
             (mkResponse 200 (Some [(DATA_FILE, Some (Document (Some INITIAL_USERS) (Some [])))]))
             [(DATA_FILE, Some (Document (Some INITIAL_USERS) (Some [])))]);
      [split; reflexivity | reflexivity | reflexivity | reflexivity].
  - apply (pull_reads_the_data_file
             (fresh (flaky 0 (Some [("other.json", None)])))
             "abc" "tok"
             (mkResponse 200 (Some [("other.json", None)]))
             [("other.json", None)]);
      [split; reflexivity | reflexivity | reflexivity | reflexivity].
Defined.

Lemma local_replay (evs : list NetEvent) (w : World) :
  local_state (replay evs w) = local_state w.
Proof.
  revert w. induction evs as [| e evs IH]; intros w; simpl; [done |].
  rewrite IH. by destruct e.
Qed.

(** X13. Neither a pull nor a push changes the local data, whatever the
    configuration, the state of the database and the answers of the remote
    end: the stores, the selected worker and what the page has shown are
    as before; a pull does not touch the sync status either. *)
Theorem sync_keeps_local_data (w : World) gistId token :
  local_state (loadDataFromGist gistId token w).2 = local_state w ∧
  syncStatus (loadDataFromGist gistId token w).2 = syncStatus w ∧
  local_state (saveDataToGist gistId token w).2 = local_state w.
Proof.
  split; [| split].
  - destruct (AppFacts.pull_activity w gistId token) as (evs & ->). apply local_replay.
  - destruct (AppFacts.pull_activity w gistId token) as (evs & ->).
    clear. revert w. induction evs as [| e evs IH]; intros w; simpl; [done |].
    rewrite IH. by destruct e.
  - unfold saveDataToGist. destruct (falsy gistId || falsy token); [done |].
    unfold bind at 1, getAll at 1. destruct (db w) as [d |] eqn:Hdb; [| done].
    unfold bind at 1, getAll at 1. rewrite Hdb.
    unfold bind at 1, Date_now at 1, gets. cbv beta iota.
    set (req := push_request _ _ _).
    destruct (AppFacts.fetchWithBackoff_activity req w) as (evs & Hevs & _).
    unfold try_catch, bind at 1.
    destruct (fetchWithBackoff req DEFAULT_RETRIES w) as [[r | e |] w1];
      simpl in Hevs; subst w1.
    + change (local_state (status_synced ?x).2) with (local_state x).
      exact (local_replay (Fetch req :: evs) w).
    + change (local_state (status_failed ?x).2) with (local_state x).
      exact (local_replay (Fetch req :: evs) w).
    + exact (local_replay (Fetch req :: evs) w).
Qed.

(** *** Registering an attendance, again *)

(** X14. With no worker selected, and also with the worker whose [id] is 0
    selected, submitting the attendance form does nothing at all: no
    evidence is written, no counter changes, nothing is shown. *)
Theorem submit_needs_a_selection (w : World)
    dateValue amountValue notesValue imageBase64 :
  currentUserId w = None ∨ currentUserId w = Some 0 →
  handleAttendanceSubmit dateValue amountValue notesValue imageBase64 w = (Normal tt, w).
Proof.
  intros Hcur. unfold handleAttendanceSubmit, bind at 1, gets.
  by destruct Hcur as [-> | ->].
Qed.

Lemma submit_needs_a_selection_witness :
  handleAttendanceSubmit "2024-01-10" 12.5%float "" None (zero_selected (always 200))
    = (Normal tt, zero_selected (always 200)) ∧
  store_lookup 0 (numbered 0 INITIAL_USERS)
    = Some (mkWorker (Some 0) "Ana López" "12345678A" (Some 5) None).
Proof.
  split; [| reflexivity].
  apply (submit_needs_a_selection (zero_selected (always 200))). by right.
Defined.

(** X15. When the selected worker is not in the workers' store, submitting
    the form still writes the evidence record, under the next number of the
    generator, and leaves every worker as it is: the event is attributed to
    a worker that no counter tracks. *)
Theorem submit_for_unknown_worker (w : World) (d : Database) (k : Z)
    dateValue amountValue notesValue imageBase64 :
  db w = Some d →
  currentUserId w = Some k →
  k ≠ 0 →
  db_wf d →
  store_lookup k (records (users d)) = None →
  ∃ w' d',
    handleAttendanceSubmit dateValue amountValue notesValue imageBase64 w = (Normal tt, w') ∧
    db w' = Some d' ∧
    users d' = users d ∧
    records (evidences d') =
      records (evidences d) ++
      [(generator (evidences d),
        mkEvidence (Some (generator (evidences d))) k dateValue amountValue notesValue
                   imageBase64 (clock w))] ∧
    generator (evidences d') = generator (evidences d) + 1.
Proof.
  intros Hdb Hcur Hk [Hwu Hwe] Hnone.
  assert (Hfind : find (is_user k) (store_getAll (users d)) = None).
  { unfold store_getAll. rewrite AppFacts.find_is_lookup; [done |].
    destruct Hwu as [_ Hall]. eapply Forall_impl; [exact Hall |]. by intros ? [? _]. }
  unfold handleAttendanceSubmit, bind at 1, gets. rewrite Hcur.
  rewrite (proj2 (Z.eqb_neq k 0) Hk).
  unfold bind at 1, Date_now, gets, try_catch.
  unfold bind at 1. rewrite (AppFacts.put_open _ _ w d Hdb).
  unfold bind at 1. erewrite AppFacts.getAll_open by reflexivity.
  cbn [contents replace STORES_EVIDENCES STORES_USERS users].
  rewrite Hfind.
  unfold bind at 1. unfold bind at 1. unfold ret at 1.
  unfold bind at 1. erewrite AppFacts.getGistConfig_open by reflexivity.
  unfold bind at 1, throw at 1.
  eexists _, _. split; [reflexivity |]. split; [reflexivity |].
  cbn [users evidences]. split; [done |].
  unfold store_put, resolve_key. cbn [key_of evidence_keyed ev_id snd records generator].
  rewrite AppFacts.store_insert_last by (by apply AppFacts.store_wf_below).
  done.
Qed.

Lemma submit_for_unknown_worker_witness :
  ∃ w' d',
    handleAttendanceSubmit "2024-01-10" 12.5%float "" None (stranger (always 200))
      = (Normal tt, w') ∧
    db w' = Some d' ∧
    users d' = mkObjectStore (numbered 1 INITIAL_USERS) 4 ∧
    records (evidences d')
      = [(1, mkEvidence (Some 1) 7 "2024-01-10" 12.5%float "" None 0)] ∧
    generator (evidences d') = 2.
Proof.
  destruct (submit_for_unknown_worker (stranger (always 200))
              (mkDatabase (mkObjectStore (numbered 1 INITIAL_USERS) 4) empty_store ∅) 7
              "2024-01-10" 12.5%float "" None)
    as (w' & d' & Hrun & Hdb & Hu & Hrec & Hgen).
  - reflexivity.
  - reflexivity.
  - lia.
  - split; split; simpl; repeat constructor; simpl; lia.
  - reflexivity.
  - exists w', d'. split; [exact Hrun |]. split; [exact Hdb |].
    split; [exact Hu |]. split; [exact Hrec | exact Hgen].
Defined.

(** X16. Submitting the attendance form never starts a push: in every
    world the network trace and the sync status are as before.  The
    configuration that the handler reads is [undefined], so that, with the
    database open and a worker selected, the handler ends in its [catch]
    and shows the storage-error notification although its writes were
    made. *)
Theorem submit_never_pushes (w : World)
    dateValue amountValue notesValue imageBase64 :
  trace (handleAttendanceSubmit dateValue amountValue notesValue imageBase64 w).2 = trace w ∧
  syncStatus (handleAttendanceSubmit dateValue amountValue notesValue imageBase64 w).2
    = syncStatus w ∧
  (∀ d k, db w = Some d → currentUserId w = Some k → k ≠ 0 →
     ui (handleAttendanceSubmit dateValue amountValue notesValue imageBase64 w).2
       = ui w ++ [Notification
                    "Error al guardar la asistencia en el almacenamiento local." error] ∧
     ∃ d', db (handleAttendanceSubmit dateValue amountValue notesValue imageBase64 w).2
             = Some d' ∧
           length (records (evidences d')) ≠ 0%nat).
Proof.
  assert (Hopen : ∀ d k, db w = Some d → currentUserId w = Some k → k ≠ 0 →
            ∃ su,
              handleAttendanceSubmit dateValue amountValue notesValue imageBase64 w =
              (Normal tt,
               mkWorld
                 (Some (mkDatabase su
                    (store_put (mkEvidence None k dateValue amountValue notesValue
                                  imageBase64 (clock w)) (evidences d)).2
                    (config d)))
                 (Some k) (clock w) (syncStatus w) (syncColour w)
                 (ui w ++ [Notification
                     "Error al guardar la asistencia en el almacenamiento local." error])
                 (trace w) (server w))).
  { intros d k Hdb Hcur Hk.
    unfold handleAttendanceSubmit, bind at 1, gets. rewrite Hcur.
    rewrite (proj2 (Z.eqb_neq k 0) Hk).
    unfold bind at 1, Date_now, gets, try_catch.
    unfold bind at 1. rewrite (AppFacts.put_open _ _ w d Hdb).
    unfold bind at 1. erewrite AppFacts.getAll_open by reflexivity.
    cbn [contents replace STORES_EVIDENCES STORES_USERS users].
    destruct (find (is_user k) (store_getAll (users d))) as [u |].
    - unfold bind at 1. unfold bind at 1. erewrite AppFacts.put_open by reflexivity.
      unfold ret at 1.
      unfold bind at 1. erewrite AppFacts.getGistConfig_open by reflexivity.
      unfold bind at 1, throw at 1.
      destruct w as [dbw cur ck st col u0 tr sv]. simpl in Hdb, Hcur. subst dbw cur.
      eexists. reflexivity.
    - unfold bind at 1. unfold bind at 1. unfold ret at 1.
      unfold bind at 1. erewrite AppFacts.getGistConfig_open by reflexivity.
      unfold bind at 1, throw at 1.
      destruct w as [dbw cur ck st col u0 tr sv]. simpl in Hdb, Hcur. subst dbw cur.
      eexists. reflexivity. }
  assert (Hall : trace (handleAttendanceSubmit dateValue amountValue notesValue
                          imageBase64 w).2 = trace w ∧
                 syncStatus (handleAttendanceSubmit dateValue amountValue notesValue
                               imageBase64 w).2 = syncStatus w).
  { destruct (currentUserId w) as [k |] eqn:Hcur.
    - destruct (Z.eq_dec k 0) as [-> | Hk].
      + assert (Hc : handleAttendanceSubmit dateValue amountValue notesValue
                       imageBase64 w = (Normal tt, w))
          by (unfold handleAttendanceSubmit, bind at 1, gets; by rewrite Hcur).
        by rewrite Hc.
      + destruct (db w) as [d |] eqn:Hdb.
        * destruct (Hopen d k eq_refl eq_refl Hk) as (su & ->). done.
        * assert (Hc : handleAttendanceSubmit dateValue amountValue notesValue
                           imageBase64 w
                         = (Normal tt,
                            add_ui (Notification
                              "Error al guardar la asistencia en el almacenamiento local."
                              error) w)).
          { unfold handleAttendanceSubmit, bind at 1, gets. rewrite Hcur.
            rewrite (proj2 (Z.eqb_neq k 0) Hk).
            unfold bind at 1, Date_now, gets, try_catch, bind at 1, put at 1.
            by rewrite Hdb. }
          rewrite Hc. split; reflexivity.
    - assert (Hc : handleAttendanceSubmit dateValue amountValue notesValue
                     imageBase64 w = (Normal tt, w))
        by (unfold handleAttendanceSubmit, bind at 1, gets; by rewrite Hcur).
      by rewrite Hc. }
  split; [apply Hall |]. split; [apply Hall |].
  intros d k Hdb Hcur Hk. destruct (Hopen d k Hdb Hcur Hk) as (su & ->).
  split; [done |]. eexists. split; [reflexivity |]. cbn [evidences snd].
  unfold store_put.
  destruct (resolve_key _ _) as [[k1 v1] g1]. cbn [snd records].
  destruct (records (evidences d)) as [| [k0 v0] l]; simpl; [done |].
  destruct (k1 <? k0); [done |]. by destruct (k1 =? k0).
Qed.

Lemma submit_never_pushes_witness :
  trace (handleAttendanceSubmit "2024-01-10" 12.5%float "" None (seeded (always 200))).2 = [] ∧
  ui (handleAttendanceSubmit "2024-01-10" 12.5%float "" None (seeded (always 200))).2
    = [Notification "Error al guardar la asistencia en el almacenamiento local." error] ∧
  ∃ d', db (handleAttendanceSubmit "2024-01-10" 12.5%float "" None (seeded (always 200))).2
          = Some d' ∧
        length (records (evidences d')) ≠ 0%nat.
Proof.
  destruct (submit_never_pushes (seeded (always 200)) "2024-01-10" 12.5%float "" None)
    as (Htrace & _ & Hopen).
  destruct (Hopen (mkDatabase (mkObjectStore (numbered 1 INITIAL_USERS) 4) empty_store ∅) 1
              eq_refl eq_refl ltac:(lia)) as [Hui Hdb].
  split; [exact Htrace |]. split; [exact Hui | exact Hdb].
Defined.

(** *** The stored configuration and the start of the page *)

(** X17. The application script does not read back the configuration that
    it stores: [updateGistConfig] writes the record under [gist_config]
    and touches no other store, but with the database open
    [getGistConfig] resolves to [undefined], because it awaits the request
    object of [store.get] and reads a [value] property that the object
    does not have; only with the database not open does it return a
    configuration, the empty one. *)
Theorem stored_configuration_is_not_read_back (w : World) (d : Database)
    (cfg : GistConfig) :
  db w = Some d →
  (∃ w1 d1,
     updateGistConfig cfg w = (Normal tt, w1) ∧
     db w1 = Some d1 ∧
     config d1 !! CONFIG_KEY = Some (mkConfigRecord CONFIG_KEY cfg) ∧
     users d1 = users d ∧ evidences d1 = evidences d ∧
     getGistConfig w1 = (Normal None, w1)) ∧
  (∀ v, db v = None → getGistConfig v = (Normal (Some (mkGistConfig "" "")), v)).
Proof.
  intros Hdb. split.
  - unfold updateGistConfig. rewrite Hdb. eexists _, _.
    split; [reflexivity |]. split; [reflexivity |]. cbn [config users evidences].
    split; [apply lookup_insert_eq |]. split; [done |]. split; [done |].
    by apply (AppFacts.getGistConfig_open _ (mkDatabase (users d) (evidences d)
                (<[CONFIG_KEY := mkConfigRecord CONFIG_KEY cfg]> (config d)))).
  - intros v Hv. unfold getGistConfig, try_catch. by rewrite Hv.
Qed.

Lemma stored_configuration_is_not_read_back_witness :
  (∃ w1 d1,
     updateGistConfig (mkGistConfig "abc" "tok") (fresh (always 200)) = (Normal tt, w1) ∧
     db w1 = Some d1 ∧
     config d1 !! CONFIG_KEY = Some (mkConfigRecord CONFIG_KEY (mkGistConfig "abc" "tok")) ∧
     getGistConfig w1 = (Normal None, w1)) ∧
  getGistConfig (cold (always 200))
    = (Normal (Some (mkGistConfig "" "")), cold (always 200)).
Proof.
  destruct (stored_configuration_is_not_read_back (fresh (always 200))
              (mkDatabase empty_store empty_store ∅) (mkGistConfig "abc" "tok") eq_refl)
    as [(w1 & d1 & Hput & Hdb & Hcfg & _ & _ & Hget) Hcold].
  split.
  - exists w1, d1. split; [exact Hput |]. split; [exact Hdb |].
    split; [exact Hcfg | exact Hget].
  - apply Hcold. reflexivity.
Defined.

(** X18. The start of the page never reaches the start-up load: whether
    the database opens or not, and whatever it holds, the
    [DOMContentLoaded] listener ends in its [catch] with the
    critical-failure notification, renders nothing else, makes no request
    and leaves the sync status as it is; the stores are opened at most. *)
Theorem startup_ends_in_critical_failure (engine : JsError + Database) (w : World) :
  ∃ w',
    onDOMContentLoaded engine w = (Normal tt, w') ∧
    ui w' = ui w ++ [Notification CRITICAL error] ∧
    trace w' = trace w ∧
    syncStatus w' = syncStatus w ∧
    db w' = match db w, engine with
            | Some d, _ => Some d
            | None, inr d => Some d
            | None, inl _ => None
            end.
Proof.
  unfold onDOMContentLoaded, try_catch, bind at 1, openDB.
  destruct w as [[d |] cur ck st col u tr sv]; cbn [db].
  - eexists. split; [reflexivity |]. by split.
  - destruct engine as [e | d].
    + eexists. split; [reflexivity |]. by split.
    + eexists. split; [reflexivity |]. by split.
Qed.

(** *** The start-up load, when the pull succeeds *)

Lemma bulk_outcome `{Keyed V} (store : StoreRef V) (dataArray : list V)
    (w : World) (d : Database) :
  db w = Some d →
  clearAndBulkAdd store dataArray w =
    match bulk_transaction (isEvidences store) dataArray None (contents store d) with
    | Committed s' => (Normal tt, set_db (replace store s' d) w)
    | Uncommitted => (Normal tt, w)
    | RequestFailed e => (Thrown e, w)
    | Interrupted => (Thrown ABORT, w)
    end.
Proof. intros Hdb. unfold clearAndBulkAdd, clearAndBulkAdd_within. by rewrite Hdb. Qed.

Lemma pull_keeps_db (w w1 : World) gistId token
    (c : Completion RemoteData) :
  loadDataFromGist gistId token w = (c, w1) → db w1 = db w.
Proof.
  intros H. destruct (AppFacts.pull_activity w gistId token) as (evs & Hevs).
  rewrite H in Hevs. simpl in Hevs. subst w1. apply AppFacts.db_replay.
Qed.

Lemma selection_replay (evs : list NetEvent) (w : World) :
  currentUserId (replay evs w) = currentUserId w.
Proof. revert w. induction evs as [| [req | ms] evs IH]; intros w; simpl; [done | |]; by rewrite IH. Qed.

Lemma pull_keeps_selection (w w1 : World) gistId token
    (c : Completion RemoteData) :
  loadDataFromGist gistId token w = (c, w1) → currentUserId w1 = currentUserId w.
Proof.
  intros H. destruct (AppFacts.pull_activity w gistId token) as (evs & Hevs).
  rewrite H in Hevs. simpl in Hevs. subst w1. apply selection_replay.
Qed.

Lemma bulk_clears `{KeyedLaws V} (isEv : bool) (dataArray : list V)
    (s s' : ObjectStore V) :
  bulk_transaction isEv dataArray None s = Committed s' →
  store_wf s' ∧ without_key <$> store_getAll s' ≡ₚ without_key <$> dataArray.
Proof.
  intros Hrun. unfold bulk_transaction in Hrun. simpl in Hrun.
  assert (Hclear : store_wf (store_clear s)) by (split; simpl; constructor).
  by destruct (AppFacts.addNext_commit _ _ _ _ Hclear Hrun).
Qed.

(** X19. When sync is configured and the pull succeeds, the start-up load
    replaces both collections with the pulled data: afterwards they hold
    the pulled workers and evidence records (up to the ids that the stores
    assign) and nothing of what was stored locally before; the pulled
    workers are rendered and the status says synchronised. *)
Theorem load_replaces_local_data (w w1 : World) (d : Database) gistId token
    (content : list Worker * list Evidence) (su : ObjectStore Worker)
    (se : ObjectStore Evidence) :
  db w = Some d →
  configured gistId token →
  loadDataFromGist gistId token w
    = (Normal (Document (Some content.1) (Some content.2)), w1) →
  bulk_transaction false content.1 None (users d) = Committed su →
  bulk_transaction true content.2 None (evidences d) = Committed se →
  ∃ w',
    initialDataLoad gistId token w = (Normal tt, w') ∧
    db w' = Some (mkDatabase su se (config d)) ∧
    without_key <$> store_getAll su ≡ₚ without_key <$> content.1 ∧
    without_key <$> store_getAll se ≡ₚ without_key <$> content.2 ∧
    last (ui w') = Some (Render content.1) ∧
    syncStatus w' = LitTime "Sincronizado: " (clock w1).
Proof.
  intros Hdb [Hg Ht] Hpull Hsu Hse.
  pose proof (pull_keeps_db _ _ _ _ _ Hpull) as Hdb1. rewrite Hdb in Hdb1.
  unfold initialDataLoad. rewrite Hg, Ht. cbn [negb andb].
  unfold try_catch, bind at 1. rewrite Hpull. cbn [clearAndBulkAdd_member].
  unfold bind at 1. rewrite (bulk_outcome STORES_USERS content.1 w1 d Hdb1).
  cbn [isEvidences STORES_USERS contents]. rewrite Hsu.
  unfold bind at 1. erewrite (bulk_outcome STORES_EVIDENCES content.2) by reflexivity.
  cbn [isEvidences STORES_EVIDENCES STORES_USERS contents replace evidences users config].
  rewrite Hse.
  eexists. split; [reflexivity |].
  split; [by destruct w1 |].
  split; [exact (proj2 (bulk_clears false _ _ _ Hsu)) |].
  split; [exact (proj2 (bulk_clears true _ _ _ Hse)) |].
  split; [destruct w1; simpl; by rewrite last_snoc | by destruct w1].
Qed.

Lemma load_replaces_local_data_witness :
  ∃ w' su se,
    initialDataLoad "abc" "tok"
      (with_local_evidence (flaky 0 (Some [(DATA_FILE, Some (Document (Some unnumbered) (Some [])))])))
      = (Normal tt, w') ∧
    db w' = Some (mkDatabase su se ∅) ∧
    records su = numbered 4 unnumbered ∧
    records se = [] ∧
    last (ui w') = Some (Render unnumbered).
Proof.
  destruct (load_replaces_local_data
              (with_local_evidence (flaky 0 (Some [(DATA_FILE, Some (Document (Some unnumbered) (Some [])))])))
              (add_trace (Fetch (pull_request "abc" "tok"))
                 (with_local_evidence (flaky 0 (Some [(DATA_FILE, Some (Document (Some unnumbered) (Some [])))]))))
              (mkDatabase (mkObjectStore (numbered 1 INITIAL_USERS) 4)
                 (mkObjectStore [(1, mkEvidence (Some 1) 1 "2024-01-09" 3%float "" None 0)] 2)
                 ∅)
              "abc" "tok" (unnumbered, [])
              (mkObjectStore (numbered 4 unnumbered) 7)
              (mkObjectStore [] 2))
    as (w' & Hrun & Hdb & _ & _ & Hui & _).
  - reflexivity.
  - split; reflexivity.
  - vm_compute. reflexivity.
  - vm_compute. reflexivity.
  - vm_compute. reflexivity.
  - exists w', (mkObjectStore (numbered 4 unnumbered) 7), (mkObjectStore [] 2).
    split; [exact Hrun |]. split; [exact Hdb |]. split; [reflexivity |].
    split; [reflexivity | exact Hui].
Defined.

(** X20. The start-up load does not replace the two collections together:
    when the pulled workers are stored and the pulled evidence records are
    then refused (two of them share an [id], say), the workers' collection
    holds the pulled workers while the evidence collection is the local
    one as before; the load shows the message of that error between the
    fixed words of its notification and renders the pulled workers. *)
Theorem load_can_replace_workers_only (w w1 : World) (d : Database) gistId token
    (content : list Worker * list Evidence) (su : ObjectStore Worker) (e : JsError) :
  db w = Some d →
  configured gistId token →
  loadDataFromGist gistId token w
    = (Normal (Document (Some content.1) (Some content.2)), w1) →
  bulk_transaction false content.1 None (users d) = Committed su →
  bulk_transaction true content.2 None (evidences d) = RequestFailed e →
  ∃ w',
    initialDataLoad gistId token w = (Normal tt, w') ∧
    db w' = Some (mkDatabase su (evidences d) (config d)) ∧
    ui w' = ui w1 ++
            [Notification (with_message "Error al cargar datos: " e ". Usando local.")
                          error;
             Render (store_getAll su)] ∧
    syncStatus w' = Lit "Error de Carga Remota".
Proof.
  intros Hdb [Hg Ht] Hpull Hsu Hse.
  pose proof (pull_keeps_db _ _ _ _ _ Hpull) as Hdb1. rewrite Hdb in Hdb1.
  unfold initialDataLoad. rewrite Hg, Ht. cbn [negb andb].
  unfold try_catch, bind at 1. rewrite Hpull. cbn [clearAndBulkAdd_member].
  unfold bind at 1. rewrite (bulk_outcome STORES_USERS content.1 w1 d Hdb1).
  cbn [isEvidences STORES_USERS contents]. rewrite Hsu.
  unfold bind at 1. erewrite (bulk_outcome STORES_EVIDENCES content.2) by reflexivity.
  cbn [isEvidences STORES_EVIDENCES STORES_USERS contents replace evidences users config].
  rewrite Hse.
  unfold bind at 1, showNotification, modify. unfold bind at 1.
  unfold bind at 1. erewrite AppFacts.getAll_open by reflexivity.
  eexists. split; [reflexivity |].
  split; [by destruct w1 |]. split; [| by destruct w1].
  destruct w1; simpl. by rewrite <- app_assoc.
Qed.

Lemma load_can_replace_workers_only_witness :
  ∃ w' su,
    initialDataLoad "abc" "tok"
      (with_local_evidence (flaky 0 (Some [(DATA_FILE, Some (Document (Some unnumbered) (Some twice)))])))
      = (Normal tt, w') ∧
    db w' = Some (mkDatabase su
                    (mkObjectStore
                       [(1, mkEvidence (Some 1) 1 "2024-01-09" 3%float "" None 0)] 2) ∅) ∧
    records su = numbered 4 unnumbered ∧
    last (ui w') = Some (Render (numbered 4 unnumbered).*2) ∧
    syncStatus w' = Lit "Error de Carga Remota".
Proof.
  destruct (load_can_replace_workers_only
              (with_local_evidence (flaky 0 (Some [(DATA_FILE, Some (Document (Some unnumbered) (Some twice)))])))
              (add_trace (Fetch (pull_request "abc" "tok"))
                 (with_local_evidence
                    (flaky 0 (Some [(DATA_FILE, Some (Document (Some unnumbered) (Some twice)))]))))
              (mkDatabase (mkObjectStore (numbered 1 INITIAL_USERS) 4)
                 (mkObjectStore [(1, mkEvidence (Some 1) 1 "2024-01-09" 3%float "" None 0)] 2)
                 ∅)
              "abc" "tok" (unnumbered, twice)
              (mkObjectStore (numbered 4 unnumbered) 7)
              (DOMException "ConstraintError"))
    as (w' & Hrun & Hdb & Hui & Hst).
  - reflexivity.
  - split; reflexivity.
  - vm_compute. reflexivity.
  - vm_compute. reflexivity.
  - vm_compute. reflexivity.
  - exists w', (mkObjectStore (numbered 4 unnumbered) 7).
    split; [exact Hrun |]. split; [exact Hdb |]. split; [reflexivity |].
    split; [rewrite Hui; reflexivity | exact Hst].
Defined.

(** *** The start-up load without a configuration *)

Lemma local_mode_keeps (w : World) (d : Database) gistId token :
  db w = Some d →
  falsy gistId || falsy token = true →
  store_getAll (users d) ≠ [] →
  initialDataLoad gistId token w =
    (Normal tt,
     set_syncStatus (Lit "Modo Local (Sin Gist)")
       (add_ui (Notification "Modo Offline/Local: Gist no configurado." error)
          (add_ui (Render (store_getAll (users d))) w))).
Proof.
  intros Hdb Hcfg Hne. unfold initialDataLoad.
  replace (negb (falsy gistId) && negb (falsy token)) with false
    by (by destruct (falsy gistId), (falsy token)).
  unfold try_catch, bind at 1. rewrite (getAll_open _ w d Hdb).
  cbn [contents STORES_USERS].
  destruct (store_getAll (users d)) as [| u us]; [done |]. reflexivity.
Qed.

Lemma local_mode_seeds (w : World) (d : Database) gistId token :
  db w = Some d →
  falsy gistId || falsy token = true →
  store_getAll (users d) = [] →
  ∃ g,
    3 < g ∧ generator (users d) ≤ g ∧
    initialDataLoad gistId token w =
      (Normal tt,
       set_syncStatus (Lit "Modo Local (Sin Gist)")
         (add_ui (Notification "Modo Offline/Local: Gist no configurado." error)
            (add_ui (Render INITIAL_USERS)
               (set_db (mkDatabase (mkObjectStore (numbered 1 INITIAL_USERS) g)
                          (evidences d) (config d)) w)))).
Proof.
  intros Hdb Hcfg Hempty. unfold initialDataLoad.
  replace (negb (falsy gistId) && negb (falsy token)) with false
    by (by destruct (falsy gistId), (falsy token)).
  unfold try_catch, bind at 1. rewrite (getAll_open _ w d Hdb).
  cbn [contents STORES_USERS]. rewrite Hempty. cbn [length Nat.eqb].
  destruct d as [[us g] ev cf]. cbn [users] in Hempty.
  unfold store_getAll in Hempty. cbn [records] in Hempty.
  apply fmap_nil_inv in Hempty. subst us.
  destruct w as [dbw cur ck st col u0 tr sv]. simpl in Hdb. subst dbw.
  eexists. split; [| split; [| reflexivity]].
  all: simpl;
  repeat (match goal with
          | |- context [?a <=? ?b] => is_var a; destruct (Z.leb_spec a b)
          end; simpl); lia.
Qed.

(** X21. Without a complete configuration the start-up load makes no
    request and works on the local data: a workers' collection that is not
    empty is left exactly as it is, an empty one receives the three
    built-in workers; the evidence is untouched either way.  Afterwards
    the collection is not empty, so that a second start changes nothing:
    the built-in workers are written once. *)
Theorem local_mode_seeds_once (w : World) (d : Database) gistId token :
  db w = Some d →
  falsy gistId || falsy token = true →
  ∃ w1 d1,
    initialDataLoad gistId token w = (Normal tt, w1) ∧
    db w1 = Some d1 ∧
    trace w1 = trace w ∧
    (store_getAll (users d) ≠ [] → d1 = d) ∧
    (store_getAll (users d) = [] → store_getAll (users d1) = INITIAL_USERS) ∧
    evidences d1 = evidences d ∧
    db (initialDataLoad gistId token w1).2 = Some d1.
Proof.
  intros Hdb Hcfg.
  destruct (store_getAll (users d)) as [| u us] eqn:Hall.
  - destruct (local_mode_seeds w d gistId token Hdb Hcfg Hall) as (g & _ & _ & Hrun).
    eexists _, _. split; [exact Hrun |]. split; [reflexivity |].
    split; [by destruct w |]. split; [done |]. split; [done |]. split; [done |].
    erewrite local_mode_keeps; [reflexivity | reflexivity | done | done].
  - assert (Hne : store_getAll (users d) ≠ []) by (by rewrite Hall).
    rewrite <- Hall. rewrite (local_mode_keeps w d gistId token Hdb Hcfg Hne).
    eexists _, d. split; [reflexivity |]. split; [by destruct w |].
    split; [by destruct w |]. split; [done |]. split; [by rewrite Hall |]. split; [done |].
    erewrite local_mode_keeps; [by destruct w | by destruct w | done | done].
Qed.

Lemma local_mode_seeds_once_witness :
  ∃ w1 d1,
    initialDataLoad "" "" (fresh (always 200)) = (Normal tt, w1) ∧
    db w1 = Some d1 ∧
    trace w1 = [] ∧
    store_getAll (users d1) = INITIAL_USERS ∧
    db (initialDataLoad "" "" w1).2 = Some d1.
Proof.
  destruct (local_mode_seeds_once (fresh (always 200))
              (mkDatabase empty_store empty_store ∅) "" "" eq_refl eq_refl)
    as (w1 & d1 & Hrun & Hdb & Htrace & _ & Hseed & _ & Hagain).
  exists w1, d1. split; [exact Hrun |]. split; [exact Hdb |]. split; [exact Htrace |].
  split; [by apply Hseed | exact Hagain].
Defined.

(** *** What every handler keeps *)

(** The [catch] of the start-up load, with the database open. *)
Lemma load_catch (w : World) (d : Database) (msg : Text) :
  db w = Some d →
  (showNotification msg error ;;;
   modify (set_syncStatus (Lit "Error de Carga Remota")) ;;;
   currentUsers <- getAll STORES_USERS ;;
   renderTeamGrid currentUsers) w
  = (Normal tt,
     add_ui (Render (store_getAll (users d)))
       (set_syncStatus (Lit "Error de Carga Remota") (add_ui (Notification msg error) w))).
Proof.
  intros Hdb. unfold bind at 1, showNotification, modify. unfold bind at 1.
  unfold bind at 1. erewrite getAll_open by exact Hdb. reflexivity.
Qed.

Lemma addNext_generator `{KeyedLaws V} (isEv : bool) (dataArray : list V) :
  ∀ s s', addNext isEv dataArray None s = Committed s' → generator s ≤ generator s'.
Proof.
  induction dataArray as [| item rest IH]; intros s s'; simpl.
  - by intros [= <-].
  - unfold store_add.
    destruct (resolve_key_spec (strip_id isEv item) (generator s))
      as (k & v' & g' & -> & _ & _ & Hle & _).
    destruct (store_lookup k (records s)); [done |].
    intros Hrest. apply IH in Hrest. simpl in Hrest. lia.
Qed.

Lemma bulk_generator `{KeyedLaws V} (isEv : bool) (dataArray : list V)
    (s s' : ObjectStore V) :
  bulk_transaction isEv dataArray None s = Committed s' → generator s ≤ generator s'.
Proof. intros Hrun. exact (addNext_generator isEv dataArray _ _ Hrun). Qed.

Lemma store_put_generator `{KeyedLaws V} (v : V) (s : ObjectStore V) :
  generator s ≤ generator (store_put v s).2.
Proof.
  unfold store_put.
  by destruct (resolve_key_spec v (generator s)) as (k & v' & g' & -> & _ & _ & Hle & _).
Qed.

(** A response that the loop hands back is one that the remote end
    gave. *)
Lemma loop_answer (req : Request) (retries : nat) (r : Response) :
  ∀ n i w w1,
    backoff_loop req retries n i w = (Normal (Some r), w1) →
    ∃ k, server w k req = Responded r.
Proof.
  induction n as [| n IH]; intros i w w1; [done |].
  simpl. unfold bind at 1, try_catch, try_block, bind at 1, fetch.
  destruct (server w (attempts w) req) as [| r0] eqn:Hsrv.
  - unfold catch_block. destruct (i =? retries - 1)%nat; [done |].
    unfold bind, sleep, modify. intros Hrun. apply IH in Hrun as [k Hk].
    by exists k.
  - destruct (status_ok (status r0)).
    + intros [= <- _]. by eexists.
    + destruct (status r0 =? 404).
      * unfold catch_block, throw. destruct (i =? retries - 1)%nat; [done |].
        unfold bind, sleep, modify. intros Hrun. apply IH in Hrun as [k Hk].
        by exists k.
      * unfold bind, sleep, modify. intros Hrun. apply IH in Hrun as [k Hk].
        by exists k.
Qed.

Lemma pull_settles (w : World) gistId token :
  (loadDataFromGist gistId token w).1 ≠ Pending.
Proof.
  unfold loadDataFromGist. destruct (falsy gistId || falsy token); [done |].
  set (req := mkRequest "GET" _ _ _). unfold bind.
  pose proof (AppFacts.fetchWithBackoff_settles req w) as Hs.
  destruct (fetchWithBackoff req DEFAULT_RETRIES w) as [[[r |] | e |] w1];
    [| done | done | done].
  destruct (gist r) as [fs |]; [| done].
  by destruct (file_content fs DATA_FILE) as [[c |] |].
Qed.

(** The document that a pull returns is one that the remote end served
    as the data file. *)
Lemma pull_shape (w w1 : World) gistId token users evidences :
  arrays_or_null w →
  loadDataFromGist gistId token w = (Normal (Document users evidences), w1) →
  is_Some users ∧ is_Some evidences.
Proof.
  intros Hshape. unfold loadDataFromGist.
  destruct (falsy gistId || falsy token); [done |].
  set (req := mkRequest "GET" _ _ _). unfold bind.
  destruct (fetchWithBackoff req DEFAULT_RETRIES w) as [[[r |] | e |] w2] eqn:Hfetch;
    [| done | done | done].
  apply loop_answer in Hfetch as [k Hk].
  destruct (gist r) as [fs |] eqn:Hfs; [| done].
  destruct (file_content fs DATA_FILE) as [[c |] |] eqn:Hc; [| done | done].
  intros [= -> _]. by apply (Hshape k req r fs).
Qed.

Lemma pull_keeps_server (w w1 : World) gistId token (c : Completion RemoteData) :
  loadDataFromGist gistId token w = (c, w1) → server w1 = server w.
Proof.
  intros H. destruct (AppFacts.pull_activity w gistId token) as (evs & Hevs).
  rewrite H in Hevs. simpl in Hevs. subst w1. apply AppFacts.server_replay.
Qed.


(** When the engine lets the transaction complete, it ends committed or
    with a failed request. *)
Lemma addNext_uncut `{Keyed V} (isEv : bool) (dataArray : list V) :
  ∀ s, addNext isEv dataArray None s ≠ Uncommitted ∧
       addNext isEv dataArray None s ≠ Interrupted.
Proof.
  induction dataArray as [| item rest IH]; intros s; simpl; [done |].
  destruct (store_add (strip_id isEv item) s) as [e | s1]; [done | apply IH].
Qed.

Lemma bulk_uncut `{Keyed V} (isEv : bool) (dataArray : list V) (s : ObjectStore V) :
  bulk_transaction isEv dataArray None s ≠ Uncommitted ∧
  bulk_transaction isEv dataArray None s ≠ Interrupted.
Proof. apply addNext_uncut. Qed.

(** With the database open the load never throws: it runs to its end
    or, when a member of the pulled document is not an array, it is left
    pending.  It keeps the configuration store, it keeps the stores well
    formed, and the key generators do not go back. *)
Lemma load_outcome (w : World) (d : Database) gistId token :
  db w = Some d →
  ∃ c w' d',
    initialDataLoad gistId token w = (c, w') ∧
    (c = Normal tt ∨ c = Pending) ∧
    (arrays_or_null w → c = Normal tt) ∧
    db w' = Some d' ∧
    currentUserId w' = currentUserId w ∧
    server w' = server w ∧
    config d' = config d ∧
    (db_wf d → db_wf d') ∧
    generators_advance d d'.
Proof.
  intros Hdb.
  assert (Hsame : generators_advance d d) by (split; lia).
  destruct (falsy gistId || falsy token) eqn:Hcfg.
  - destruct (store_getAll (users d)) as [| u us] eqn:Hall.
    + destruct (local_mode_seeds w d gistId token Hdb Hcfg Hall) as (g & Hg & Hle & Hrun).
      eexists _, _, _. split; [exact Hrun |]. split; [by left |]. split; [done |].
      split; [reflexivity |].
      split; [by destruct w |]. split; [by destruct w |]. split; [done |]. split.
      * intros [_ Hwe]. split; [| done].
        split; simpl; repeat constructor; simpl; lia.
      * split; simpl; [done | lia].
    + assert (Hne : store_getAll (users d) ≠ []) by (by rewrite Hall).
      rewrite (local_mode_keeps w d gistId token Hdb Hcfg Hne).
      eexists _, _, d. split; [reflexivity |]. split; [by left |]. split; [done |].
      split; [by destruct w |].
      split; [by destruct w |]. split; [by destruct w |]. by split.
  - assert (Hg : falsy gistId = false ∧ falsy token = false)
      by (by destruct (falsy gistId), (falsy token)).
    destruct Hg as [Hg Ht].
    pose proof (pull_settles w gistId token) as Hsettles.
    unfold initialDataLoad. rewrite Hg, Ht. cbn [negb andb].
    unfold try_catch, bind at 1.
    destruct (loadDataFromGist gistId token w) as [[remoteData | e |] w1] eqn:Hpull;
      [| | done];
      pose proof (pull_keeps_db _ _ _ _ _ Hpull) as Hdb1; rewrite Hdb in Hdb1;
      pose proof (pull_keeps_selection _ _ _ _ _ Hpull) as Hcur1;
      pose proof (pull_keeps_server _ _ _ _ _ Hpull) as Hsrv1.
    + destruct remoteData as [| [us |] es].
      * unfold throw at 1. erewrite load_catch by exact Hdb1.
        eexists _, _, d. split; [reflexivity |]. split; [by left |]. split; [done |].
        split; [by destruct w1 |].
        split; [by destruct w1 |]. split; [by destruct w1 |]. by split.
      * cbn [clearAndBulkAdd_member].
        unfold bind at 1. rewrite (bulk_outcome STORES_USERS us w1 d Hdb1).
        cbn [isEvidences STORES_USERS contents].
        destruct (bulk_uncut false us (users d)) as [Hnu Hni].
        destruct (bulk_transaction false us None (users d)) as [su | e | |] eqn:Hsu;
          [| | done | done].
        -- pose proof (bulk_generator _ _ _ _ Hsu) as Hgu.
           destruct es as [es |].
           ++ cbn [clearAndBulkAdd_member]. unfold bind at 1.
              erewrite (bulk_outcome STORES_EVIDENCES es) by reflexivity.
              cbn [isEvidences STORES_EVIDENCES STORES_USERS contents replace
                   evidences users config].
              destruct (bulk_uncut true es (evidences d)) as [Hnu' Hni'].
              destruct (bulk_transaction true es None (evidences d))
                as [se | e | |] eqn:Hse; [| | done | done].
              ** pose proof (bulk_generator _ _ _ _ Hse) as Hge.
                 eexists _, _, _. split; [reflexivity |]. split; [by left |].
                 split; [done |]. split; [by destruct w1 |].
                 split; [by destruct w1 |]. split; [by destruct w1 |].
                 split; [done |]. split.
                 --- intros _.
                     split; [exact (proj1 (bulk_clears false _ _ _ Hsu))
                            | exact (proj1 (bulk_clears true _ _ _ Hse))].
                 --- by split.
              ** erewrite load_catch by (by destruct w1).
                 eexists _, _, _. split; [reflexivity |]. split; [by left |].
                 split; [done |]. split; [by destruct w1 |].
                 split; [by destruct w1 |]. split; [by destruct w1 |].
                 split; [done |]. split.
                 --- intros [_ Hwe].
                     split; [exact (proj1 (bulk_clears false _ _ _ Hsu)) | done].
                 --- split; simpl; [done | lia].
           ++ cbn [clearAndBulkAdd_member]. unfold bind at 1. cbn [db set_db].
              eexists _, _, _. split; [reflexivity |]. split; [by right |].
              split.
              { intros Hshape. destruct (pull_shape _ _ _ _ _ _ Hshape Hpull) as [_ [? ?]].
                done. }
              split; [by destruct w1 |].
              split; [by destruct w1 |]. split; [by destruct w1 |].
              split; [done |]. split.
              ** intros [_ Hwe].
                 split; [exact (proj1 (bulk_clears false _ _ _ Hsu)) | done].
              ** split; simpl; [done | lia].
        -- erewrite load_catch by exact Hdb1.
           eexists _, _, d. split; [reflexivity |]. split; [by left |]. split; [done |].
           split; [by destruct w1 |].
           split; [by destruct w1 |]. split; [by destruct w1 |]. by split.
      * cbn [clearAndBulkAdd_member]. unfold bind at 1. rewrite Hdb1.
        eexists _, _, d. split; [reflexivity |]. split; [by right |].
        split.
        { intros Hshape. destruct (pull_shape _ _ _ _ _ _ Hshape Hpull) as [[? ?] _].
          done. }
        split; [exact Hdb1 |]. split; [exact Hcur1 |]. split; [exact Hsrv1 |]. by split.
    + erewrite load_catch by exact Hdb1.
      eexists _, _, d. split; [reflexivity |]. split; [by left |]. split; [done |].
      split; [by destruct w1 |].
      split; [by destruct w1 |]. split; [by destruct w1 |]. by split.
Qed.

(** *** The configuration form *)

(** X22. Submitting the configuration form with a blank field only shows
    the error notification: nothing is stored and no request is made.
    With both fields filled and the database open the handler never
    throws, whatever the remote end does: it runs to its end, or it is
    left pending, and it runs to its end when the data file that the
    remote end serves is [null] or has both arrays.  Either way the pair
    is stored under the configuration key, also after the load that
    follows, and the stores of records are still well formed. *)
Theorem config_form_submit (w : World) (d : Database) gistId token :
  db w = Some d →
  (falsy gistId || falsy token = true →
     ∃ w', handleConfigSubmit gistId token w = (Normal tt, w') ∧
           db w' = Some d ∧ trace w' = trace w) ∧
  (configured gistId token →
     ∃ c w' d', handleConfigSubmit gistId token w = (c, w') ∧
                (c = Normal tt ∨ c = Pending) ∧
                (arrays_or_null w → c = Normal tt) ∧
                db w' = Some d' ∧
                config d' !! CONFIG_KEY
                  = Some (mkConfigRecord CONFIG_KEY (mkGistConfig gistId token)) ∧
                (db_wf d → db_wf d')).
Proof.
  intros Hdb. split.
  - intros Hcfg. unfold handleConfigSubmit.
    replace (negb (falsy gistId) && negb (falsy token)) with false
      by (by destruct (falsy gistId), (falsy token)).
    eexists. split; [reflexivity |]. by destruct w.
  - intros [Hg Ht]. unfold handleConfigSubmit. rewrite Hg, Ht. cbn [negb andb].
    unfold bind at 1. unfold updateGistConfig at 1. rewrite Hdb.
    unfold bind at 1. unfold closeModal at 1. unfold bind at 1.
    unfold showNotification at 1. unfold modify. cbv beta iota.
    match goal with
    | |- ∃ c w' d', initialDataLoad _ _ ?w0 = _ ∧ _ =>
        destruct (load_outcome w0
                    (mkDatabase (users d) (evidences d)
                       (<[CONFIG_KEY := mkConfigRecord CONFIG_KEY (mkGistConfig gistId token)]>
                          (config d))) gistId token)
          as (c & w' & d' & Hrun & Hc & Hshape & Hdb' & _ & _ & Hconf & Hwf & _);
          [by destruct w |]
    end.
    exists c, w', d'. split; [exact Hrun |]. split; [exact Hc |].
    split; [intros Hs; apply Hshape; by destruct w |]. split; [exact Hdb' |].
    split; [| exact Hwf].
    rewrite Hconf. cbn [config]. apply lookup_insert_eq.
Qed.

Lemma config_form_submit_witness :
  (∃ w', handleConfigSubmit "abc" "" (seeded (always 200)) = (Normal tt, w') ∧
         db w' = db (seeded (always 200)) ∧ trace w' = []) ∧
  (∃ w' d', handleConfigSubmit "abc" "tok" (seeded (always 404)) = (Normal tt, w') ∧
            db w' = Some d' ∧
            config d' !! CONFIG_KEY
              = Some (mkConfigRecord CONFIG_KEY (mkGistConfig "abc" "tok"))) ∧
  (∃ w' d', handleConfigSubmit "abc" "tok"
              (seeded (flaky 0 (Some [(DATA_FILE, Some (Document None None))])))
              = (Pending, w') ∧
            db w' = Some d' ∧
            config d' !! CONFIG_KEY
              = Some (mkConfigRecord CONFIG_KEY (mkGistConfig "abc" "tok"))).
Proof.
  destruct (db (seeded (always 200))) as [d |] eqn:Hd; [| discriminate Hd].
  destruct (db (seeded (always 404))) as [d4 |] eqn:Hd4; [| discriminate Hd4].
  split; [| split].
  - destruct (config_form_submit (seeded (always 200)) d "abc" "" Hd) as [Hblank _].
    destruct (Hblank ltac:(reflexivity)) as (w' & Hrun & Hdb' & Htr).
    exists w'. split; [exact Hrun |]. split; [exact Hdb' | exact Htr].
  - destruct (config_form_submit (seeded (always 404)) d4 "abc" "tok" Hd4) as [_ Hfull].
    destruct (Hfull ltac:(by split)) as (c & w' & d' & Hrun & _ & Hshape & Hdb' & Hconf & _).
    rewrite Hshape in Hrun; [| intros n req r files us es [= <-] [=]].
    exists w', d'. split; [exact Hrun |]. split; [exact Hdb' | exact Hconf].
  - destruct (config_form_submit
                (seeded (flaky 0 (Some [(DATA_FILE, Some (Document None None))])))
                (mkDatabase (mkObjectStore (numbered 1 INITIAL_USERS) 4) empty_store ∅)
                "abc" "tok" eq_refl) as [_ Hfull].
    destruct (Hfull ltac:(by split)) as (c & w' & d' & Hrun & Hc & _ & Hdb' & Hconf & _).
    assert (Hp : c = Pending).
    { destruct Hc as [-> | ->]; [| done]. vm_compute in Hrun. discriminate Hrun. }
    subst c. exists w', d'. split; [exact Hrun |]. split; [exact Hdb' | exact Hconf].
Defined.



(** *** Dates read by recognition *)

Lemma split_slash_length (s : string) :
  length (split_slash s) = S (slashes s).
Proof.
  induction s as [| c rest IH]; [done |]. simpl.
  destruct (Ascii.eqb c "/"%char); simpl; [by rewrite IH |].
  destruct (split_slash rest) as [| part parts]; [done |]. exact IH.
Qed.

Lemma split_slash_free (a : string) :
  slash_free a = true → split_slash a = [a].
Proof.
  induction a as [| c rest IH]; [done |]. simpl.
  destruct (Ascii.eqb c "/"%char); [done |]. simpl. intros H. by rewrite (IH H).
Qed.

Lemma split_slash_app (a b : string) :
  slash_free a = true →
  split_slash (a +:+ String "/"%char b) = a :: split_slash b.
Proof.
  induction a as [| c rest IH]; [done |]. simpl.
  destruct (Ascii.eqb c "/"%char); [done |]. simpl. intros H. by rewrite (IH H).
Qed.

(** X23. [parseOCRDate] returns [null] exactly when the text does not
    hold two slashes; with two slashes it returns a text whatever stands
    between them, numbers or not. *)
Theorem ocr_date_null_iff (currentYear : Z) (ocrDateString : string) :
  parseOCRDate currentYear ocrDateString = None ↔ slashes ocrDateString ≠ 2%nat.
Proof.
  pose proof (split_slash_length ocrDateString) as Hlen.
  unfold parseOCRDate.
  destruct (split_slash ocrDateString) as [| p0 [| p1 [| p2 [| p3 ps]]]];
    simpl in Hlen; split; (done || lia).
Qed.

(** X24. For a text "day/month/year" whose year reads as an integer [n]
    that a double holds exactly, 2000 away from the largest such, the
    year of the result is [1900 + n] when [n] is more than ten years
    past the current year counted from 2000, and [2000 + n] otherwise;
    the month and the day are the texts given, padded with zeros to two
    code units, and the text written is year, month, day.  A year of
    four digits is therefore not returned as it was read. *)
Theorem ocr_date_pivot (currentYear n : Z) (day month year : string) :
  slash_free day = true →
  slash_free month = true →
  slash_free year = true →
  parseInt10 year = Some n →
  Z.abs n ≤ 2 ^ 53 - 2000 →
  0 ≤ currentYear ≤ 275760 →
  ∃ y,
    parseOCRDate currentYear (day +:+ "/" +:+ month +:+ "/" +:+ year)
      = Some (mkDateText (Exact y) (padStart2 month) (padStart2 day)) ∧
    written (mkDateText (Exact y) (padStart2 month) (padStart2 day))
      = Some (pretty y +:+ "-" +:+ padStart2 month +:+ "-" +:+ padStart2 day) ∧
    (currentYear - 1990 < n → y = 1900 + n) ∧
    (n ≤ currentYear - 1990 → y = 2000 + n) ∧
    y ≠ n.
Proof.
  intros Hd Hm Hy Hn Hbound Hnow. unfold parseOCRDate.
  change ("/" +:+ year) with (String "/"%char year).
  change ("/" +:+ ?x) with (String "/"%char x).
  rewrite (split_slash_app day _ Hd), (split_slash_app month _ Hm),
    (split_slash_free year Hy), Hn.
  assert (Hexact : number_of n = Exact n).
  { unfold number_of. by rewrite (proj2 (Z.leb_le _ _)) by lia. }
  rewrite Hexact. cbn [plus]. unfold number_of.
  rewrite !(proj2 (Z.leb_le _ _)) by lia.
  destruct (Z.ltb_spec (currentYear - 2000 + 10) n) as [Hlt | Hge];
    (eexists; split; [reflexivity |]; split; [reflexivity |]; split_and!; lia).
Qed.

Lemma ocr_date_pivot_witness :
  parseOCRDate 2026 "21/11/25" = Some (mkDateText (Exact 2025) "11" "21") ∧
  written (mkDateText (Exact 2025) "11" "21") = Some "2025-11-21" ∧
  parseOCRDate 2026 "1/2/99" = Some (mkDateText (Exact 1999) "02" "01") ∧
  parseOCRDate 2026 "21/11/2025" = Some (mkDateText (Exact 3925) "11" "21").
Proof.
  split_and!.
  - destruct (ocr_date_pivot 2026 25 "21" "11" "25") as (y & Hrun & _ & _ & Hy & _);
      [reflexivity | reflexivity | reflexivity | reflexivity | simpl; lia | lia |].
    rewrite (Hy ltac:(lia)) in Hrun. exact Hrun.
  - destruct (ocr_date_pivot 2026 25 "21" "11" "25") as (y & _ & Hw & _ & Hy & _);
      [reflexivity | reflexivity | reflexivity | reflexivity | simpl; lia | lia |].
    rewrite (Hy ltac:(lia)) in Hw. exact Hw.
  - destruct (ocr_date_pivot 2026 99 "1" "2" "99") as (y & Hrun & _ & Hy & _);
      [reflexivity | reflexivity | reflexivity | reflexivity | simpl; lia | lia |].
    rewrite (Hy ltac:(lia)) in Hrun. exact Hrun.
  - destruct (ocr_date_pivot 2026 2025 "21" "11" "2025") as (y & Hrun & _ & Hy & _);
      [reflexivity | reflexivity | reflexivity | reflexivity | simpl; lia | lia |].
    rewrite (Hy ltac:(lia)) in Hrun. exact Hrun.
Defined.

(** *** Two records with the same [id] in a bulk replace *)

(** A request of the loop can only fail with a [ConstraintError]. *)
Lemma store_add_cases `{Keyed V} (v : V) (s : ObjectStore V) :
  store_add v s = inl CONSTRAINT ∨
  ∃ k v' g', resolve_key v (generator s) = (k, v', g') ∧
             store_lookup k (records s) = None ∧
             store_add v s = inr (mkObjectStore (store_insert k v' (records s)) g').
Proof.
  unfold store_add. destruct (resolve_key v (generator s)) as [[k v'] g'].
  destruct (store_lookup k (records s)) eqn:Hl; [by left |].
  right. by exists k, v', g'.
Qed.

Lemma resolve_key_given `{Keyed V} (v : V) (g k : Z) :
  key_of v = Some k → (resolve_key v g).1.1 = k.
Proof. intros Hk. unfold resolve_key. by rewrite Hk. Qed.

(** Once a key is taken, a later record that brings this key fails. *)
Lemma addNext_taken `{Keyed V} (isEv : bool) (dataArray : list V) (item : V) (k : Z) :
  item ∈ dataArray →
  key_of (strip_id isEv item) = Some k →
  ∀ s, is_Some (store_lookup k (records s)) →
       addNext isEv dataArray None s = RequestFailed CONSTRAINT.
Proof.
  intros Hin Hk. induction dataArray as [| x rest IH]; [by apply elem_of_nil in Hin |].
  intros s Htaken. simpl.
  destruct (store_add_cases (strip_id isEv x) s)
    as [-> | (k0 & v' & g' & Hres & Hfree & ->)]; [done |].
  apply elem_of_cons in Hin as [<- | Hin].
  - pose proof (resolve_key_given _ (generator s) k Hk) as Hk0.
    rewrite Hres in Hk0. simpl in Hk0. subst k0.
    rewrite Hfree in Htaken. by destruct Htaken.
  - apply (IH Hin). cbn [records].
    destruct (decide (k0 = k)) as [-> | Hne].
    + by rewrite AppFacts.store_lookup_insert_eq.
    + by rewrite AppFacts.store_lookup_insert_ne.
Qed.

Lemma addNext_duplicate `{Keyed V} (isEv : bool) (l1 l2 l3 : list V) (a b : V) (k : Z) :
  key_of (strip_id isEv a) = Some k →
  key_of (strip_id isEv b) = Some k →
  ∀ s, addNext isEv (l1 ++ a :: l2 ++ b :: l3) None s = RequestFailed CONSTRAINT.
Proof.
  intros Ha Hb. induction l1 as [| x l1 IH]; intros s; simpl.
  - destruct (store_add_cases (strip_id isEv a) s)
      as [-> | (k0 & v' & g' & Hres & Hfree & ->)]; [done |].
    pose proof (resolve_key_given _ (generator s) k Ha) as Hk0.
    rewrite Hres in Hk0. simpl in Hk0. subst k0.
    apply (addNext_taken isEv _ b k); [| done |].
    + apply elem_of_app. right. apply elem_of_cons. by left.
    + cbn [records]. by rewrite AppFacts.store_lookup_insert_eq.
  - destruct (store_add_cases (strip_id isEv x) s)
      as [-> | (k0 & v' & g' & Hres & Hfree & ->)]; [done |].
    apply IH.
Qed.

(** X25. A bulk replace whose records hold the same [id] twice is
    rejected with a [ConstraintError], and the store is as it was before
    the call: neither the clearing nor the records added ahead of the
    second one are kept. *)
Theorem bulk_replace_rejects_duplicate_ids `{Keyed V} (store : StoreRef V)
    (l1 l2 l3 : list V) (a b : V) (k : Z) (w : World) (d : Database) :
  db w = Some d →
  key_of (strip_id (isEvidences store) a) = Some k →
  key_of (strip_id (isEvidences store) b) = Some k →
  clearAndBulkAdd store (l1 ++ a :: l2 ++ b :: l3) w = (Thrown CONSTRAINT, w).
Proof.
  intros Hdb Ha Hb. unfold clearAndBulkAdd, clearAndBulkAdd_within. rewrite Hdb.
  unfold bulk_transaction. cbn [spent fmap option_fmap option_map].
  by rewrite (addNext_duplicate _ l1 l2 l3 a b k Ha Hb).
Qed.

Lemma bulk_replace_rejects_duplicate_ids_witness :
  clearAndBulkAdd STORES_EVIDENCES twice (with_local_evidence (always 200))
    = (Thrown (DOMException "ConstraintError"), with_local_evidence (always 200)).
Proof.
  apply (bulk_replace_rejects_duplicate_ids STORES_EVIDENCES [] [] []
           (mkEvidence (Some 5) 1 "2024-01-10" 12.5%float "" None 0)
           (mkEvidence (Some 5) 2 "2024-01-11" 8%float "" None 0) 5
           (with_local_evidence (always 200))
           (mkDatabase (mkObjectStore (numbered 1 INITIAL_USERS) 4)
              (mkObjectStore [(1, mkEvidence (Some 1) 1 "2024-01-09" 3%float "" None 0)] 2)
              ∅)); reflexivity.
Defined.

(** *** Any sequence of events *)

Lemma submit_outcome (w : World) (d : Database)
    dateValue amountValue notesValue imageBase64 :
  db w = Some d →
  ∃ w' d',
    handleAttendanceSubmit dateValue amountValue notesValue imageBase64 w = (Normal tt, w') ∧
    db w' = Some d' ∧
    trace w' = trace w ∧
    config d' = config d ∧
    (db_wf d → db_wf d') ∧
    generators_advance d d'.
Proof.
  intros Hdb.
  assert (Hsame : generators_advance d d) by (split; lia).
  destruct (currentUserId w) as [k |] eqn:Hcur.
  2: { exists w, d. split; [| by split_and!].
       unfold handleAttendanceSubmit, bind at 1, gets. by rewrite Hcur. }
  destruct (decide (k = 0)) as [-> | Hk].
  { exists w, d. split; [| by split_and!].
    unfold handleAttendanceSubmit, bind at 1, gets. by rewrite Hcur. }
  unfold handleAttendanceSubmit, bind at 1, gets. rewrite Hcur.
  rewrite (proj2 (Z.eqb_neq k 0) Hk).
  unfold bind at 1, Date_now, gets, try_catch.
  unfold bind at 1. rewrite (AppFacts.put_open _ _ w d Hdb).
  unfold bind at 1. erewrite AppFacts.getAll_open by reflexivity.
  cbn [contents replace STORES_EVIDENCES STORES_USERS users].
  pose proof (store_put_generator
                (mkEvidence None k dateValue amountValue notesValue imageBase64 (clock w))
                (evidences d)) as Hge.
  destruct (find (is_user k) (store_getAll (users d))) as [u |].
  - unfold bind at 1. unfold bind at 1. erewrite AppFacts.put_open by reflexivity.
    unfold ret at 1.
    unfold bind at 1. erewrite AppFacts.getGistConfig_open by reflexivity.
    unfold bind at 1, throw at 1.
    pose proof (store_put_generator (attend dateValue u) (users d)) as Hgu.
    destruct w as [dbw cur ck st col u0 tr sv]. simpl in Hdb, Hcur. subst dbw cur.
    eexists _, _. split; [reflexivity |]. split; [reflexivity |].
    split; [done |]. split; [done |]. split.
    + intros [Hwu Hwe]. split; cbn [users evidences]; by apply AppFacts.store_put_wf.
    + by split.
  - unfold bind at 1. unfold bind at 1. unfold ret at 1.
    unfold bind at 1. erewrite AppFacts.getGistConfig_open by reflexivity.
    unfold bind at 1, throw at 1.
    destruct w as [dbw cur ck st col u0 tr sv]. simpl in Hdb, Hcur. subst dbw cur.
    eexists _, _. split; [reflexivity |]. split; [reflexivity |].
    split; [done |]. split; [done |]. split.
    + intros [Hwu Hwe]. split; cbn [users evidences]; [done | by apply AppFacts.store_put_wf].
    + split; cbn [users evidences]; [lia | done].
Qed.

Lemma generators_advance_trans (d1 d2 d3 : Database) :
  generators_advance d1 d2 → generators_advance d2 d3 → generators_advance d1 d3.
Proof. intros [? ?] [? ?]. split; lia. Qed.

Lemma submit_keeps_server (w : World) dateValue amountValue notesValue imageBase64 :
  server (handleAttendanceSubmit dateValue amountValue notesValue imageBase64 w).2
    = server w.
Proof.
  unfold handleAttendanceSubmit, bind at 1, gets.
  destruct (currentUserId w) as [k |]; [| done].
  destruct (k =? 0); [done |].
  unfold bind at 1, Date_now, gets, try_catch.
  unfold bind at 1, put at 1.
  destruct (db w) as [d |] eqn:Hdb; [| done].
  destruct (store_put _ _) as [k1 s1].
  unfold bind at 1. erewrite AppFacts.getAll_open by reflexivity.
  destruct (find _ _) as [u |].
  - unfold bind at 1. unfold bind at 1. unfold put at 1. cbn [db set_db].
    destruct (store_put _ _) as [k2 s2]. unfold ret at 1.
    unfold bind at 1. erewrite AppFacts.getGistConfig_open by reflexivity.
    unfold bind at 1, throw at 1. by destruct w.
  - unfold bind at 1. unfold bind at 1. unfold ret at 1.
    unfold bind at 1. erewrite AppFacts.getGistConfig_open by reflexivity.
    unfold bind at 1, throw at 1. by destruct w.
Qed.

(** X26. Once the database is open, every sequence of selections, form
    submissions and closing clicks is served to its end and no listener
    throws: each one runs to its end, or is left pending, and all of
    them run to their end when the data file that the remote end serves
    is [null] or has both arrays.  The stores of records stay well
    formed, so that [getAll] lists every record once under its own
    [id], and the key generators never go back: an [id] that a store has
    numbered is not given out again, also across the bulk replaces of a
    load.  Unless the configuration form is submitted, every listener
    runs to its end, no request is made and the configuration store is
    not written. *)
Theorem session_keeps_stores (events : list PageEvent) :
  ∀ (w : World) (d : Database),
    db w = Some d →
    db_wf d →
    ∃ cs w' d',
      session events w = (cs, w') ∧
      length cs = length events ∧
      Forall (λ c, c = Normal tt ∨ c = Pending) cs ∧
      (arrays_or_null w → Forall (λ c, c = Normal tt) cs) ∧
      db w' = Some d' ∧
      db_wf d' ∧
      generators_advance d d' ∧
      (forallb keeps_configuration events = true →
         Forall (λ c, c = Normal tt) cs ∧
         trace w' = trace w ∧ config d' = config d).
Proof.
  induction events as [| e rest IH]; intros w d Hdb Hwf.
  - exists [], w, d. split; [done |]. split; [done |]. split; [done |].
    split; [done |]. split; [done |]. split; [done |].
    split; [split; lia | done].
  - assert (Hstep : ∃ c w1 d1,
              dispatch e w = (c, w1) ∧
              (c = Normal tt ∨ c = Pending) ∧
              (arrays_or_null w → c = Normal tt) ∧
              server w1 = server w ∧
              db w1 = Some d1 ∧ db_wf d1 ∧
              generators_advance d d1 ∧
              (keeps_configuration e = true →
                 c = Normal tt ∧ trace w1 = trace w ∧ config d1 = config d)).
    { destruct e as [userId userName | dv av nv img | gistId token | modalId]; simpl.
      - eexists _, _, d. split; [reflexivity |]. split; [by left |]. split; [done |].
        split; [by destruct w |]. split; [by destruct w |].
        split; [done |]. split; [split; lia | by destruct w].
      - destruct (submit_outcome w d dv av nv img Hdb)
          as (w1 & d1 & Hrun & Hdb1 & Htr & Hconf & Hwf1 & Hadv).
        pose proof (submit_keeps_server w dv av nv img) as Hsrv.
        rewrite Hrun in Hsrv.
        exists (Normal tt), w1, d1. split; [exact Hrun |]. split; [by left |].
        split; [done |]. split; [exact Hsrv |]. split; [exact Hdb1 |].
        split; [by apply Hwf1 |]. split; [exact Hadv | done].
      - unfold handleConfigSubmit.
        destruct (negb (falsy gistId) && negb (falsy token)).
        + unfold bind at 1. unfold updateGistConfig at 1. rewrite Hdb.
          unfold bind at 1. unfold closeModal at 1. unfold bind at 1.
          unfold showNotification at 1. unfold modify. cbv beta iota.
          match goal with
          | |- ∃ c w1 d1, initialDataLoad _ _ ?w0 = _ ∧ _ =>
              destruct (load_outcome w0
                          (mkDatabase (users d) (evidences d)
                             (<[CONFIG_KEY := mkConfigRecord CONFIG_KEY
                                                (mkGistConfig gistId token)]>
                                (config d))) gistId token)
                as (c & w1 & d1 & Hrun & Hc & Hshape & Hdb1 & _ & Hsrv & _ & Hwf1 & Hadv);
                [by destruct w |]
          end.
          exists c, w1, d1. split; [exact Hrun |]. split; [exact Hc |].
          split; [intros Hs; apply Hshape; by destruct w |].
          split; [rewrite Hsrv; by destruct w |]. split; [exact Hdb1 |].
          split; [by apply Hwf1 |]. split; [exact Hadv | done].
        + eexists _, _, d. split; [reflexivity |]. split; [by left |]. split; [done |].
          split; [by destruct w |]. split; [by destruct w |].
          split; [done |]. split; [split; lia | done].
      - eexists _, _, d. split; [reflexivity |]. split; [by left |]. split; [done |].
        split; [by destruct w |]. split; [by destruct w |].
        split; [done |]. split; [split; lia | by destruct w]. }
    destruct Hstep as (c & w1 & d1 & Hrun1 & Hc1 & Hshape1 & Hsrv1 & Hdb1 & Hwf1
                       & Hadv1 & Hquiet1).
    destruct (IH w1 d1 Hdb1 Hwf1)
      as (cs & w' & d' & Hrun & Hlen & Hcs & Hshape & Hdb' & Hwf' & Hadv & Hquiet).
    exists (c :: cs), w', d'. split.
    { cbn [session]. by rewrite Hrun1, Hrun. }
    split; [simpl; by rewrite Hlen |].
    split; [by constructor |].
    split.
    { intros Hs. constructor; [by apply Hshape1 |]. apply Hshape.
      unfold arrays_or_null. rewrite Hsrv1. exact Hs. }
    split; [exact Hdb' |]. split; [exact Hwf' |].
    split; [by eapply generators_advance_trans |].
    cbn [forallb]. intros [He Hrest]%andb_prop.
    destruct (Hquiet1 He) as (Hn1 & Ht1 & Hc1'). destruct (Hquiet Hrest) as (Hn2 & Ht2 & Hc2).
    split; [by constructor |]. split; congruence.
Qed.

Lemma session_keeps_stores_witness :
  ∃ w' d',
    session [UserSelect 2 "Roberto Gómez";
             AttendanceSubmit "2024-01-10" 12.5%float "" None;
             CloseClick "modal-ocr";
             ConfigSubmit "abc" "tok";
             AttendanceSubmit "2024-01-11" 8%float "" None]
      (seeded (always 404))
      = ([Normal tt; Normal tt; Normal tt; Normal tt; Normal tt], w') ∧
    db w' = Some d' ∧
    db_wf d' ∧
    4 ≤ generator (users d') ∧ 1 ≤ generator (evidences d').
Proof.
  destruct (session_keeps_stores
              [UserSelect 2 "Roberto Gómez";
               AttendanceSubmit "2024-01-10" 12.5%float "" None;
               CloseClick "modal-ocr";
               ConfigSubmit "abc" "tok";
               AttendanceSubmit "2024-01-11" 8%float "" None]
              (seeded (always 404))
              (mkDatabase (mkObjectStore (numbered 1 INITIAL_USERS) 4) empty_store ∅))
    as (cs & w' & d' & Hrun & Hlen & _ & Hshape & Hdb & Hwf & Hadv & _).
  - reflexivity.
  - split; split; simpl; repeat constructor; simpl; lia.
  - assert (Hall : Forall (λ c, c = Normal tt) cs).
    { apply Hshape. intros n req r files us es [= <-] [=]. }
    destruct cs as [| c1 [| c2 [| c3 [| c4 [| c5 [| c6 cs]]]]]]; try discriminate Hlen.
    repeat match goal with
           | H : Forall _ (_ :: _) |- _ => apply Forall_cons in H as [-> H]
           end.
    exists w', d'. split; [exact Hrun |]. split; [exact Hdb |].
    split; [exact Hwf | exact Hadv].
Defined.

End AppExtras.
